(** * BETRAYAL: the game-session engine of [card.py]

    A shallow embedding of the in-memory matchmaking queue, the session
    registry and the card engine ([create_game_for_players], [join_queue],
    [leave_queue], [play_card], [winner_by_killer]) together with the
    properties of the engine stated in the specification.

    Conventions.
    - Python lists are Rocq lists in the same order ([pop()] takes the last
      element, [pop(0)] the first, [append] adds at the end).
    - Python dicts are association lists in insertion order.
    - User ids are the integer primary keys of the [users] table ([Z]);
      card names and user names are strings.
    - The calls into [random], [uuid] and [time] are answered by explicit
      inputs: a list of raw draws, the fresh id and the clock value. *)

From Stdlib Require Import String Ascii DecimalString ZArith Bool Arith Lia List.
From Stdlib Require Import Permutation.
Import ListNotations.

Local Open Scope list_scope.
Local Open Scope Z_scope.

(** ** Python containers *)

(** Keys of dicts and elements searched by [in] / [remove]: a type with a
    boolean equality that decides Leibniz equality. *)
Class PyEq (K : Type) := {
  py_eqb : K -> K -> bool;
  py_eqb_spec : forall a b, reflect (a = b) (py_eqb a b)
}.

#[export] Instance PyEq_Z : PyEq Z :=
  {| py_eqb := Z.eqb; py_eqb_spec := Z.eqb_spec |}.

#[export] Instance PyEq_string : PyEq string :=
  {| py_eqb := String.eqb; py_eqb_spec := String.eqb_spec |}.

Section PyList.
Context {A : Type} `{PyEq A}.

(** [x in l] *)
Fixpoint py_in (x : A) (l : list A) : bool :=
  match l with
  | [] => false
  | y :: l' => if py_eqb x y then true else py_in x l'
  end.

(** [l.remove(x)]: drops the first element equal to [x].  Python raises
    [ValueError] when there is none; every call in [card.py] follows a
    successful membership test, and the model leaves the list as it is. *)
Fixpoint py_remove (x : A) (l : list A) : list A :=
  match l with
  | [] => []
  | y :: l' => if py_eqb x y then l' else y :: py_remove x l'
  end.

(** [l.pop()]: the last element and the list without it; [None] stands
    for the [IndexError] on an empty list. *)
Fixpoint py_pop (l : list A) : option (A * list A) :=
  match l with
  | [] => None
  | [x] => Some (x, [])
  | y :: l' =>
      match py_pop l' with
      | Some (x, r) => Some (x, y :: r)
      | None => None
      end
  end.

(** [[l.pop() for _ in range(n)]] *)
Fixpoint py_pop_n (n : nat) (l : list A) : option (list A * list A) :=
  match n with
  | O => Some ([], l)
  | S n' =>
      match py_pop l with
      | None => None
      | Some (x, l1) =>
          match py_pop_n n' l1 with
          | None => None
          | Some (xs, l2) => Some (x :: xs, l2)
          end
      end
  end.

(** [l[i] = x] for [i] in range *)
Definition list_set (i : nat) (x : A) (l : list A) : list A :=
  firstn i l ++ x :: skipn (S i) l.

(** [l[i], l[j] = l[j], l[i]] *)
Definition list_swap (i j : nat) (l : list A) : list A :=
  match nth_error l i, nth_error l j with
  | Some a, Some b => list_set j a (list_set i b l)
  | _, _ => l
  end.
End PyList.

Section PyDict.
Context {K V : Type} `{PyEq K}.

Definition dict := list (K * V).

(** [d.get(k)] *)
Fixpoint dget (k : K) (d : dict) : option V :=
  match d with
  | [] => None
  | (k', v) :: d' => if py_eqb k k' then Some v else dget k d'
  end.

(** [k in d] *)
Definition dmem (k : K) (d : dict) : bool :=
  match dget k d with Some _ => true | None => false end.

(** [d.get(k, dflt)] *)
Definition dget_default (k : K) (dflt : V) (d : dict) : V :=
  match dget k d with Some v => v | None => dflt end.

(** [d[k] = v]: an existing key keeps its position, a new key goes last. *)
Fixpoint dset (k : K) (v : V) (d : dict) : dict :=
  match d with
  | [] => [(k, v)]
  | (k', v') :: d' =>
      if py_eqb k k' then (k, v) :: d' else (k', v') :: dset k v d'
  end.

(** [d.pop(k, None)] (the popped value is not used by the callers) *)
Fixpoint dpop (k : K) (d : dict) : dict :=
  match d with
  | [] => []
  | (k', v') :: d' =>
      if py_eqb k k' then d' else (k', v') :: dpop k d'
  end.
End PyDict.

Arguments dict : clear implicits.

(** ** The [random] module

    The source draws from a process-wide generator.  A request is given the
    raw draws it may consume as a list; [randbelow n] reduces the next draw
    modulo [n] (an exhausted list answers 0). *)

Definition Rng := list nat.

Definition randbelow (n : nat) (r : Rng) : nat * Rng :=
  match r with
  | [] => (O, [])
  | x :: r' => (Nat.modulo x n, r')
  end.

Section Random.
Context {A : Type}.

(** [random.shuffle(x)]:
    [for i in reversed(range(1, len(x))): j = randbelow(i+1); x[i], x[j] = x[j], x[i]] *)
Fixpoint shuffle_from (i : nat) (l : list A) (r : Rng) : list A * Rng :=
  match i with
  | O => (l, r)
  | S i' =>
      let (j, r') := randbelow (S i) r in
      shuffle_from i' (list_swap i j l) r'
  end.

Definition shuffle (l : list A) (r : Rng) : list A * Rng :=
  shuffle_from (Nat.pred (List.length l)) l r.

(** [random.choice(seq)]: [seq[randbelow(len(seq))]].  The only call in
    the engine is on a hand already tested non-empty; [dflt] is what the
    model answers where Python raises [IndexError] on an empty sequence. *)
Definition choice (dflt : A) (l : list A) (r : Rng) : A * Rng :=
  let (j, r') := randbelow (List.length l) r in (nth j l dflt, r').
End Random.

(** ** The [users] table

    [id INTEGER PRIMARY KEY AUTOINCREMENT, username TEXT UNIQUE NOT NULL];
    the other columns ([password_hash], [level], [avatar]) are not read by
    the engine. *)

Record User := mkUser { user_id : Z; username : string }.

Definition Db := list User.

(** SQLite hands out AUTOINCREMENT keys from 1 upwards. *)
Definition db_wf (db : Db) : Prop :=
  Forall (fun u => 0 < user_id u) db.

(** [SELECT * FROM users WHERE id = ?] followed by [fetchone()] *)
Definition select_by_id (db : Db) (uid : Z) : option User :=
  find (fun u => Z.eqb (user_id u) uid) db.

(** [SELECT id FROM users WHERE username = ?] followed by [fetchone()] *)
Definition select_by_username (db : Db) (name : string) : option User :=
  find (fun u => String.eqb (username u) name) db.

(** [current_user()]; [sess] is [session.get('user_id')]. *)
Definition current_user (db : Db) (sess : option Z) : option User :=
  match sess with
  | None => None
  | Some uid => select_by_id db uid
  end.

Definition str_of_Z (z : Z) : string := NilZero.string_of_int (Z.to_int z).
Definition str_of_nat (n : nat) : string := NilZero.string_of_uint (Nat.to_uint n).

Definition get_username_by_id (db : Db) (uid : Z) : string :=
  match select_by_id db uid with
  | Some r => username r
  | None => String.append "UID" (str_of_Z uid)
  end.

Definition get_userid_by_username (db : Db) (name : string) : option Z :=
  match select_by_username db name with
  | Some r => Some (user_id r)
  | None => None
  end.

(** Truth value of an id: [None] and [0] are false. *)
Definition truthy_id (o : option Z) : bool :=
  match o with
  | None => false
  | Some z => negb (Z.eqb z 0)
  end.

(** ** Cards and the deck *)

Definition MATCH_SIZE : nat := 5.

Definition main_cards : list string :=
  ["statecard"; "searchcard"; "shieldcard"; "takecard"; "exchangecard"; "judgecard"]%string.

(** The deck before [random.shuffle]: 5 of each main card, then one
    [killcard] and one [accusatecard]. *)
Definition unshuffled_deck : list string :=
  flat_map (fun c => repeat c 5) main_cards ++ ["killcard"; "accusatecard"]%string.

Definition make_new_deck (r : Rng) : list string * Rng :=
  shuffle unshuffled_deck r.

(** ** Games and the process-wide state *)

Record Game := mkGame {
  game_id : string;
  players : list Z;
  alive : list Z;
  hands : dict Z (list string);
  deck : list string;
  used : list string;
  killer : option Z;
  shields_equipped : dict Z bool;
  log : list string;
  started_at : Z;
  finished : bool;
  winner : option string
}.

(** [matchmaking_queue], [games] and [user_to_game].  ([queue_map_lock] is
    never read or written.) *)
Record World := mkWorld {
  matchmaking_queue : list Z;
  games : dict string Game;
  user_to_game : dict Z string
}.

Definition init_world : World := mkWorld [] [] [].

(** [for pid in player_ids: hands[pid] = [deck.pop() for _ in range(3)]];
    [None] when the deck runs out ([IndexError]). *)
Fixpoint deal (player_ids : list Z) (hs : dict Z (list string)) (dk : list string)
  : option (dict Z (list string) * list string) :=
  match player_ids with
  | [] => Some (hs, dk)
  | pid :: rest =>
      match py_pop_n 3 dk with
      | None => None
      | Some (h, dk') => deal rest (dset pid h hs) dk'
      end
  end.

(** [for pid, hand in hands.items(): if 'killcard' in hand: killer = pid; break] *)
Fixpoint find_killer (hs : dict Z (list string)) : option Z :=
  match hs with
  | [] => None
  | (pid, hand) :: rest =>
      if py_in "killcard"%string hand then Some pid else find_killer rest
  end.

(** [for pid in player_ids: user_to_game[pid] = game['id']] *)
Fixpoint register_players (player_ids : list Z) (gid : string) (m : dict Z string)
  : dict Z string :=
  match player_ids with
  | [] => m
  | pid :: rest => register_players rest gid (dset pid gid m)
  end.

(** [new_id] is [str(uuid.uuid4())[:8]] and [now] is [time.time()]. *)
Definition create_game_for_players (new_id : string) (now : Z) (r : Rng)
    (player_ids : list Z) (w : World) : option (Game * World) :=
  let (dk0, _) := make_new_deck r in
  match deal player_ids [] dk0 with
  | None => None
  | Some (hs, dk) =>
      let game :=
        {| game_id := new_id;
           players := player_ids;
           alive := player_ids;
           hands := hs;
           deck := dk;
           used := [];
           killer := find_killer hs;
           shields_equipped := [];
           log := [];
           started_at := now;
           finished := false;
           winner := None |} in
      Some (game,
            {| matchmaking_queue := matchmaking_queue w;
               games := dset new_id game (games w);
               user_to_game := register_players player_ids new_id (user_to_game w) |})
  end.

(** [winner_by_killer]: the killer wins if alive and everyone else is dead. *)
Definition winner_by_killer (alive_ : list Z) (killer_ : option Z) : bool :=
  match killer_ with
  | None => false
  | Some k =>
      if py_in k alive_ &&
         Nat.eqb (List.length (filter (fun p => negb (Z.eqb p k)) alive_)) 0
      then true else false
  end.

(** ** Responses of the request handlers *)

Inductive Response :=
| redirect_login
| redirect_play (flash : string)
| redirect_game_room (gid : string) (flash : option string)
| json_login_required
| json_started (gid : option string)
| json_left
| json_status (size : nat) (gid : option string)
| internal_error.

(** ** Matchmaking *)

(** [[matchmaking_queue.pop(0) for _ in range(n)]] *)
Fixpoint pop_front_n (n : nat) (q : list Z) : option (list Z * list Z) :=
  match n with
  | O => Some ([], q)
  | S n' =>
      match q with
      | [] => None
      | x :: q1 =>
          match pop_front_n n' q1 with
          | None => None
          | Some (xs, q2) => Some (x :: xs, q2)
          end
      end
  end.

Definition join_queue (db : Db) (sess : option Z) (new_id : string) (now : Z)
    (r : Rng) (w : World) : Response * World :=
  match current_user db sess with
  | None => (json_login_required, w)
  | Some user =>
      let uid := user_id user in
      let q1 := if py_in uid (matchmaking_queue w)
                then matchmaking_queue w
                else matchmaking_queue w ++ [uid] in
      if Nat.leb MATCH_SIZE (List.length q1) then
        match pop_front_n MATCH_SIZE q1 with
        | None => (internal_error, mkWorld q1 (games w) (user_to_game w))
        | Some (ps, q2) =>
            let w2 := mkWorld q2 (games w) (user_to_game w) in
            match create_game_for_players new_id now r ps w2 with
            | None => (internal_error, w2)
            | Some (g, w3) => (json_started (Some (game_id g)), w3)
            end
        end
      else (json_started None, mkWorld q1 (games w) (user_to_game w))
  end.

Definition leave_queue (db : Db) (sess : option Z) (w : World) : Response * World :=
  match current_user db sess with
  | None => (json_login_required, w)
  | Some user =>
      let uid := user_id user in
      let q1 := if py_in uid (matchmaking_queue w)
                then py_remove uid (matchmaking_queue w)
                else matchmaking_queue w in
      (json_left, mkWorld q1 (games w) (user_to_game w))
  end.

Definition queue_status (db : Db) (sess : option Z) (w : World) : Response :=
  match current_user db sess with
  | None => json_login_required
  | Some user =>
      json_status (List.length (matchmaking_queue w))
                  (match dget (user_id user) (user_to_game w) with
                   | Some gid => if String.eqb gid "" then None else Some gid
                   | None => None
                   end)
  end.

(** ** The card engine *)

(** [g['hands'].get(p, [])] *)
Definition hand_of (g : Game) (p : Z) : list string :=
  dget_default p [] (hands g).

(** Field updates of the game dict. *)
Definition set_alive (x : list Z) (g : Game) : Game :=
  mkGame (game_id g) (players g) x (hands g) (deck g) (used g) (killer g)
         (shields_equipped g) (log g) (started_at g) (finished g) (winner g).
Definition set_hands (x : dict Z (list string)) (g : Game) : Game :=
  mkGame (game_id g) (players g) (alive g) x (deck g) (used g) (killer g)
         (shields_equipped g) (log g) (started_at g) (finished g) (winner g).
Definition set_deck (x : list string) (g : Game) : Game :=
  mkGame (game_id g) (players g) (alive g) (hands g) x (used g) (killer g)
         (shields_equipped g) (log g) (started_at g) (finished g) (winner g).
Definition set_used (x : list string) (g : Game) : Game :=
  mkGame (game_id g) (players g) (alive g) (hands g) (deck g) x (killer g)
         (shields_equipped g) (log g) (started_at g) (finished g) (winner g).
Definition set_killer (x : option Z) (g : Game) : Game :=
  mkGame (game_id g) (players g) (alive g) (hands g) (deck g) (used g) x
         (shields_equipped g) (log g) (started_at g) (finished g) (winner g).
Definition set_shields (x : dict Z bool) (g : Game) : Game :=
  mkGame (game_id g) (players g) (alive g) (hands g) (deck g) (used g) (killer g)
         x (log g) (started_at g) (finished g) (winner g).
Definition set_result (f : bool) (w : option string) (g : Game) : Game :=
  mkGame (game_id g) (players g) (alive g) (hands g) (deck g) (used g) (killer g)
         (shields_equipped g) (log g) (started_at g) f w.

(** [g['log'].append(msg)] *)
Definition add_log (msg : string) (g : Game) : Game :=
  mkGame (game_id g) (players g) (alive g) (hands g) (deck g) (used g) (killer g)
         (shields_equipped g) (log g ++ [msg]) (started_at g) (finished g) (winner g).

(** [g['used'].append(card)] *)
Definition discard (card : string) (g : Game) : Game :=
  set_used (used g ++ [card]) g.

(** [g['alive'].remove(p); g['used'] += g['hands'].get(p, []); g['hands'][p] = []] *)
Definition eliminate (p : Z) (g : Game) : Game :=
  let g1 := set_alive (py_remove p (alive g)) g in
  let g2 := set_used (used g1 ++ hand_of g1 p) g1 in
  set_hands (dset p [] (hands g2)) g2.

Local Notation "a +++ b" := (String.append a b) (at level 60, right associativity).

(** The body of the [for _ in range(3)] loop of SEARCH, iterated [n] times
    over the deck, the used pile, the cards drawn so far and the generator. *)
Fixpoint search_draws (n : nat) (dk us draws : list string) (r : Rng)
  : list string * list string * list string * Rng :=
  match n with
  | O => (dk, us, draws, r)
  | S n' =>
      let '(dk1, us1, r1) :=
        match dk with
        | [] => let (d, r') := shuffle us r in (d, [], r')
        | _ :: _ => (dk, us, r)
        end in
      match py_pop dk1 with
      | Some (c, dk2) => search_draws n' dk2 us1 (draws ++ [c]) r1
      | None => search_draws n' dk1 us1 draws r1
      end
  end.

Section Engine.
Variable db : Db.

Definition name_of (uid : Z) : string := get_username_by_id db uid.

Definition play_state (uid : Z) (g : Game) : Game :=
  discard "statecard" (add_log (name_of uid +++ " played STATE.") g).

Definition play_search (uid : Z) (r : Rng) (g : Game) : Game :=
  let g1 := discard "searchcard" g in
  let '(dk, us, draws, _) := search_draws 3 (deck g1) (used g1) [] r in
  let g2 := set_used us (set_deck dk g1) in
  let g3 := set_hands (dset uid (hand_of g2 uid ++ draws) (hands g2)) g2 in
  add_log (name_of uid +++ " searched and drew "
           +++ str_of_nat (List.length draws) +++ " card(s).") g3.

Definition play_shield (uid : Z) (g : Game) : Game :=
  add_log (name_of uid +++ " equipped SHIELD.")
          (set_shields (dset uid true (shields_equipped g)) g).

Definition play_take (uid : Z) (target_username : string) (r : Rng) (g : Game) : Game :=
  let g1 := discard "takecard" g in
  if String.eqb target_username "" then add_log "No target provided for TAKE." g1
  else
    match get_userid_by_username db target_username with
    | Some target_id =>
        if negb (Z.eqb target_id 0) && py_in target_id (alive g1)
           && negb (Z.eqb target_id uid)
        then
          let target_hand := hand_of g1 target_id in
          match target_hand with
          | c :: _ =>
              let taken := fst (choice c target_hand r) in
              let g2 := set_hands (dset target_id (py_remove taken target_hand)
                                        (hands g1)) g1 in
              let g3 := set_hands (dset uid (hand_of g2 uid ++ [taken])
                                        (hands g2)) g2 in
              add_log (name_of uid +++ " took a card from "
                       +++ target_username +++ ".") g3
          | [] => add_log (target_username +++ " had no cards to take.") g1
          end
        else add_log "Invalid target for TAKE." g1
    | None => add_log "Invalid target for TAKE." g1
    end.

Definition play_exchange (uid : Z) (target_username : string) (g : Game) : Game :=
  let g1 := discard "exchangecard" g in
  if String.eqb target_username "" then add_log "No target provided for EXCHANGE." g1
  else
    match get_userid_by_username db target_username with
    | Some target_id =>
        if negb (Z.eqb target_id 0) && py_in target_id (alive g1)
           && negb (Z.eqb target_id uid)
        then
          let mine := hand_of g1 uid in
          let theirs := hand_of g1 target_id in
          let g2 := set_hands (dset target_id mine (dset uid theirs (hands g1))) g1 in
          add_log (name_of uid +++ " exchanged hands with "
                   +++ target_username +++ ".") g2
        else add_log "Invalid target for EXCHANGE." g1
    | None => add_log "Invalid target for EXCHANGE." g1
    end.

Definition play_judge (uid : Z) (g : Game) : Game :=
  add_log (name_of uid +++ " played JUDGE — vote phase would start (demo).")
          (discard "judgecard" g).

Definition play_accusate (uid : Z) (target_username : string) (g : Game) : Game :=
  let g1 := discard "accusatecard" g in
  if String.eqb target_username "" then add_log "No target provided for ACCUSATION." g1
  else
    match get_userid_by_username db target_username with
    | Some target_id =>
        if negb (Z.eqb target_id 0) && py_in target_id (alive g1) then
          match killer g1 with
          | Some k =>
              if Z.eqb k target_id then
                set_result true (Some "faithfuls"%string)
                  (set_killer None
                     (add_log (name_of uid +++ " used ACCUSATION and was correct! "
                               +++ target_username +++ " eliminated.")
                              (eliminate target_id g1)))
              else
                add_log (name_of uid +++ " used ACCUSATION and was wrong → "
                         +++ name_of uid +++ " eliminated.")
                        (eliminate uid g1)
          | None =>
              add_log (name_of uid +++ " used ACCUSATION and was wrong → "
                       +++ name_of uid +++ " eliminated.")
                      (eliminate uid g1)
          end
        else add_log "Invalid target for ACCUSATION." g1
    | None => add_log "Invalid target for ACCUSATION." g1
    end.

Definition play_kill (uid : Z) (target_username : string) (g : Game) : Game :=
  let g1 := set_killer (Some uid) (discard "killcard" g) in
  if String.eqb target_username "" then add_log "No target provided for KILL." g1
  else
    match get_userid_by_username db target_username with
    | Some target_id =>
        if negb (Z.eqb target_id 0) && py_in target_id (alive g1)
           && negb (Z.eqb target_id uid)
        then
          match dget target_id (shields_equipped g1) with
          | Some true =>
              let g2 := set_shields (dpop target_id (shields_equipped g1)) g1 in
              let g3 := set_hands (dset uid (hand_of g2 uid ++ ["shieldcard"%string])
                                        (hands g2)) g2 in
              add_log (name_of uid +++ " attempted to kill " +++ target_username
                       +++ " but shield broke and was taken by killer.") g3
          | _ =>
              add_log (name_of uid +++ " used KILL and eliminated "
                       +++ target_username +++ ".")
                      (eliminate target_id g1)
          end
        else add_log "Invalid target for KILL." g1
    | None => add_log "Invalid target for KILL." g1
    end.

Definition play_other (uid : Z) (card : string) (g : Game) : Game :=
  add_log (name_of uid +++ " played " +++ card +++ " (demo).") (discard card g).

(** The [if card == ... elif ...] chain, entered after
    [g['hands'][uid].remove(card)]. *)
Definition apply_card (uid : Z) (card target_username : string) (r : Rng)
    (g : Game) : Game :=
  let g0 := set_hands (dset uid (py_remove card (hand_of g uid)) (hands g)) g in
  if String.eqb card "statecard" then play_state uid g0
  else if String.eqb card "searchcard" then play_search uid r g0
  else if String.eqb card "shieldcard" then play_shield uid g0
  else if String.eqb card "takecard" then play_take uid target_username r g0
  else if String.eqb card "exchangecard" then play_exchange uid target_username g0
  else if String.eqb card "judgecard" then play_judge uid g0
  else if String.eqb card "accusatecard" then play_accusate uid target_username g0
  else if String.eqb card "killcard" then play_kill uid target_username g0
  else play_other uid card g0.

(** [all((p in g['hands'] and g['hands'].get(p) == []) for p in g['players'])] *)
Definition all_hands_empty (g : Game) : bool :=
  forallb (fun p => match dget p (hands g) with
                    | Some [] => true
                    | _ => false
                    end) (players g).

(** The "quick end checks" that close [play_card]. *)
Definition end_checks (g : Game) : Game :=
  if truthy_id (killer g) && winner_by_killer (alive g) (killer g)
  then set_result true (Some "killer"%string) g
  else
    match killer g with
    | None =>
        if all_hands_empty g then set_result true (Some "faithfuls"%string) g
        else g
    | Some _ => g
    end.

(** [play_card] from the lookup of the game onwards: [uid] is the id of the
    logged-in user, [form_card] is [request.form.get('card')] and
    [target_username] is [request.form.get('target_username', '').strip()]. *)
Definition play_card_in (gid : string) (uid : Z) (form_card : option string)
    (target_username : string) (r : Rng) (g : Game) : Response * Game :=
  if negb (py_in uid (players g)) then
    (redirect_play "Game not found or you're not a player.", g)
  else if negb (py_in uid (alive g)) then
    (redirect_game_room gid (Some "You're eliminated."%string), g)
  else
    match form_card with
    | None => (redirect_game_room gid (Some "Invalid card selection."%string), g)
    | Some card =>
        if String.eqb card "" || negb (py_in card (hand_of g uid)) then
          (redirect_game_room gid (Some "Invalid card selection."%string), g)
        else
          (redirect_game_room gid None,
           end_checks (apply_card uid card target_username r g))
    end.

(** The handler of [/game/<game_id>/play_card]. *)
Definition play_card (sess : option Z) (gid : string) (form_card : option string)
    (target_username : string) (r : Rng) (w : World) : Response * World :=
  match current_user db sess with
  | None => (redirect_login, w)
  | Some user =>
      match dget gid (games w) with
      | None => (redirect_play "Game not found or you're not a player.", w)
      | Some g =>
          let (resp, g') :=
            play_card_in gid (user_id user) form_card target_username r g in
          (resp, mkWorld (matchmaking_queue w) (dset gid g' (games w))
                         (user_to_game w))
      end
  end.
End Engine.

(** ** Measures, invariants and reachable states *)

(** Number of cards held in all hands. *)
Definition hands_total (h : dict Z (list string)) : nat :=
  list_sum (map (fun kv => List.length (snd kv)) h).

(** [|deck| + sum of |hand_p| + |used|] *)
Definition card_total (g : Game) : nat :=
  (List.length (deck g) + hands_total (hands g) + List.length (used g))%nat.

(** The target named in the form resolves to the player [t]. *)
Definition names (db : Db) (target_username : string) (t : Z) : Prop :=
  target_username <> ""%string /\ get_userid_by_username db target_username = Some t.

(** The call passes the three guards of [play_card]: the actor is a
    participant, is alive and holds the (non-empty) card name. *)
Definition accepted (g : Game) (uid : Z) (card : string) : Prop :=
  py_in uid (players g) = true /\ py_in uid (alive g) = true /\
  card <> ""%string /\ py_in card (hand_of g uid) = true.

(** A KILL play that meets an equipped shield. *)
Definition shield_break (db : Db) (g : Game) (uid : Z) (card target_username : string)
  : bool :=
  String.eqb card "killcard" && negb (String.eqb target_username "") &&
  match get_userid_by_username db target_username with
  | Some t =>
      negb (Z.eqb t 0) && py_in t (alive g) && negb (Z.eqb t uid) &&
      match dget t (shields_equipped g) with Some true => true | _ => false end
  | None => false
  end.

(** State invariant of a session. *)
Record game_ok (g : Game) : Prop := {
  ok_alive_nodup : NoDup (alive g);
  ok_killer_id : forall k, killer g = Some k -> k <> 0;
  ok_killer_won : winner g = Some "killer"%string ->
                  finished g = true /\ exists k, killer g = Some k /\ alive g = [k];
  ok_shield_keys : NoDup (map fst (shields_equipped g));
  ok_cards : (card_total g + List.length (shields_equipped g) <= 32)%nat
}.

(** Invariant of the process-wide state. *)
Record world_ok (w : World) : Prop := {
  ok_queue_nodup : NoDup (matchmaking_queue w);
  ok_queue_short : (List.length (matchmaking_queue w) < MATCH_SIZE)%nat;
  ok_queue_ids : forall u, In u (matchmaking_queue w) -> 0 < u;
  ok_games : forall gid g, dget gid (games w) = Some g -> game_ok g
}.

(** One request served by the process; [db] is the [users] table at the
    time of the request (accounts may have been created since the last
    one). *)
Inductive step : World -> World -> Prop :=
| step_join db sess new_id now r w :
    db_wf db -> step w (snd (join_queue db sess new_id now r w))
| step_leave db sess w :
    db_wf db -> step w (snd (leave_queue db sess w))
| step_play db sess gid form_card target_username r w :
    db_wf db -> step w (snd (play_card db sess gid form_card target_username r w)).

(** The states of the process, from its start. *)
Inductive reachable : World -> Prop :=
| reach_init : reachable init_world
| reach_step w w' : reachable w -> step w w' -> reachable w'.

(** A join request: the session's user id, the fresh game id, the clock and
    the random draws. *)
Definition JoinReq : Type := option Z * string * Z * Rng.

Definition join_all (db : Db) (reqs : list JoinReq) (w : World) : World :=
  fold_left (fun w q => let '(sess, new_id, now, r) := q in
                        snd (join_queue db sess new_id now r w)) reqs w.

(** A play request: the session's user id, the card and the target name. *)
Definition PlayReq : Type := Z * string * string.

Definition play_all (db : Db) (gid : string) (reqs : list PlayReq) (w : World) : World :=
  fold_left (fun w q => let '(u, card, target) := q in
                        snd (play_card db (Some u) gid (Some card) target [] w)) reqs w.

(** How a call that passes the guards changes the alive list, the killer
    and the result fields: nothing, a KILL without or with a victim, a right
    or a wrong ACCUSATION. *)
Inductive outcome (uid : Z) (card : string) (g g1 : Game) : Prop :=
| out_same :
    alive g1 = alive g -> killer g1 = killer g ->
    finished g1 = finished g -> winner g1 = winner g -> outcome uid card g g1
| out_kill_miss :
    card = "killcard"%string ->
    alive g1 = alive g -> killer g1 = Some uid ->
    finished g1 = finished g -> winner g1 = winner g -> outcome uid card g g1
| out_kill_hit t :
    card = "killcard"%string ->
    In t (alive g) -> t <> uid ->
    alive g1 = py_remove t (alive g) -> killer g1 = Some uid ->
    finished g1 = finished g -> winner g1 = winner g -> outcome uid card g g1
| out_accuse_right t :
    In t (alive g) -> killer g = Some t ->
    alive g1 = py_remove t (alive g) -> killer g1 = None ->
    finished g1 = true -> winner g1 = Some "faithfuls"%string -> outcome uid card g g1
| out_accuse_wrong t :
    In t (alive g) -> killer g <> Some t ->
    alive g1 = py_remove uid (alive g) -> killer g1 = killer g ->
    finished g1 = finished g -> winner g1 = winner g -> outcome uid card g g1.

(** The shield flags after the [if/elif] chain. *)
Definition shields_after (db : Db) (g : Game) (uid : Z) (card target_username : string)
  : dict Z bool :=
  if String.eqb card "shieldcard" then dset uid true (shields_equipped g)
  else if shield_break db g uid card target_username then
    match get_userid_by_username db target_username with
    | Some t => dpop t (shields_equipped g)
    | None => shields_equipped g
    end
  else shields_equipped g.

(** Case analysis on the card name, in the order of the [if/elif] chain. *)
Ltac card_cases card :=
  destruct (String.eqb_spec card "statecard") as [->|?];
  [|destruct (String.eqb_spec card "searchcard") as [->|?];
    [|destruct (String.eqb_spec card "shieldcard") as [->|?];
      [|destruct (String.eqb_spec card "takecard") as [->|?];
        [|destruct (String.eqb_spec card "exchangecard") as [->|?];
          [|destruct (String.eqb_spec card "judgecard") as [->|?];
            [|destruct (String.eqb_spec card "accusatecard") as [->|?];
              [|destruct (String.eqb_spec card "killcard") as [->|?]]]]]]]].


(** ** Sample sessions

    Five registered users join in turn and are matched into the session
    ["g1"]; the draws decide the opening hands. *)

Definition demo_db : Db :=
  [mkUser 1 "ann"; mkUser 2 "bob"; mkUser 3 "cat"; mkUser 4 "dan"; mkUser 5 "eve"].

Definition demo_joins (r : Rng) : list JoinReq :=
  map (fun u => (Some u, "g1"%string, 0, r)) [1; 2; 3; 4; 5].

Definition empty_game : Game :=
  mkGame "" [] [] [] [] [] None [] [] 0 false None.

(** The session ["g1"] of a world. *)
Definition the_game (w : World) : Game :=
  dget_default "g1"%string empty_game (games w).

(** ann is dealt [statecard; accusatecard; killcard] and is the killer;
    bob holds three [judgecard]s, eve [exchangecard; takecard; takecard]. *)
Definition demo_world : World := join_all demo_db (demo_joins []) init_world.

(** ann is dealt [shieldcard; statecard; killcard]. *)
Definition shield_world : World :=
  join_all demo_db (demo_joins [10%nat]) init_world.

(** The [killcard] stays in the deck and no [searchcard] is dealt; ann is
    dealt [accusatecard; statecard; judgecard]. *)
Definition nokill_world : World :=
  join_all demo_db (demo_joins ([31; 0] ++ rev (seq 1 29))%nat) init_world.

(** ann is dealt the [killcard], bob the [accusatecard]. *)
Definition accuse_world : World :=
  join_all demo_db (demo_joins ([28] ++ rev (seq 1 30))%nat) init_world.

(** A session down to two players, ann being the killer with the [killcard]
    in hand. *)
Definition duel_game : Game :=
  {| game_id := "g1"; players := [1; 2; 3; 4; 5]; alive := [1; 2];
     hands := [(1, ["killcard"%string]); (2, ["statecard"%string]);
               (3, []); (4, []); (5, [])];
     deck := ["judgecard"%string]; used := []; killer := Some 1;
     shields_equipped := []; log := []; started_at := 0;
     finished := false; winner := None |}.

(** [shield_world] after ann has played her [shieldcard]. *)
Definition shield_played_world : World :=
  play_all demo_db "g1" [(1, "shieldcard"%string, ""%string)] shield_world.

(** Two games that differ at most in the [finished] and [winner] fields. *)
Definition same_but_result (g1 g2 : Game) : Prop :=
  exists f w, g1 = set_result f w g2.

(** [accuse_world] after bob has accused ann, the killer. *)
Definition finished_world : World :=
  play_all demo_db "g1" [(2, "accusatecard"%string, "ann"%string)] accuse_world.

(** [nokill_world] after everybody has played every card but ann's
    [accusatecard] (no target is named for EXCHANGE and TAKE). *)
Definition last_card_world : World :=
  play_all demo_db "g1"
    [(1, "statecard", ""); (1, "judgecard", "");
     (2, "judgecard", ""); (2, "judgecard", ""); (2, "judgecard", "");
     (3, "judgecard", ""); (3, "exchangecard", ""); (3, "exchangecard", "");
     (4, "exchangecard", ""); (4, "exchangecard", ""); (4, "exchangecard", "");
     (5, "takecard", ""); (5, "takecard", ""); (5, "takecard", "")]%string
    nokill_world.

(** The killer is the only player alive. *)
Definition sole_killer (g : Game) : Prop :=
  exists k, killer g = Some k /\ alive g = [k].

(** [demo_world] after bob has played his three [judgecard]s. *)
Definition bob_empty_world : World :=
  play_all demo_db "g1"
    [(2, "judgecard", ""); (2, "judgecard", ""); (2, "judgecard", "")]%string
    demo_world.

(** The join request [q] comes from the logged-in user [u]. *)
Definition logged_in (db : Db) (q : JoinReq) (u : User) : Prop :=
  current_user db (fst (fst (fst q))) = Some u.

(** ** Supply of cards

    [count c l] is the number of copies of [c] in [l]; a card is in play
    while it is in the deck or in a hand. *)

Definition count (c : string) (l : list string) : nat :=
  count_occ string_dec l c.

Definition hands_count (c : string) (h : dict Z (list string)) : nat :=
  list_sum (map (fun kv => count c (snd kv)) h).

Definition in_play (c : string) (g : Game) : nat :=
  (count c (deck g) + hands_count c (hands g))%nat.

(** The deck outlasts the SEARCH cards in play (so the used pile is never
    reshuffled), and every missing player is paid for by a KILL or an
    ACCUSATION card that has left play. *)
Record supply_ok (g : Game) : Prop := {
  sup_search : (3 * in_play "searchcard" g + 2 <= List.length (deck g))%nat;
  sup_lethal : (in_play "killcard" g + in_play "accusatecard" g + MATCH_SIZE
                <= List.length (alive g) + 2)%nat
}.

(** Closes the branches of a card that leave deck, alive list and hands as
    they are. *)
Ltac supply_frame :=
  split; [reflexivity | split; [simpl; lia | intros; apply Nat.le_refl]].

(** ann is dealt [accusatecard; killcard; judgecard] and is the killer, bob
    is dealt [shieldcard; judgecard; judgecard] and has equipped the shield. *)
Definition shielded_world : World :=
  play_all demo_db "g1" [(2, "shieldcard"%string, ""%string)]
    (join_all demo_db (demo_joins ([31; 30; 29; 10] ++ rev (seq 1 27))%nat) init_world).

(** ann is dealt [searchcard; statecard; killcard]. *)
Definition search_world : World :=
  join_all demo_db (demo_joins [5%nat]) init_world.

(** ** Targets

    The test that TAKE, EXCHANGE, ACCUSATION and KILL make on the name in
    the form: it is not empty, it resolves to a non-zero id, that player is
    alive and, except for ACCUSATION, is not the actor. *)
Definition target_ok (db : Db) (g : Game) (uid : Z) (card target_username : string)
  : bool :=
  negb (String.eqb target_username "") &&
  match get_userid_by_username db target_username with
  | Some t =>
      negb (Z.eqb t 0) && py_in t (alive g) &&
      (String.eqb card "accusatecard" || negb (Z.eqb t uid))
  | None => false
  end.

(** The cards that can change more than the used pile, the log and the
    killer: SEARCH, SHIELD and the four targeted cards on a target that
    passes the test. *)
Definition has_effect (db : Db) (g : Game) (uid : Z) (card target_username : string)
  : bool :=
  String.eqb card "searchcard" || String.eqb card "shieldcard" ||
  ((String.eqb card "takecard" || String.eqb card "exchangecard" ||
    String.eqb card "accusatecard" || String.eqb card "killcard") &&
   target_ok db g uid card target_username).

(** ann, bob, cat and dan are queued and wait for a fifth player. *)
Definition four_queued : World :=
  join_all demo_db (firstn 4 (demo_joins [])) init_world.

(** ** Further measures

    Copies of a card name anywhere in a session: deck, hands and used
    pile. *)

Definition total_count (c : string) (g : Game) : nat :=
  (count c (deck g) + hands_count c (hands g) + count c (used g))%nat.

(** The census of a session: every kind but [shieldcard] is complete, and
    the [shieldcard]s left together with the shield flags are at most 5. *)
Definition census (g : Game) : Prop :=
  (forall c, c <> "shieldcard"%string -> total_count c g = count c unshuffled_deck) /\
  (total_count "shieldcard" g + List.length (shields_equipped g) <= 5)%nat.

(** The result of a session: open, or finished and won by the faithfuls. *)
Definition result_ok (g : Game) : Prop :=
  (finished g = false /\ winner g = None) \/
  (finished g = true /\ winner g = Some "faithfuls"%string).

(** [CARD_FILES] *)
Definition CARD_FILES : list string :=
  ["statecard"; "searchcard"; "shieldcard"; "takecard"; "exchangecard";
   "judgecard"; "killcard"; "accusatecard"]%string.

(** Case analysis on every test of the [if/elif] chain and its branches. *)
Ltac engine_cases :=
  unfold apply_card, play_state, play_search, play_shield, play_take, play_exchange,
         play_judge, play_accusate, play_kill, play_other;
  repeat match goal with
         | |- context [if ?b then _ else _] => destruct b
         | |- context [match ?x with _ => _ end] => destruct x
         end.

(** ** The shape of a session

    The participants are five distinct players, the hands are keyed by the
    participants in their order, the players alive and the killer are
    participants, and a player who is not alive holds no card. *)

Record session_shape (g : Game) : Prop := {
  shape_nodup : NoDup (players g);
  shape_size : List.length (players g) = MATCH_SIZE;
  shape_keys : map fst (hands g) = players g;
  shape_alive : incl (alive g) (players g);
  shape_killer : forall k, killer g = Some k -> In k (players g);
  shape_dead : forall p, ~ In p (alive g) -> hand_of g p = []
}.

(** ** The game room and the card images

    The pages are built by [render_template_string(layout + page, ...)].
    [layout] already holds [{% block body %}{% endblock %}] and the text of
    every page opens [{% block body %}] again, so Jinja refuses the template
    ([TemplateAssertionError]: block 'body' defined twice) whatever values
    are passed to it: a request that reaches the render ends in that
    error. *)

(** What [game_room] answers: a redirect, or the error of the render. *)
Inductive RoomResponse :=
| room_redirect_login
| room_redirect_play (flash : string)
| room_template_error.

(** The handler of [/game/<game_id>]; [your_hand = g['hands'].get(uid, [])]
    is computed and handed to the render, which fails. *)
Definition game_room (db : Db) (sess : option Z) (gid : string) (w : World)
  : RoomResponse :=
  match current_user db sess with
  | None => room_redirect_login
  | Some user =>
      match dget gid (games w) with
      | None => room_redirect_play "Game not found or ended."
      | Some g =>
          if negb (py_in (user_id user) (players g))
          then room_redirect_play "You're not in this game."
          else room_template_error
      end
  end.

(** [CARD_LABEL] *)
Definition CARD_LABEL : dict string string :=
  [("statecard", "STATE"); ("searchcard", "SEARCH"); ("shieldcard", "SHIELD");
   ("takecard", "TAKE"); ("exchangecard", "EXCHANGE"); ("judgecard", "JUDGE");
   ("killcard", "KILL"); ("accusatecard", "ACCUSATION")]%string.

(** [str.upper()] on ASCII text, the only text it is applied to: the card
    names and their labels. *)
Definition ascii_upper (a : ascii) : ascii :=
  let n := nat_of_ascii a in
  if Nat.leb 97 n && Nat.leb n 122 then ascii_of_nat (n - 32) else a.

Fixpoint upper (s : string) : string :=
  match s with
  | EmptyString => EmptyString
  | String a s' => String (ascii_upper a) (upper s')
  end.

(** What [card_image] answers: [abort(404)], the PNG file sent from
    [CARDS_DIR], the SVG placeholder for a PSD (with the label and the card
    name it prints), or the SVG that reports the missing file. *)
Inductive ImageResponse :=
| image_not_found
| image_png (file : string)
| image_svg_psd (label card_name : string)
| image_svg_missing (card_name : string).

(** The handler of [/card/<card_name>]; [file_exists] is [os.path.exists]
    on the files of [CARDS_DIR]. *)
Definition card_image (file_exists : string -> bool) (card_name : string)
  : ImageResponse :=
  if negb (py_in card_name CARD_FILES) then image_not_found
  else if file_exists (String.append card_name ".png")
  then image_png (String.append card_name ".png")
  else if file_exists (String.append card_name ".psd")
  then image_svg_psd (upper (dget_default card_name card_name CARD_LABEL)) card_name
  else image_svg_missing card_name.

(** ** Uploads *)

(** [ALLOWED_AVATAR] *)
Definition ALLOWED_AVATAR : list string := ["png"; "jpg"; "jpeg"; "gif"]%string.

(** [filename.rsplit('.', 1)[1]] when ['.' in filename]: the text after the
    last dot. *)
Fixpoint after_last_dot (s : string) : option string :=
  match s with
  | EmptyString => None
  | String a s' =>
      match after_last_dot s' with
      | Some e => Some e
      | None => if Ascii.eqb a "." then Some s' else None
      end
  end.

(** [str.lower()] on ASCII text. *)
Definition ascii_lower (a : ascii) : ascii :=
  let n := nat_of_ascii a in
  if Nat.leb 65 n && Nat.leb n 90 then ascii_of_nat (n + 32) else a.

Fixpoint lower (s : string) : string :=
  match s with
  | EmptyString => EmptyString
  | String a s' => String (ascii_lower a) (lower s')
  end.

(** [allowed_file(filename, allowed)], for file names in ASCII. *)
Definition allowed_file (filename : string) (allowed : list string) : bool :=
  match after_last_dot filename with
  | None => false
  | Some ext => py_in (lower ext) allowed
  end.

(** A text without a dot. *)
Fixpoint dot_free (s : string) : Prop :=
  match s with
  | EmptyString => True
  | String a s' => a <> "."%char /\ dot_free s'
  end.

(** ** Bots mode

    The simulation of [bots_mode] draws from [random] in two ways: integers
    (shuffle, choice), taken from the draws of the request, and the tests
    [random.random() < 0.6] and [random.random() < 0.15], whose outcomes are
    given to the request as a list of booleans, consumed in order (an
    exhausted list answers false). *)

Definition Coins := list bool.

Definition flip (c : Coins) : bool * Coins :=
  match c with
  | [] => (false, [])
  | b :: c' => (b, c')
  end.

(** [['YOU'] + [f"BOT{i}" for i in range(1,5)]] *)
Definition bot_players : list string := ["YOU"; "BOT1"; "BOT2"; "BOT3"; "BOT4"]%string.

(** [hands[p]]; every player is a key of [hands]. *)
Definition hand_at (hs : dict string (list string)) (p : string) : list string :=
  dget_default p [] hs.

(** [{p: [deck.pop() for _ in range(3)] for p in players}] *)
Fixpoint bot_deal (ps : list string) (hs : dict string (list string)) (dk : list string)
  : option (dict string (list string) * list string) :=
  match ps with
  | [] => Some (hs, dk)
  | p :: rest =>
      match py_pop_n 3 dk with
      | None => None
      | Some (h, dk') => bot_deal rest (dset p h hs) dk'
      end
  end.

(** [winner_by_killer] applied to names. *)
Definition winner_by_killer_names (alive_ : list string) (killer_ : option string)
  : bool :=
  match killer_ with
  | None => false
  | Some k =>
      if py_in k alive_ &&
         Nat.eqb (List.length (filter (fun p => negb (String.eqb p k)) alive_)) 0
      then true else false
  end.

(** The variables of the simulation loop. *)
Record Sim := mkSim {
  sim_alive : list string;
  sim_hands : dict string (list string);
  sim_used : list string;
  sim_log : list string;
  sim_killer : option string
}.

(** The deal, the search for the killer and, without one, the extra
    [killcard] shuffled into the deck and one card given to a random
    player. *)
Definition bots_setup (r : Rng)
  : option (dict string (list string) * option string * Rng) :=
  let (dk0, r1) := make_new_deck r in
  match bot_deal bot_players [] dk0 with
  | None => None
  | Some (hs, dk) =>
      let killer_ := find (fun p => py_in "killcard"%string (hand_at hs p)) bot_players in
      match killer_ with
      | Some _ => Some (hs, killer_, r1)
      | None =>
          let (dk2, r2) := shuffle (dk ++ ["killcard"%string]) r1 in
          let (q, r3) := choice "YOU"%string bot_players r2 in
          match py_pop dk2 with
          | None => None
          | Some (c, _) => Some (dset q (hand_at hs q ++ [c]) hs, killer_, r3)
          end
      end
  end.

(** The killer's move on a target drawn among the other players alive. *)
Definition bot_kill (p : string) (st : Sim) (r : Rng) : Sim * Rng :=
  let targets := filter (fun x => negb (String.eqb x p)) (sim_alive st) in
  let (tgt, r1) := choice p targets r in
  if py_in "shieldcard"%string (hand_at (sim_hands st) tgt) then
    (mkSim (sim_alive st)
           (dset tgt (py_remove "shieldcard"%string (hand_at (sim_hands st) tgt))
                 (sim_hands st))
           (sim_used st ++ ["shieldcard"%string])
           (sim_log st ++ [String.append tgt "'s SHIELD broke."])
           (sim_killer st), r1)
  else
    (mkSim (py_remove tgt (sim_alive st))
           (dset tgt [] (sim_hands st))
           (sim_used st ++ hand_at (sim_hands st) tgt)
           (sim_log st ++ [String.append tgt " was killed by the killer."])
           (sim_killer st), r1).

(** An ACCUSATION by [p] on a player drawn among those alive; the boolean
    tells whether the [for] loop is left. *)
Definition bot_accuse (p : string) (st : Sim) (r : Rng) : Sim * Rng * bool :=
  let (accused, r1) := choice p (sim_alive st) r in
  let wrong :=
    mkSim (py_remove p (sim_alive st))
          (dset p [] (sim_hands st))
          (sim_used st ++ hand_at (sim_hands st) p)
          (sim_log st ++ [String.append p
                            (String.append " used ACCUSATION and was wrong → "
                               (String.append p " eliminated."))])
          (sim_killer st) in
  match sim_killer st with
  | Some k =>
      if String.eqb accused k then
        (mkSim (filter (fun x => negb (String.eqb x k)) (sim_alive st))
               (dset k [] (sim_hands st))
               (sim_used st ++ hand_at (sim_hands st) k)
               (sim_log st ++ [String.append p
                                 (String.append " used ACCUSATION and correctly accused "
                                    (String.append accused "."))])
               None, r1, true)
      else (wrong, r1, false)
  | None => (wrong, r1, false)
  end.

(** The body of [for p in alive.copy()] up to the safety break; the boolean
    tells whether a [break] inside the body was taken. *)
Definition bot_turn (p : string) (st : Sim) (r : Rng) (c : Coins)
  : Sim * Rng * Coins * bool :=
  if match sim_killer st with Some k => String.eqb p k | None => false end then
    if Nat.leb (List.length (sim_alive st)) 1 then (st, r, c, true)
    else
      let (b, c1) := flip c in
      if b then let (st1, r1) := bot_kill p st r in (st1, r1, c1, false)
      else
        (mkSim (sim_alive st) (sim_hands st) (sim_used st)
               (sim_log st ++ [String.append p " (killer) skipped killing."])
               (sim_killer st), r, c1, false)
  else
    if py_in "accusatecard"%string (hand_at (sim_hands st) p) then
      let (b, c1) := flip c in
      if b then let '(st1, r1, brk) := bot_accuse p st r in (st1, r1, c1, brk)
      else (st, r, c1, false)
    else (st, r, c, false).

(** [for p in alive.copy(): ...; if len(alive) <= 1: break] *)
Fixpoint bot_turns (snapshot : list string) (st : Sim) (r : Rng) (c : Coins)
  : Sim * Rng * Coins :=
  match snapshot with
  | [] => (st, r, c)
  | p :: rest =>
      let '(st1, r1, c1, brk) := bot_turn p st r c in
      if brk || Nat.leb (List.length (sim_alive st1)) 1 then (st1, r1, c1)
      else bot_turns rest st1 r1 c1
  end.

(** The [while True] loop; [round_no] is its value at the head of the loop
    and [fuel] bounds the number of rounds ([None] when it runs out). *)
Fixpoint bot_rounds (fuel round_no : nat) (st : Sim) (r : Rng) (c : Coins)
  : option Sim :=
  match fuel with
  | O => None
  | S fuel' =>
      let round_no1 := S round_no in
      let '(st1, r1, c1) := bot_turns (sim_alive st) st r c in
      if match sim_killer st1 with None => true | Some _ => false end
         || winner_by_killer_names (sim_alive st1) (sim_killer st1)
      then Some st1
      else if Nat.ltb 8 round_no1 then Some st1
      else bot_rounds fuel' round_no1 st1 r1 c1
  end.

(** The values that [bots_mode] hands to the render; the level of the user
    is incremented exactly when [human_won] is true. *)
Record BotsPage := mkBotsPage {
  page_hand : list string;
  page_log : list string;
  page_killer : option string;
  page_alive : list string;
  human_won : bool
}.

(** [('YOU' in alive) and (killer not in alive)] *)
Definition human_won_of (alive_ : list string) (killer_ : option string) : bool :=
  py_in "YOU"%string alive_ &&
  match killer_ with
  | None => true
  | Some k => negb (py_in k alive_)
  end.

Definition bots_simulation (r : Rng) (c : Coins) : option BotsPage :=
  match bots_setup r with
  | None => None
  | Some (hs, killer_, r1) =>
      match bot_rounds 9 0 (mkSim bot_players hs [] [] killer_) r1 c with
      | None => None
      | Some st =>
          Some (mkBotsPage (hand_at (sim_hands st) "YOU") (sim_log st) (sim_killer st)
                           (sim_alive st)
                           (human_won_of (sim_alive st) (sim_killer st)))
      end
  end.

(** What [bots_mode] answers: the redirect to the login, the error of the
    render, or an exception raised inside the simulation. *)
Inductive BotsResponse :=
| bots_redirect_login
| bots_template_error
| bots_error.

(** The handler of [/bots].  The second component is the id of the user
    whose level is incremented
    ([UPDATE users SET level = level + 1 WHERE id = ?], committed when
    [human_won] holds, before the render), if any; the render then fails
    as for every page. *)
Definition bots_mode (db : Db) (sess : option Z) (r : Rng) (c : Coins)
  : BotsResponse * option Z :=
  match current_user db sess with
  | None => (bots_redirect_login, None)
  | Some user =>
      match bots_simulation r c with
      | Some page =>
          (bots_template_error,
           if human_won page then Some (user_id user) else None)
      | None => (bots_error, None)
      end
  end.

(** Invariant of the simulation, for the killer [k0] found after the deal:
    the players alive are distinct players, the killer is either the one of
    the deal or has been removed, a killer is alive, a removed killer is
    not, and the players who are not alive hold no card. *)
Record sim_ok (k0 : option string) (st : Sim) : Prop := {
  so_nodup : NoDup (sim_alive st);
  so_incl : incl (sim_alive st) bot_players;
  so_killer : sim_killer st = k0 \/ sim_killer st = None;
  so_killer_alive : forall k, sim_killer st = Some k -> In k (sim_alive st);
  so_gone : forall k, k0 = Some k -> sim_killer st = None -> ~ In k (sim_alive st);
  so_dead : forall p, ~ In p (sim_alive st) -> hand_at (sim_hands st) p = []
}.

(** Sample runs of the simulation: the killcard is dealt to BOT1 and YOU,
    holding the accusatecard, accuses BOT1; and a deal that leaves the
    killcard in the deck. *)
Definition accuse_draws : Rng := ([0; 0; 1] ++ repeat 0 28 ++ [1])%nat.

Definition nokill_draws : Rng := ([31; 0] ++ rev (seq 1 29))%nat.

(** * Properties *)

(** ** Lists *)

Section PyListFacts.
Context {A : Type} `{PyEq A}.

Lemma py_eqb_refl (x : A) : py_eqb x x = true.
Proof. destruct (py_eqb_spec x x); congruence. Qed.

Lemma py_eqb_true (x y : A) : py_eqb x y = true <-> x = y.
Proof. destruct (py_eqb_spec x y); split; congruence. Qed.

Lemma py_eqb_false (x y : A) : py_eqb x y = false <-> x <> y.
Proof. destruct (py_eqb_spec x y); split; congruence. Qed.

Lemma py_in_In (x : A) l : py_in x l = true <-> In x l.
Proof.
  induction l as [|y l IH]; simpl.
  - split; [discriminate | tauto].
  - destruct (py_eqb_spec x y) as [->|Hn].
    + split; auto.
    + rewrite IH. split; [auto | intros [E|Hi]; [congruence | exact Hi]].
Qed.

Lemma py_in_false (x : A) l : py_in x l = false <-> ~ In x l.
Proof.
  rewrite <- py_in_In. destruct (py_in x l); split; congruence.
Qed.

Lemma py_remove_length (x : A) l :
  In x l -> S (List.length (py_remove x l)) = List.length l.
Proof.
  induction l as [|y l IH]; simpl; [tauto|].
  intros Hin. destruct (py_eqb_spec x y) as [->|Hn]; [reflexivity|].
  simpl. f_equal. apply IH. destruct Hin; congruence.
Qed.

Lemma py_remove_In (x y : A) l : In y (py_remove x l) -> In y l.
Proof.
  induction l as [|z l IH]; simpl; [tauto|].
  destruct (py_eqb x z); simpl; intuition.
Qed.

Lemma py_remove_In_neq (x y : A) l : In y l -> y <> x -> In y (py_remove x l).
Proof.
  induction l as [|z l IH]; simpl; [tauto|].
  intros Hin Hne. destruct (py_eqb_spec x z) as [->|Hn].
  - destruct Hin; congruence.
  - simpl. destruct Hin; auto.
Qed.

Lemma py_remove_NoDup (x : A) l : NoDup l -> NoDup (py_remove x l).
Proof.
  induction 1 as [|z l Hz Hnd IH]; simpl; [constructor|].
  destruct (py_eqb x z); [assumption|].
  constructor; [|assumption]. intro Hi. apply Hz. eapply py_remove_In; eauto.
Qed.

Lemma py_remove_gone (x : A) l : NoDup l -> ~ In x (py_remove x l).
Proof.
  induction 1 as [|z l Hz Hnd IH]; simpl; [tauto|].
  destruct (py_eqb_spec x z) as [->|Hn]; [assumption|].
  simpl. intros [E|Hi]; [congruence | tauto].
Qed.

Lemma py_remove_absent (x : A) l : ~ In x l -> py_remove x l = l.
Proof.
  induction l as [|z l IH]; simpl; [reflexivity|].
  intros Hn. destruct (py_eqb_spec x z) as [->|Hne]; [tauto|].
  f_equal. apply IH. tauto.
Qed.

Lemma py_pop_snoc l (x : A) r : py_pop l = Some (x, r) -> l = r ++ [x].
Proof.
  revert x r. induction l as [|y l IH]; simpl; [discriminate|].
  intros x r. destruct l as [|z l].
  - intros E. injection E as <- <-. reflexivity.
  - destruct (py_pop (z :: l)) as [[x' r']|] eqn:E; [|discriminate].
    intros E'. injection E' as <- <-. simpl. f_equal. apply IH. reflexivity.
Qed.

Lemma py_pop_length l (x : A) r :
  py_pop l = Some (x, r) -> List.length l = S (List.length r).
Proof.
  intros E. apply py_pop_snoc in E. subst l. rewrite length_app. simpl. lia.
Qed.

Lemma py_pop_none (l : list A) : py_pop l = None -> l = [].
Proof.
  induction l as [|y l IH]; simpl; [reflexivity|].
  destruct l as [|z l]; [discriminate|].
  destruct (py_pop (z :: l)) as [[x r]|]; [discriminate|].
  intros _. discriminate IH. reflexivity.
Qed.

Lemma py_pop_some (l : list A) : l <> [] -> exists x r, py_pop l = Some (x, r).
Proof.
  intros Hne. destruct (py_pop l) as [[x r]|] eqn:E; [eauto|].
  apply py_pop_none in E. contradiction.
Qed.

Lemma py_pop_n_length n (l xs l' : list A) :
  py_pop_n n l = Some (xs, l') ->
  List.length xs = n /\ List.length l = (n + List.length l')%nat.
Proof.
  revert l xs l'. induction n as [|n IH]; simpl; intros l xs l'.
  - intros E. injection E as <- <-. auto.
  - destruct (py_pop l) as [[x l1]|] eqn:E1; [|discriminate].
    destruct (py_pop_n n l1) as [[ys l2]|] eqn:E2; [|discriminate].
    intros E. injection E as <- <-.
    apply py_pop_length in E1. apply IH in E2. simpl. lia.
Qed.

Lemma py_pop_n_some n (l : list A) :
  (n <= List.length l)%nat -> exists xs l', py_pop_n n l = Some (xs, l').
Proof.
  revert l. induction n as [|n IH]; simpl; intros l Hl; [eauto|].
  destruct (py_pop_some l) as (x & l1 & E1).
  { intros ->. simpl in Hl. lia. }
  rewrite E1. pose proof (py_pop_length _ _ _ E1) as Hlen.
  destruct (IH l1) as (xs & l2 & E2); [lia|]. rewrite E2. eauto.
Qed.

Lemma py_pop_n_In n (l xs l' : list A) y :
  py_pop_n n l = Some (xs, l') -> In y xs -> In y l.
Proof.
  revert l xs l'. induction n as [|n IH]; simpl; intros l xs l'.
  - intros E. injection E as <- <-. simpl. tauto.
  - destruct (py_pop l) as [[x l1]|] eqn:E1; [|discriminate].
    destruct (py_pop_n n l1) as [[ys l2]|] eqn:E2; [|discriminate].
    intros E. injection E as <- <-.
    apply py_pop_snoc in E1. subst l. intros [->|Hy].
    + apply in_or_app. right. left. reflexivity.
    + apply in_or_app. left. eapply IH; eauto.
Qed.

Lemma list_set_length i (x : A) l :
  (i < List.length l)%nat -> List.length (list_set i x l) = List.length l.
Proof.
  intros Hi. unfold list_set.
  rewrite length_app, length_firstn.
  change (List.length (x :: skipn (S i) l)) with (S (List.length (skipn (S i) l))).
  rewrite length_skipn. lia.
Qed.

Lemma list_swap_length i j (l : list A) :
  List.length (list_swap i j l) = List.length l.
Proof.
  unfold list_swap.
  destruct (nth_error l i) as [a|] eqn:Ei; [|reflexivity].
  destruct (nth_error l j) as [b|] eqn:Ej; [|reflexivity].
  assert (i < List.length l)%nat by (apply nth_error_Some; congruence).
  assert (j < List.length l)%nat by (apply nth_error_Some; congruence).
  rewrite list_set_length; rewrite list_set_length; auto.
Qed.
End PyListFacts.

Lemma shuffle_from_length {A} i (l : list A) r :
  List.length (fst (shuffle_from i l r)) = List.length l.
Proof.
  revert l r. induction i as [|i IH]; intros l r; simpl; [reflexivity|].
  destruct (randbelow (S (S i)) r) as [j r'].
  rewrite IH. apply list_swap_length.
Qed.

Lemma shuffle_length {A} (l : list A) r :
  List.length (fst (shuffle l r)) = List.length l.
Proof. apply shuffle_from_length. Qed.

(** ** Dicts *)

Section PyDictFacts.
Context {K V : Type} `{PyEq K}.
Implicit Types (d : dict K V) (k : K) (v : V).

Lemma dget_dset_same k v d : dget k (dset k v d) = Some v.
Proof.
  induction d as [|[k' v'] d IH]; simpl.
  - rewrite py_eqb_refl. reflexivity.
  - destruct (py_eqb k k') eqn:E; simpl; rewrite ?py_eqb_refl, ?E; auto.
Qed.

Lemma dget_dset_other k k' v d : k' <> k -> dget k' (dset k v d) = dget k' d.
Proof.
  intros Hne. induction d as [|[k2 v2] d IH]; simpl.
  - apply py_eqb_false in Hne. rewrite Hne. reflexivity.
  - destruct (py_eqb_spec k k2) as [<-|Hn]; simpl.
    + apply py_eqb_false in Hne. rewrite Hne. reflexivity.
    + rewrite IH. reflexivity.
Qed.

Lemma dget_dset k k' v d :
  dget k' (dset k v d) = if py_eqb k' k then Some v else dget k' d.
Proof.
  destruct (py_eqb_spec k' k) as [->|Hne].
  - apply dget_dset_same.
  - apply dget_dset_other; assumption.
Qed.

Lemma dset_length_le k v d : (List.length (dset k v d) <= S (List.length d))%nat.
Proof.
  induction d as [|[k' v'] d IH]; simpl; [lia|].
  destruct (py_eqb k k'); simpl; lia.
Qed.

Lemma dpop_length k v d :
  dget k d = Some v -> S (List.length (dpop k d)) = List.length d.
Proof.
  induction d as [|[k' v'] d IH]; simpl; [discriminate|].
  destruct (py_eqb k k'); simpl; auto.
Qed.

Lemma dget_dpop_other k k' d : k' <> k -> dget k' (dpop k d) = dget k' d.
Proof.
  intros Hne. induction d as [|[k2 v2] d IH]; simpl; [reflexivity|].
  destruct (py_eqb_spec k k2) as [<-|Hn]; simpl.
  - apply py_eqb_false in Hne. rewrite Hne. reflexivity.
  - rewrite IH. reflexivity.
Qed.

Lemma dset_same_value k v d : dget k d = Some v -> dset k v d = d.
Proof.
  induction d as [|[k' v'] d IH]; simpl; [discriminate|].
  destruct (py_eqb_spec k k') as [<-|Hn].
  - intros E. injection E as ->. reflexivity.
  - intros E. rewrite IH; auto.
Qed.

Lemma dget_In k v d : dget k d = Some v -> In (k, v) d.
Proof.
  induction d as [|[k' v'] d IH]; simpl; [discriminate|].
  destruct (py_eqb_spec k k') as [<-|Hn].
  - intros E. injection E as ->. auto.
  - auto.
Qed.
Lemma dget_absent k d : ~ In k (map fst d) -> dget k d = None.
Proof.
  induction d as [|[k' v'] d IH]; simpl; [reflexivity|].
  intros Hn. destruct (py_eqb_spec k k') as [->|Hne]; [tauto|].
  apply IH. tauto.
Qed.

Lemma dset_keys_In x k v d :
  In x (map fst (dset k v d)) -> x = k \/ In x (map fst d).
Proof.
  induction d as [|[k' v'] d IH]; simpl.
  - intros [<-|[]]. auto.
  - destruct (py_eqb_spec k k') as [<-|Hne]; simpl; intuition.
Qed.

Lemma dset_keys_NoDup k v d : NoDup (map fst d) -> NoDup (map fst (dset k v d)).
Proof.
  induction d as [|[k' v'] d IH]; simpl; intros Hnd.
  - repeat constructor. simpl. tauto.
  - inversion Hnd as [|? ? Hk Hnd']; subst.
    destruct (py_eqb_spec k k') as [<-|Hne]; simpl.
    + constructor; assumption.
    + constructor; [|auto].
      intros Hi. apply dset_keys_In in Hi. destruct Hi; [congruence | contradiction].
Qed.

Lemma dpop_keys_In x k d : In x (map fst (dpop k d)) -> In x (map fst d).
Proof.
  induction d as [|[k' v'] d IH]; simpl; [tauto|].
  destruct (py_eqb k k'); simpl; intuition.
Qed.

Lemma dpop_keys_NoDup k d : NoDup (map fst d) -> NoDup (map fst (dpop k d)).
Proof.
  induction d as [|[k' v'] d IH]; simpl; intros Hnd; [constructor|].
  inversion Hnd as [|? ? Hk Hnd']; subst.
  destruct (py_eqb k k'); simpl; [assumption|].
  constructor; [|auto]. intros Hi. apply dpop_keys_In in Hi. contradiction.
Qed.

Lemma dget_dpop_same k d : NoDup (map fst d) -> dget k (dpop k d) = None.
Proof.
  induction d as [|[k' v'] d IH]; simpl; intros Hnd; [reflexivity|].
  inversion Hnd as [|? ? Hk Hnd']; subst.
  destruct (py_eqb_spec k k') as [<-|Hne]; simpl.
  - apply dget_absent. assumption.
  - apply py_eqb_false in Hne. rewrite Hne. auto.
Qed.
End PyDictFacts.

(** ** Counting cards *)

Lemma hands_total_dset k v h :
  (hands_total (dset k v h) + List.length (dget_default k [] h)
   = hands_total h + List.length v)%nat.
Proof.
  unfold hands_total, dget_default.
  induction h as [|[k' v'] h IH]; simpl.
  - lia.
  - change (py_eqb k k') with (Z.eqb k k').
    destruct (Z.eqb k k'); simpl; lia.
Qed.

Lemma hands_total_dset_new k v h :
  dget k h = None ->
  hands_total (dset k v h) = (hands_total h + List.length v)%nat.
Proof.
  intros E. pose proof (hands_total_dset k v h) as Ht.
  unfold dget_default in Ht. rewrite E in Ht. simpl in Ht. lia.
Qed.

Lemma search_draws_count n dk us draws r dk' us' draws' r' :
  search_draws n dk us draws r = (dk', us', draws', r') ->
  (List.length dk' + List.length us' + List.length draws'
   = List.length dk + List.length us + List.length draws)%nat.
Proof.
  revert dk us draws r.
  induction n as [|n IH]; simpl; intros dk us draws r.
  - intros E. injection E as <- <- <- <-. reflexivity.
  - destruct dk as [|c dk0].
    + destruct (shuffle us r) as [d r1] eqn:Es.
      assert (Hd : List.length d = List.length us).
      { pose proof (shuffle_length us r) as Hs. rewrite Es in Hs. exact Hs. }
      destruct (py_pop d) as [[x d2]|] eqn:Ep; intros E; apply IH in E.
      * apply py_pop_length in Ep. rewrite length_app in E. simpl in *. lia.
      * simpl in *. lia.
    + destruct (py_pop (c :: dk0)) as [[x d2]|] eqn:Ep; intros E; apply IH in E.
      * apply py_pop_length in Ep. rewrite length_app in E. simpl in *. lia.
      * lia.
Qed.

Lemma deal_spec ps : forall hs dk hs' dk',
  NoDup ps -> (forall p, In p ps -> dget p hs = None) ->
  deal ps hs dk = Some (hs', dk') ->
  (hands_total hs' + List.length dk' = hands_total hs + List.length dk)%nat /\
  (forall p, dget p hs' <> None -> In p ps \/ dget p hs <> None).
Proof.
  induction ps as [|p ps IH]; cbn [deal]; intros hs dk hs' dk' Hnd Hfresh E.
  - injection E as <- <-. split; [reflexivity | auto].
  - destruct (py_pop_n 3 dk) as [[h dk1]|] eqn:Ep; [|discriminate].
    inversion Hnd as [|? ? Hp Hnd']; subst.
    apply IH in E; auto.
    + destruct E as [Hsum Hkeys].
      apply py_pop_n_length in Ep.
      rewrite hands_total_dset_new in Hsum by (apply Hfresh; left; reflexivity).
      split; [lia|].
      intros q Hq. destruct (Hkeys q Hq) as [Hi|Hg].
      * left. right. exact Hi.
      * destruct (Z.eq_dec q p) as [->|Hne]; [left; left; reflexivity|].
        rewrite dget_dset_other in Hg by assumption. right. exact Hg.
    + intros q Hq. rewrite dget_dset_other.
      * apply Hfresh. right. exact Hq.
      * intros ->. contradiction.
Qed.

Lemma deal_some ps : forall hs dk,
  (3 * List.length ps <= List.length dk)%nat -> exists hs' dk', deal ps hs dk = Some (hs', dk').
Proof.
  induction ps as [|p ps IH]; cbn [deal]; intros hs dk Hl; [eauto|].
  cbn [List.length] in Hl.
  destruct (py_pop_n_some 3 dk) as (h & dk1 & Ep); [lia|].
  rewrite Ep. apply py_pop_n_length in Ep. apply IH. lia.
Qed.

Lemma find_killer_key hs k : find_killer hs = Some k -> dget k hs <> None.
Proof.
  induction hs as [|[p h] hs IH]; simpl; [discriminate|].
  destruct (py_in "killcard"%string h).
  - intros E. injection E as ->. rewrite Z.eqb_refl. discriminate.
  - intros E. destruct (Z.eqb k p); [discriminate | auto].
Qed.

Lemma unshuffled_deck_length : List.length unshuffled_deck = 32%nat.
Proof. reflexivity. Qed.

Lemma make_new_deck_length r : List.length (fst (make_new_deck r)) = 32%nat.
Proof. unfold make_new_deck. rewrite shuffle_length. reflexivity. Qed.

(** ** What a card does to the alive list, the killer and the result *)

Section EngineFacts.
Variable db : Db.

Lemma play_state_outcome uid card g : outcome uid card g (play_state db uid g).
Proof. apply out_same; reflexivity. Qed.

Lemma play_search_outcome uid card r g : outcome uid card g (play_search db uid r g).
Proof.
  unfold play_search.
  destruct (search_draws 3 (deck (discard "searchcard" g))
              (used (discard "searchcard" g)) [] r) as [[[dk us] draws] r'].
  apply out_same; reflexivity.
Qed.

Lemma play_shield_outcome uid card g : outcome uid card g (play_shield db uid g).
Proof. apply out_same; reflexivity. Qed.

Lemma play_take_outcome uid card target r g :
outcome uid card g (play_take db uid target r g).
Proof.
  unfold play_take.
  destruct (String.eqb target ""); [apply out_same; reflexivity|].
  destruct (get_userid_by_username db target) as [t|]; [|apply out_same; reflexivity].
  destruct (negb (Z.eqb t 0) && py_in t (alive (discard "takecard" g))
            && negb (Z.eqb t uid)); [|apply out_same; reflexivity].
  destruct (hand_of (discard "takecard" g) t); apply out_same; reflexivity.
Qed.

Lemma play_exchange_outcome uid card target g :
outcome uid card g (play_exchange db uid target g).
Proof.
  unfold play_exchange.
  destruct (String.eqb target ""); [apply out_same; reflexivity|].
  destruct (get_userid_by_username db target) as [t|]; [|apply out_same; reflexivity].
  destruct (negb (Z.eqb t 0) && py_in t (alive (discard "exchangecard" g))
            && negb (Z.eqb t uid)); apply out_same; reflexivity.
Qed.

Lemma play_judge_outcome uid card g : outcome uid card g (play_judge db uid g).
Proof. apply out_same; reflexivity. Qed.

Lemma play_other_outcome uid card g : outcome uid card g (play_other db uid card g).
Proof. apply out_same; reflexivity. Qed.

Lemma play_accusate_outcome uid card target g :
  outcome uid card g (play_accusate db uid target g).
Proof.
  unfold play_accusate.
  destruct (String.eqb target ""); [apply out_same; reflexivity|].
  destruct (get_userid_by_username db target) as [t|]; [|apply out_same; reflexivity].
  destruct (negb (Z.eqb t 0)); simpl; [|apply out_same; reflexivity].
  destruct (py_in t (alive g)) eqn:Ht; [|apply out_same; reflexivity].
  apply py_in_In in Ht.
  destruct (killer g) as [k|] eqn:Hk.
  - destruct (Z.eqb_spec k t) as [->|Hne].
    + apply (out_accuse_right uid card g _ t); auto.
    + apply (out_accuse_wrong uid card g _ t); auto; simpl; congruence.
  - apply (out_accuse_wrong uid card g _ t); auto; simpl; congruence.
Qed.

Lemma play_kill_outcome uid target g :
outcome uid "killcard" g (play_kill db uid target g).
Proof.
  unfold play_kill.
  destruct (String.eqb target ""); [apply out_kill_miss; reflexivity|].
  destruct (get_userid_by_username db target) as [t|]; [|apply out_kill_miss; reflexivity].
  destruct (negb (Z.eqb t 0)); simpl; [|apply out_kill_miss; reflexivity].
  destruct (py_in t (alive g)) eqn:Ht; simpl; [|apply out_kill_miss; reflexivity].
  destruct (Z.eqb_spec t uid) as [->|Hne]; simpl; [apply out_kill_miss; reflexivity|].
  apply py_in_In in Ht.
  destruct (dget t (shields_equipped g)) as [[|]|].
  - apply out_kill_miss; reflexivity.
  - apply (out_kill_hit uid "killcard" g _ t); auto.
  - apply (out_kill_hit uid "killcard" g _ t); auto.
Qed.

Lemma outcome_after_removal uid card c g g1 :
outcome uid c (set_hands (dset uid (py_remove card (hand_of g uid)) (hands g)) g) g1 ->
outcome uid c g g1.
Proof.
intros [ | | t | t | t]; simpl in *.
- apply out_same; assumption.
- apply out_kill_miss; assumption.
- apply (out_kill_hit uid c g g1 t); assumption.
- apply (out_accuse_right uid c g g1 t); assumption.
- apply (out_accuse_wrong uid c g g1 t); assumption.
Qed.

Lemma apply_card_outcome uid card target r g :
outcome uid card g (apply_card db uid card target r g).
Proof.
apply (outcome_after_removal uid card).
unfold apply_card.
card_cases card; cbn [String.eqb Ascii.eqb Bool.eqb].
- apply play_state_outcome.
- apply play_search_outcome.
- apply play_shield_outcome.
- apply play_take_outcome.
- apply play_exchange_outcome.
- apply play_judge_outcome.
- apply play_accusate_outcome.
- apply play_kill_outcome.
- repeat match goal with
         | Hn : card <> _ |- _ => apply String.eqb_neq in Hn; rewrite Hn; clear Hn
         end.
  apply play_other_outcome.
Qed.
End EngineFacts.

(** ** What a card does to the number of cards *)

Lemma choice_In {A} (c : A) l r : In (fst (choice c (c :: l) r)) (c :: l).
Proof.
  unfold choice. destruct (randbelow (List.length (c :: l)) r) as [j r'].
  cbn [fst]. destruct (nth_in_or_default j (c :: l) c) as [Hin | ->].
  - exact Hin.
  - left. reflexivity.
Qed.

Lemma card_total_discard c g : card_total (discard c g) = S (card_total g).
Proof. unfold card_total, discard. simpl. rewrite length_app. simpl. lia. Qed.

Lemma card_total_add_log m g : card_total (add_log m g) = card_total g.
Proof. reflexivity. Qed.

Lemma card_total_set_hand p h g :
  (card_total (set_hands (dset p h (hands g)) g) + List.length (hand_of g p)
   = card_total g + List.length h)%nat.
Proof.
  unfold card_total, hand_of. simpl.
  pose proof (hands_total_dset p h (hands g)). lia.
Qed.

Lemma card_total_give p cs g :
  card_total (set_hands (dset p (hand_of g p ++ cs) (hands g)) g)
  = (card_total g + List.length cs)%nat.
Proof.
  pose proof (card_total_set_hand p (hand_of g p ++ cs) g) as Ht.
  rewrite length_app in Ht. lia.
Qed.

Lemma card_total_eliminate p g : card_total (eliminate p g) = card_total g.
Proof.
  unfold eliminate.
  pose proof (card_total_set_hand p []
                (set_used (used (set_alive (py_remove p (alive g)) g)
                           ++ hand_of (set_alive (py_remove p (alive g)) g) p)
                          (set_alive (py_remove p (alive g)) g))) as Ht.
  revert Ht. unfold card_total, hand_of. simpl. rewrite length_app. lia.
Qed.

Lemma card_total_remove uid card g :
  py_in card (hand_of g uid) = true ->
  S (card_total (set_hands (dset uid (py_remove card (hand_of g uid)) (hands g)) g))
  = card_total g.
Proof.
  intros Hin. apply py_in_In in Hin.
  pose proof (card_total_set_hand uid (py_remove card (hand_of g uid)) g) as Ht.
  pose proof (py_remove_length card _ Hin). lia.
Qed.

Section CountFacts.
Variable db : Db.

Lemma play_search_total uid r g :
  card_total (play_search db uid r g) = S (card_total g).
Proof.
  unfold play_search.
  destruct (search_draws 3 (deck (discard "searchcard" g))
              (used (discard "searchcard" g)) [] r) as [[[dk us] draws] r'] eqn:Es.
  apply search_draws_count in Es.
  rewrite card_total_add_log, card_total_give.
  revert Es. unfold card_total, discard. simpl. rewrite length_app. simpl. lia.
Qed.

Lemma play_take_total uid target r g :
  card_total (play_take db uid target r g) = S (card_total g).
Proof.
  unfold play_take. pose proof (card_total_discard "takecard" g) as Hd.
  destruct (String.eqb target ""); [exact Hd|].
  destruct (get_userid_by_username db target) as [t|]; [|exact Hd].
  destruct (negb (Z.eqb t 0) && py_in t (alive (discard "takecard" g))
            && negb (Z.eqb t uid)); [|exact Hd].
  destruct (hand_of (discard "takecard" g) t) as [|c th] eqn:Eh; [exact Hd|].
  rewrite card_total_add_log, card_total_give.
  pose proof (card_total_set_hand t
                (py_remove (fst (choice c (c :: th) r)) (c :: th))
                (discard "takecard" g)) as Ht.
  rewrite Eh in Ht.
  pose proof (py_remove_length _ _ (choice_In c th r)) as Hr.
  simpl List.length in *. lia.
Qed.

Lemma play_exchange_total uid target g :
  card_total (play_exchange db uid target g) = S (card_total g).
Proof.
  unfold play_exchange. pose proof (card_total_discard "exchangecard" g) as Hd.
  destruct (String.eqb target ""); [exact Hd|].
  destruct (get_userid_by_username db target) as [t|]; [|exact Hd].
  destruct (negb (Z.eqb t 0) && py_in t (alive (discard "exchangecard" g)));
    [|exact Hd].
  destruct (Z.eqb_spec t uid) as [->|Hne]; simpl negb; cbn [andb]; [exact Hd|].
  rewrite card_total_add_log.
  set (g1 := discard "exchangecard" g) in *.
  pose proof (card_total_set_hand uid (hand_of g1 t) g1) as H1.
  assert (Ht : hand_of (set_hands (dset uid (hand_of g1 t) (hands g1)) g1) t
               = hand_of g1 t).
  { unfold hand_of, dget_default. simpl. rewrite dget_dset_other by assumption.
    reflexivity. }
  assert (H2 : (card_total (set_hands (dset t (hand_of g1 uid)
                              (dset uid (hand_of g1 t) (hands g1))) g1)
                + List.length (hand_of g1 t)
                = card_total (set_hands (dset uid (hand_of g1 t) (hands g1)) g1)
                  + List.length (hand_of g1 uid))%nat).
  { pose proof (card_total_set_hand t (hand_of g1 uid)
                  (set_hands (dset uid (hand_of g1 t) (hands g1)) g1)) as H2.
    rewrite Ht in H2. exact H2. }
  lia.
Qed.

Lemma play_accusate_total uid target g :
  card_total (play_accusate db uid target g) = S (card_total g).
Proof.
  unfold play_accusate. pose proof (card_total_discard "accusatecard" g) as Hd.
  destruct (String.eqb target ""); [exact Hd|].
  destruct (get_userid_by_username db target) as [t|]; [|exact Hd].
  destruct (negb (Z.eqb t 0) && py_in t (alive (discard "accusatecard" g)));
    [|exact Hd].
  destruct (killer (discard "accusatecard" g)) as [k|].
  - destruct (Z.eqb k t).
    + change (card_total (eliminate t (discard "accusatecard" g)) = S (card_total g)).
      rewrite card_total_eliminate. exact Hd.
    + rewrite card_total_add_log, card_total_eliminate. exact Hd.
  - rewrite card_total_add_log, card_total_eliminate. exact Hd.
Qed.

Lemma play_kill_total uid target g :
  card_total (play_kill db uid target g)
  = (S (card_total g) + if shield_break db g uid "killcard" target then 1 else 0)%nat.
Proof.
  unfold play_kill, shield_break.
  assert (Hd : card_total (set_killer (Some uid) (discard "killcard" g))
               = S (card_total g)) by apply card_total_discard.
  cbn [String.eqb Ascii.eqb Bool.eqb andb].
  destruct (String.eqb target ""); cbn [negb andb]; [rewrite card_total_add_log; lia|].
  destruct (get_userid_by_username db target) as [t|];
    [|rewrite card_total_add_log; lia].
  cbn [alive set_killer discard set_used shields_equipped].
  destruct (negb (Z.eqb t 0) && py_in t (alive g) && negb (Z.eqb t uid));
    cbn [andb]; [|rewrite card_total_add_log; lia].
  destruct (dget t (shields_equipped g)) as [[|]|].
  - rewrite card_total_add_log, card_total_give. simpl List.length.
    change (card_total (set_shields _ ?x)) with (card_total x). lia.
  - rewrite card_total_add_log, card_total_eliminate. lia.
  - rewrite card_total_add_log, card_total_eliminate. lia.
Qed.

Lemma end_checks_total g : card_total (end_checks g) = card_total g.
Proof.
  unfold end_checks.
  destruct (truthy_id (killer g) && winner_by_killer (alive g) (killer g));
    [reflexivity|].
  destruct (killer g); [reflexivity|].
  destruct (all_hands_empty g); reflexivity.
Qed.

(** The card count after the [if/elif] chain, in terms of the count before
    the call. *)
Lemma apply_card_total uid card target r g :
  py_in card (hand_of g uid) = true ->
  (card_total (apply_card db uid card target r g)
   + (if String.eqb card "shieldcard" then 1 else 0)
   = card_total g + (if shield_break db g uid card target then 1 else 0))%nat.
Proof.
  intros Hin. pose proof (card_total_remove uid card g Hin) as Hrem.
  unfold apply_card.
  set (g0 := set_hands (dset uid (py_remove card (hand_of g uid)) (hands g)) g) in *.
  assert (Hsb : forall c, shield_break db g uid c target
                          = shield_break db g0 uid c target) by reflexivity.
  card_cases card; cbn [String.eqb Ascii.eqb Bool.eqb];
    try (unfold shield_break; cbn [String.eqb Ascii.eqb Bool.eqb andb]).
  - unfold play_state. rewrite card_total_discard, card_total_add_log. lia.
  - rewrite play_search_total. lia.
  - unfold play_shield. rewrite card_total_add_log.
    change (card_total (set_shields _ ?x)) with (card_total x). lia.
  - rewrite play_take_total. lia.
  - rewrite play_exchange_total. lia.
  - unfold play_judge. rewrite card_total_add_log, card_total_discard. lia.
  - rewrite play_accusate_total. lia.
  - rewrite play_kill_total. rewrite <- Hsb.
    unfold shield_break; cbn [String.eqb Ascii.eqb Bool.eqb andb]. lia.
  - repeat match goal with
           | Hn : card <> _ |- _ => apply String.eqb_neq in Hn; rewrite Hn; clear Hn
           end.
    cbn [andb]. unfold play_other. rewrite card_total_add_log, card_total_discard. lia.
Qed.
End CountFacts.

(** ** Shield flags *)

Section ShieldFacts.
Variable db : Db.

Lemma eliminate_shields p g : shields_equipped (eliminate p g) = shields_equipped g.
Proof. reflexivity. Qed.

Lemma play_search_shields uid r g :
  shields_equipped (play_search db uid r g) = shields_equipped g.
Proof.
  unfold play_search.
  destruct (search_draws 3 (deck (discard "searchcard" g))
              (used (discard "searchcard" g)) [] r) as [[[dk us] draws] r'].
  reflexivity.
Qed.

Lemma play_take_shields uid target r g :
  shields_equipped (play_take db uid target r g) = shields_equipped g.
Proof.
  unfold play_take.
  destruct (String.eqb target ""); [reflexivity|].
  destruct (get_userid_by_username db target) as [t|]; [|reflexivity].
  destruct (negb (Z.eqb t 0) && py_in t (alive (discard "takecard" g))
            && negb (Z.eqb t uid)); [|reflexivity].
  destruct (hand_of (discard "takecard" g) t); reflexivity.
Qed.

Lemma play_exchange_shields uid target g :
  shields_equipped (play_exchange db uid target g) = shields_equipped g.
Proof.
  unfold play_exchange.
  destruct (String.eqb target ""); [reflexivity|].
  destruct (get_userid_by_username db target) as [t|]; [|reflexivity].
  destruct (negb (Z.eqb t 0) && py_in t (alive (discard "exchangecard" g))
            && negb (Z.eqb t uid)); reflexivity.
Qed.

Lemma play_accusate_shields uid target g :
  shields_equipped (play_accusate db uid target g) = shields_equipped g.
Proof.
  unfold play_accusate.
  destruct (String.eqb target ""); [reflexivity|].
  destruct (get_userid_by_username db target) as [t|]; [|reflexivity].
  destruct (negb (Z.eqb t 0) && py_in t (alive (discard "accusatecard" g)));
    [|reflexivity].
  destruct (killer (discard "accusatecard" g)) as [k|]; [|reflexivity].
  destruct (Z.eqb k t); reflexivity.
Qed.

Lemma play_kill_shields uid target g :
  shields_equipped (play_kill db uid target g)
  = shields_after db g uid "killcard" target.
Proof.
  unfold play_kill, shields_after, shield_break.
  cbn [String.eqb Ascii.eqb Bool.eqb andb].
  destruct (String.eqb target ""); cbn [negb andb]; [reflexivity|].
  destruct (get_userid_by_username db target) as [t|]; [|reflexivity].
  cbn [alive set_killer discard set_used shields_equipped].
  destruct (negb (Z.eqb t 0) && py_in t (alive g) && negb (Z.eqb t uid));
    cbn [andb]; [|reflexivity].
  destruct (dget t (shields_equipped g)) as [[|]|]; reflexivity.
Qed.

Lemma end_checks_shields g : shields_equipped (end_checks g) = shields_equipped g.
Proof.
  unfold end_checks.
  destruct (truthy_id (killer g) && winner_by_killer (alive g) (killer g));
    [reflexivity|].
  destruct (killer g); [reflexivity|].
  destruct (all_hands_empty g); reflexivity.
Qed.

Lemma apply_card_shields uid card target r g :
  shields_equipped (apply_card db uid card target r g)
  = shields_after db g uid card target.
Proof.
  unfold apply_card.
  set (g0 := set_hands (dset uid (py_remove card (hand_of g uid)) (hands g)) g).
  assert (Hsa : forall c, shields_after db g uid c target
                          = shields_after db g0 uid c target) by reflexivity.
  card_cases card; cbn [String.eqb Ascii.eqb Bool.eqb];
    try reflexivity.
  - apply play_search_shields.
  - apply play_take_shields.
  - apply play_exchange_shields.
  - apply play_accusate_shields.
  - rewrite Hsa. apply play_kill_shields.
  - unfold shields_after, shield_break.
    repeat match goal with
           | Hn : card <> _ |- _ => apply String.eqb_neq in Hn; rewrite Hn; clear Hn
           end.
    reflexivity.
Qed.

(** Shields and loose cards together never grow. *)
Lemma apply_card_bound uid card target r g :
  py_in card (hand_of g uid) = true ->
  (card_total (apply_card db uid card target r g)
   + List.length (shields_equipped (apply_card db uid card target r g))
   <= card_total g + List.length (shields_equipped g))%nat.
Proof.
  intros Hin. pose proof (apply_card_total db uid card target r g Hin) as Ht.
  rewrite apply_card_shields. unfold shields_after.
  destruct (String.eqb card "shieldcard") eqn:Es.
  - apply String.eqb_eq in Es. subst card.
    pose proof (dset_length_le uid true (shields_equipped g)).
    unfold shield_break in Ht. cbn [String.eqb Ascii.eqb Bool.eqb andb] in Ht. lia.
  - destruct (shield_break db g uid card target) eqn:Eb; [|lia].
    unfold shield_break in Eb.
    destruct (get_userid_by_username db target) as [t|];
      [|rewrite andb_false_r in Eb; discriminate].
    destruct (dget t (shields_equipped g)) as [[|]|] eqn:Ed;
      try (rewrite !andb_false_r in Eb; discriminate).
    pose proof (dpop_length _ _ _ Ed). lia.
Qed.
Lemma shields_after_keys uid card target g :
  NoDup (map fst (shields_equipped g)) ->
  NoDup (map fst (shields_after db g uid card target)).
Proof.
  intros Hnd. unfold shields_after.
  destruct (String.eqb card "shieldcard"); [apply dset_keys_NoDup; assumption|].
  destruct (shield_break db g uid card target); [|assumption].
  destruct (get_userid_by_username db target); [|assumption].
  apply dpop_keys_NoDup. assumption.
Qed.
End ShieldFacts.

(** ** The end checks *)

Lemma winner_by_killer_sole al k :
  NoDup al -> (winner_by_killer al (Some k) = true <-> al = [k]).
Proof.
  intros Hnd. unfold winner_by_killer. split.
  - destruct (py_in k al) eqn:Hin; [|discriminate]. cbn [andb].
    destruct (Nat.eqb_spec (List.length (filter (fun p => negb (Z.eqb p k)) al)) 0)
      as [Hz|]; [|discriminate].
    intros _. apply py_in_In in Hin. apply length_zero_iff_nil in Hz.
    assert (Hall : forall p, In p al -> p = k).
    { intros p Hp. destruct (Z.eqb_spec p k) as [|Hne]; [assumption|].
      assert (Hf : In p (filter (fun p => negb (Z.eqb p k)) al)).
      { apply filter_In. split; [assumption|].
        apply Z.eqb_neq in Hne. rewrite Hne. reflexivity. }
      rewrite Hz in Hf. contradiction. }
    destruct al as [|x [|y rest]]; [contradiction| |].
    + f_equal. apply Hall. left. reflexivity.
    + exfalso. inversion Hnd as [|? ? Hx _]; subst. apply Hx.
      rewrite (Hall x), (Hall y); simpl; auto.
  - intros ->. simpl. rewrite Z.eqb_refl. reflexivity.
Qed.

Section EndCheckFacts.
Variable db : Db.

Lemma end_checks_fields g :
  game_id (end_checks g) = game_id g /\ players (end_checks g) = players g /\
  alive (end_checks g) = alive g /\ hands (end_checks g) = hands g /\
  deck (end_checks g) = deck g /\ used (end_checks g) = used g /\
  killer (end_checks g) = killer g /\ log (end_checks g) = log g.
Proof.
  unfold end_checks.
  destruct (truthy_id (killer g) && winner_by_killer (alive g) (killer g));
    [repeat apply conj; reflexivity|].
  destruct (killer g) eqn:Hk; [repeat apply conj; simpl; congruence|].
  destruct (all_hands_empty g); repeat apply conj; simpl; congruence.
Qed.

Lemma end_checks_result g :
  (truthy_id (killer g) && winner_by_killer (alive g) (killer g) = true /\
   finished (end_checks g) = true /\
   winner (end_checks g) = Some "killer"%string) \/
  (truthy_id (killer g) && winner_by_killer (alive g) (killer g) = false /\
   killer g = None /\ all_hands_empty g = true /\
   finished (end_checks g) = true /\
   winner (end_checks g) = Some "faithfuls"%string) \/
  (truthy_id (killer g) && winner_by_killer (alive g) (killer g) = false /\
   (killer g <> None \/ all_hands_empty g = false) /\
   finished (end_checks g) = finished g /\
   winner (end_checks g) = winner g).
Proof.
  unfold end_checks.
  destruct (truthy_id (killer g) && winner_by_killer (alive g) (killer g)).
  - left. repeat apply conj; reflexivity.
  - destruct (killer g) as [k|] eqn:Hk.
    + right. right. repeat apply conj; try reflexivity. left. discriminate.
    + destruct (all_hands_empty g) eqn:Ha.
      * right. left. repeat apply conj; reflexivity.
      * right. right. repeat apply conj; try reflexivity. right. reflexivity.
Qed.
End EndCheckFacts.

(** ** The guards of [play_card] *)

Section GuardFacts.
Variable db : Db.

Lemma play_card_in_accepted gid uid card target r g :
  accepted g uid card ->
  play_card_in db gid uid (Some card) target r g
  = (redirect_game_room gid None, end_checks (apply_card db uid card target r g)).
Proof.
  intros (Hp & Ha & Hc & Hh). unfold play_card_in.
  rewrite Hp, Ha, Hh. cbn [negb].
  apply String.eqb_neq in Hc. rewrite Hc. reflexivity.
Qed.

Lemma play_card_in_cases gid uid form_card target r g :
  snd (play_card_in db gid uid form_card target r g) = g \/
  exists card, form_card = Some card /\ accepted g uid card /\
               snd (play_card_in db gid uid form_card target r g)
               = end_checks (apply_card db uid card target r g).
Proof.
  unfold play_card_in.
  destruct (py_in uid (players g)) eqn:Hp; cbn [negb]; [|left; reflexivity].
  destruct (py_in uid (alive g)) eqn:Ha; cbn [negb]; [|left; reflexivity].
  destruct form_card as [card|]; [|left; reflexivity].
  destruct (String.eqb_spec card "") as [->|Hc]; cbn [orb]; [left; reflexivity|].
  destruct (py_in card (hand_of g uid)) eqn:Hh; cbn [negb]; [|left; reflexivity].
  right. exists card. repeat split; assumption.
Qed.
End GuardFacts.

(** ** The session invariant is kept by every call *)

Section GameInvariant.
Variable db : Db.

Lemma outcome_nodup uid card g g1 :
  outcome uid card g g1 -> NoDup (alive g) -> NoDup (alive g1).
Proof.
  intros [Ha _ _ _ | _ Ha _ _ _ | t _ _ _ Ha _ _ _ | t _ _ Ha _ _ _ | t _ _ Ha _ _ _] Hnd;
    rewrite Ha; auto using py_remove_NoDup.
Qed.

Lemma outcome_killer_id uid card g g1 :
  outcome uid card g g1 -> uid <> 0 ->
  (forall k, killer g = Some k -> k <> 0) ->
  forall k, killer g1 = Some k -> k <> 0.
Proof.
  intros [_ Hk _ _ | _ _ Hk _ _ | t _ _ _ _ Hk _ _ | t _ _ _ Hk _ _ | t _ _ _ Hk _ _]
         Hu Hg k; rewrite Hk; auto; congruence.
Qed.

Lemma sole_killer_wins k :
  k <> 0 -> truthy_id (Some k) && winner_by_killer [k] (Some k) = true.
Proof.
  intros Hk. simpl. apply Z.eqb_neq in Hk. rewrite Hk, Z.eqb_refl. reflexivity.
Qed.

Lemma apply_end_ok uid card target r g :
  uid <> 0 -> accepted g uid card -> game_ok g ->
  game_ok (end_checks (apply_card db uid card target r g)).
Proof.
  intros Hu (Hp & Ha & Hc & Hh) [Hnd Hkid Hwon Hkeys Hcards].
  pose proof (apply_card_outcome db uid card target r g) as Hout.
  set (g1 := apply_card db uid card target r g) in *.
  destruct (end_checks_fields g1) as (_ & _ & Eal & _ & _ & _ & Ek & _).
  pose proof (outcome_nodup _ _ _ _ Hout Hnd) as Hnd1.
  pose proof (outcome_killer_id _ _ _ _ Hout Hu Hkid) as Hkid1.
  apply py_in_In in Ha.
  constructor.
  - rewrite Eal. exact Hnd1.
  - rewrite Ek. exact Hkid1.
  - rewrite Eal, Ek. intros Hw.
    destruct (end_checks_result g1)
      as [(Hb & Hf & _) | [(_ & _ & _ & _ & Hw') | (Hb & _ & Hf & Hw')]].
    + split; [exact Hf|].
      apply andb_true_iff in Hb. destruct Hb as [Ht Hb].
      destruct (killer g1) as [k|]; [|discriminate].
      exists k. split; [reflexivity|].
      apply winner_by_killer_sole; assumption.
    + rewrite Hw' in Hw. discriminate.
    + exfalso. rewrite Hw' in Hw.
      assert (Hold : winner g = Some "killer"%string ->
                     exists k, k <> 0 /\ uid = k /\ killer g = Some k /\ alive g = [k]).
      { intros Hwg. destruct (Hwon Hwg) as (_ & k & Hk & Hal).
        exists k. repeat split; auto.
        rewrite Hal in Ha. destruct Ha as [<-|[]]. reflexivity. }
      destruct Hout as [Hal Hk _ Hw1 | _ Hal Hk _ Hw1 | t _ Ht Htu Hal Hk _ Hw1
                       | t _ _ _ _ _ Hw1 | t Ht Hkt _ _ _ Hw1].
      * rewrite Hw1 in Hw. destruct (Hold Hw) as (k & Hk0 & -> & Hkg & Halg).
        rewrite Hk, Hkg, Hal, Halg, (sole_killer_wins k Hk0) in Hb.
        discriminate.
      * rewrite Hw1 in Hw. destruct (Hold Hw) as (k & Hk0 & -> & Hkg & Halg).
        rewrite Hk, Hal, Halg, (sole_killer_wins k Hk0) in Hb.
        discriminate.
      * rewrite Hw1 in Hw. destruct (Hold Hw) as (k & Hk0 & -> & Hkg & Halg).
        rewrite Halg in Ht. destruct Ht as [<-|[]]. congruence.
      * rewrite Hw1 in Hw. discriminate.
      * rewrite Hw1 in Hw. destruct (Hold Hw) as (k & Hk0 & -> & Hkg & Halg).
        rewrite Halg in Ht. destruct Ht as [<-|[]]. congruence.
  - rewrite end_checks_shields. unfold g1. rewrite apply_card_shields.
    apply shields_after_keys. exact Hkeys.
  - rewrite end_checks_total, end_checks_shields.
    pose proof (apply_card_bound db uid card target r g Hh) as Hb. fold g1 in Hb. lia.
Qed.

Lemma play_card_in_ok gid uid form_card target r g :
  uid <> 0 -> game_ok g ->
  game_ok (snd (play_card_in db gid uid form_card target r g)).
Proof.
  intros Hu Hok.
  destruct (play_card_in_cases db gid uid form_card target r g)
    as [-> | (card & _ & Hacc & ->)]; [assumption|].
  apply apply_end_ok; assumption.
Qed.
End GameInvariant.

(** ** Matchmaking and session creation *)

Lemma current_user_id db sess u :
  db_wf db -> current_user db sess = Some u -> 0 < user_id u.
Proof.
  intros Hwf. destruct sess as [uid|]; simpl; [|discriminate].
  unfold select_by_id. intros E. apply find_some in E. destruct E as [Hin _].
  unfold db_wf in Hwf. rewrite Forall_forall in Hwf. apply Hwf. exact Hin.
Qed.

Lemma get_userid_positive db name t :
  db_wf db -> get_userid_by_username db name = Some t -> 0 < t.
Proof.
  intros Hwf. unfold get_userid_by_username, select_by_username.
  destruct (find _ db) as [u|] eqn:E; [|discriminate].
  intros Et. injection Et as <-. apply find_some in E. destruct E as [Hin _].
  unfold db_wf in Hwf. rewrite Forall_forall in Hwf. apply Hwf. exact Hin.
Qed.

Lemma pop_front_n_all q : pop_front_n (List.length q) q = Some (q, []).
Proof.
  induction q as [|x q IH]; simpl; [reflexivity|]. rewrite IH. reflexivity.
Qed.

Lemma create_game_some new_id now r ps w :
  List.length ps = MATCH_SIZE ->
  exists g w', create_game_for_players new_id now r ps w = Some (g, w').
Proof.
  intros Hl. unfold create_game_for_players.
  destruct (make_new_deck r) as [dk0 r'] eqn:Ed.
  assert (Hd : List.length dk0 = 32%nat).
  { pose proof (make_new_deck_length r) as H. rewrite Ed in H. exact H. }
  destruct (deal_some ps [] dk0) as (hs & dk & E).
  { rewrite Hl, Hd. unfold MATCH_SIZE. lia. }
  rewrite E. eauto.
Qed.

Lemma create_game_fields new_id now r ps w g w' :
  create_game_for_players new_id now r ps w = Some (g, w') ->
  game_id g = new_id /\ players g = ps /\ alive g = ps /\ used g = [] /\
  shields_equipped g = [] /\ log g = [] /\ finished g = false /\ winner g = None /\
  matchmaking_queue w' = matchmaking_queue w /\
  games w' = dset new_id g (games w) /\
  user_to_game w' = register_players ps new_id (user_to_game w).
Proof.
  unfold create_game_for_players.
  destruct (make_new_deck r) as [dk0 r'].
  destruct (deal ps [] dk0) as [[hs dk]|]; [|discriminate].
  intros E. injection E as <- <-. repeat apply conj; reflexivity.
Qed.

Lemma create_game_ok new_id now r ps w g w' :
  NoDup ps -> (forall p, In p ps -> 0 < p) ->
  create_game_for_players new_id now r ps w = Some (g, w') ->
  game_ok g /\ card_total g = 32%nat.
Proof.
  intros Hnd Hpos. unfold create_game_for_players.
  destruct (make_new_deck r) as [dk0 r'] eqn:Ed.
  assert (Hd : List.length dk0 = 32%nat).
  { pose proof (make_new_deck_length r) as H. rewrite Ed in H. exact H. }
  destruct (deal ps [] dk0) as [[hs dk]|] eqn:E; [|discriminate].
  intros Eg. injection Eg as <- <-.
  apply deal_spec in E; [|assumption|reflexivity].
  destruct E as [Hsum Hkeys].
  assert (Ht : card_total
                 {| game_id := new_id; players := ps; alive := ps; hands := hs;
                    deck := dk; used := []; killer := find_killer hs;
                    shields_equipped := []; log := []; started_at := now;
                    finished := false; winner := None |} = 32%nat).
  { unfold card_total. simpl. simpl in Hsum. lia. }
  split; [|exact Ht].
  constructor; simpl.
  - exact Hnd.
  - intros k Hk. apply find_killer_key in Hk. apply Hkeys in Hk.
    destruct Hk as [Hin|Hn]; [|simpl in Hn; congruence].
    apply Hpos in Hin. lia.
  - discriminate.
  - constructor.
  - rewrite Ht. simpl. lia.
Qed.

Section QueueFacts.
Variable db : Db.

(** The three ways a join by a logged-in user can go. *)
Lemma join_queue_spec sess new_id now r w user :
  (List.length (matchmaking_queue w) < MATCH_SIZE)%nat ->
  current_user db sess = Some user ->
  let uid := user_id user in
  let q := matchmaking_queue w in
  (In uid q -> join_queue db sess new_id now r w = (json_started None, w)) /\
  (~ In uid q -> (S (List.length q) < MATCH_SIZE)%nat ->
   join_queue db sess new_id now r w
   = (json_started None, mkWorld (q ++ [uid]) (games w) (user_to_game w))) /\
  (~ In uid q -> S (List.length q) = MATCH_SIZE ->
   exists g w',
     create_game_for_players new_id now r (q ++ [uid])
                             (mkWorld [] (games w) (user_to_game w)) = Some (g, w') /\
     join_queue db sess new_id now r w = (json_started (Some new_id), w')).
Proof.
  intros Hlen Hu uid q. unfold join_queue. rewrite Hu. fold uid. fold q.
  repeat apply conj.
  - intros Hin. apply py_in_In in Hin. rewrite Hin.
    destruct (Nat.leb_spec MATCH_SIZE (List.length q)) as [Hge|_]; [unfold q in Hge; lia|].
    destruct w; reflexivity.
  - intros Hin Hl. apply py_in_false in Hin. rewrite Hin.
    rewrite length_app. simpl List.length.
    destruct (Nat.leb_spec MATCH_SIZE (List.length q + 1)) as [Hge|_]; [lia|].
    reflexivity.
  - intros Hin Hl. apply py_in_false in Hin. rewrite Hin.
    assert (Hq : List.length (q ++ [uid]) = MATCH_SIZE).
    { rewrite length_app. simpl. lia. }
    assert (Hpop : pop_front_n MATCH_SIZE (q ++ [uid]) = Some (q ++ [uid], [])).
    { rewrite <- Hq. apply pop_front_n_all. }
    rewrite Hpop, Hq, Nat.leb_refl.
    destruct (create_game_some new_id now r (q ++ [uid])
                (mkWorld [] (games w) (user_to_game w)) Hq) as (g & w' & E).
    exists g, w'. split; [exact E|]. rewrite E.
    apply create_game_fields in E. destruct E as (-> & _). reflexivity.
Qed.

Lemma games_dset_ok (gs : dict string Game) gid g :
  (forall i x, dget i gs = Some x -> game_ok x) -> game_ok g ->
  forall i x, dget i (dset gid g gs) = Some x -> game_ok x.
Proof.
  intros Hgs Hg i x. rewrite dget_dset.
  destruct (py_eqb i gid); [intros E; injection E as <-; exact Hg | apply Hgs].
Qed.

Lemma join_queue_ok sess new_id now r w :
  db_wf db -> world_ok w -> world_ok (snd (join_queue db sess new_id now r w)).
Proof.
  intros Hwf [Hnd Hlen Hids Hgs].
  destruct (current_user db sess) as [user|] eqn:Hu;
    [|unfold join_queue; rewrite Hu; constructor; assumption].
  pose proof (current_user_id db sess user Hwf Hu) as Hpos.
  destruct (join_queue_spec sess new_id now r w user Hlen Hu) as (H1 & H2 & H3).
  destruct (in_dec Z.eq_dec (user_id user) (matchmaking_queue w)) as [Hin|Hin].
  - rewrite (H1 Hin). constructor; assumption.
  - assert (Hnd' : NoDup (matchmaking_queue w ++ [user_id user])).
    { apply NoDup_app; [assumption | repeat constructor; simpl; tauto |].
      intros x Hx [<-|[]]. contradiction. }
    assert (Hids' : forall u, In u (matchmaking_queue w ++ [user_id user]) -> 0 < u).
    { intros u Hi. apply in_app_or in Hi. destruct Hi as [Hi|[<-|[]]]; auto. }
    destruct (Nat.eq_dec (S (List.length (matchmaking_queue w))) MATCH_SIZE) as [He|Hne].
    + destruct (H3 Hin He) as (g & w' & Ec & ->). simpl.
      destruct (create_game_ok _ _ _ _ _ _ _ Hnd' Hids' Ec) as [Hok _].
      apply create_game_fields in Ec.
      destruct Ec as (_ & _ & _ & _ & _ & _ & _ & _ & Eq & Eg & _).
      simpl in Eq, Eg.
      constructor; rewrite ?Eq, ?Eg.
      * constructor.
      * unfold MATCH_SIZE. simpl. lia.
      * simpl. tauto.
      * apply games_dset_ok; assumption.
    + rewrite (H2 Hin) by lia. simpl.
      constructor; simpl; auto.
      rewrite length_app. simpl. lia.
Qed.

Lemma leave_queue_ok sess w : world_ok w -> world_ok (snd (leave_queue db sess w)).
Proof.
  intros [Hnd Hlen Hids Hgs]. unfold leave_queue.
  destruct (current_user db sess) as [user|]; [|constructor; assumption].
  destruct (py_in (user_id user) (matchmaking_queue w)) eqn:Hin;
    [|constructor; assumption].
  apply py_in_In in Hin. constructor; simpl.
  - apply py_remove_NoDup. exact Hnd.
  - pose proof (py_remove_length _ _ Hin). lia.
  - intros u Hu. apply Hids. eapply py_remove_In; eauto.
  - exact Hgs.
Qed.

Lemma play_card_ok sess gid form_card target r w :
  db_wf db -> world_ok w ->
  world_ok (snd (play_card db sess gid form_card target r w)).
Proof.
  intros Hwf [Hnd Hlen Hids Hgs]. unfold play_card.
  destruct (current_user db sess) as [user|] eqn:Hu; [|constructor; assumption].
  pose proof (current_user_id db sess user Hwf Hu) as Hpos.
  destruct (dget gid (games w)) as [g|] eqn:Eg; [|constructor; assumption].
  pose proof (play_card_in_ok db gid (user_id user) form_card target r g) as Hok.
  destruct (play_card_in db gid (user_id user) form_card target r g) as [resp g'].
  simpl in *. constructor; simpl; auto.
  apply games_dset_ok; [assumption|]. apply Hok; [lia|]. eapply Hgs; eauto.
Qed.

Lemma init_world_ok : world_ok init_world.
Proof.
  constructor; simpl.
  - constructor.
  - unfold MATCH_SIZE. lia.
  - tauto.
  - discriminate.
Qed.

End QueueFacts.

Lemma reachable_ok w : reachable w -> world_ok w.
Proof.
  intros Hr. induction Hr as [|w w' _ IH Hs].
  - apply init_world_ok.
  - destruct Hs.
    + apply join_queue_ok; assumption.
    + apply leave_queue_ok; assumption.
    + apply play_card_ok; assumption.
Qed.

(** ** Reachability of request sequences *)

Lemma join_all_reachable db reqs w :
  db_wf db -> reachable w -> reachable (join_all db reqs w).
Proof.
  intros Hwf. revert w.
  induction reqs as [|[[[sess new_id] now] r] reqs IH]; intros w Hr.
  - exact Hr.
  - apply IH. eapply reach_step; [exact Hr | apply step_join; exact Hwf].
Qed.

Lemma play_all_reachable db gid reqs w :
  db_wf db -> reachable w -> reachable (play_all db gid reqs w).
Proof.
  intros Hwf. revert w.
  induction reqs as [|[[u card] target] reqs IH]; intros w Hr.
  - exact Hr.
  - apply IH. eapply reach_step; [exact Hr | apply step_play; exact Hwf].
Qed.

Lemma demo_db_wf : db_wf demo_db.
Proof. repeat constructor. Qed.

Lemma demo_joined_reachable joins : reachable (join_all demo_db joins init_world).
Proof. apply join_all_reachable; [exact demo_db_wf | apply reach_init]. Qed.

Lemma demo_played_reachable reqs joins :
  reachable (play_all demo_db "g1" reqs (join_all demo_db joins init_world)).
Proof. apply play_all_reachable; [exact demo_db_wf | apply demo_joined_reachable]. Qed.

(** ** Supply of cards: the used pile is never reshuffled *)

Lemma count_app c l1 l2 : count c (l1 ++ l2) = (count c l1 + count c l2)%nat.
Proof. apply count_occ_app. Qed.

Lemma count_single c x : count c [x] = if String.eqb x c then 1%nat else 0%nat.
Proof.
  unfold count. simpl.
  destruct (string_dec x c) as [->|Hne].
  - rewrite String.eqb_refl. reflexivity.
  - apply String.eqb_neq in Hne. rewrite Hne. reflexivity.
Qed.

Lemma count_le_length c l : (count c l <= List.length l)%nat.
Proof. apply count_occ_bound. Qed.

Lemma count_py_remove_le c x l : (count c (py_remove x l) <= count c l)%nat.
Proof.
  unfold count. induction l as [|y l IH]; simpl; [lia|].
  change (py_eqb x y) with (String.eqb x y).
  destruct (String.eqb x y); simpl; destruct (string_dec y c); lia.
Qed.

Lemma count_py_remove_same c l :
  In c l -> S (count c (py_remove c l)) = count c l.
Proof.
  unfold count. induction l as [|y l IH]; simpl; [tauto|].
  change (py_eqb c y) with (String.eqb c y).
  intros Hin. destruct (String.eqb_spec c y) as [<-|Hne].
  - destruct (string_dec c c); [reflexivity | congruence].
  - simpl. destruct (string_dec y c); [congruence|].
    apply IH. destruct Hin; congruence.
Qed.

Lemma count_py_remove_other c x l : c <> x -> count c (py_remove x l) = count c l.
Proof.
  intros Hne. unfold count. induction l as [|y l IH]; simpl; [reflexivity|].
  change (py_eqb x y) with (String.eqb x y).
  destruct (String.eqb_spec x y) as [<-|Hxy].
  - destruct (string_dec x c); [congruence | reflexivity].
  - simpl. destruct (string_dec y c); rewrite IH; reflexivity.
Qed.

Lemma list_set_split {A} i (x a : A) l1 l2 :
  List.length l1 = i -> list_set i x (l1 ++ a :: l2) = l1 ++ x :: l2.
Proof.
  intros <-. unfold list_set.
  assert (F : firstn (List.length l1) (l1 ++ a :: l2) = l1).
  { rewrite firstn_app, Nat.sub_diag, firstn_all. cbn [firstn]. apply app_nil_r. }
  assert (K : skipn (S (List.length l1)) (l1 ++ a :: l2) = l2).
  { change (l1 ++ a :: l2) with (l1 ++ [a] ++ l2). rewrite app_assoc.
    replace (S (List.length l1)) with (List.length (l1 ++ [a]))
      by (rewrite length_app; simpl; lia).
    rewrite skipn_app, skipn_all, Nat.sub_diag. reflexivity. }
  rewrite F, K. reflexivity.
Qed.

Lemma count_list_set c i x a l :
  nth_error l i = Some a ->
  (count c (list_set i x l) + count c [a] = count c l + count c [x])%nat.
Proof.
  intros E. apply nth_error_split in E. destruct E as (l1 & l2 & -> & Hl).
  rewrite (list_set_split i x a l1 l2 Hl).
  rewrite !count_app.
  change (a :: l2) with ([a] ++ l2). change (x :: l2) with ([x] ++ l2).
  rewrite !count_app. lia.
Qed.

Lemma nth_error_list_set {A} i j (x a b : A) l :
  nth_error l i = Some a -> nth_error l j = Some b ->
  nth_error (list_set i x l) j = Some (if Nat.eqb j i then x else b).
Proof.
  intros Ei Ej. apply nth_error_split in Ei. destruct Ei as (l1 & l2 & -> & Hl).
  rewrite (list_set_split i x a l1 l2 Hl).
  destruct (Nat.eqb_spec j i) as [->|Hne].
  - rewrite nth_error_app2 by lia. rewrite Hl, Nat.sub_diag. reflexivity.
  - destruct (Nat.lt_ge_cases j (List.length l1)) as [Hlt|Hge].
    + rewrite nth_error_app1 in Ej |- * by exact Hlt. exact Ej.
    + rewrite nth_error_app2 in Ej |- * by exact Hge.
      destruct (j - List.length l1)%nat as [|k] eqn:Ek; [lia|]. exact Ej.
Qed.

Lemma count_list_swap c i j l : count c (list_swap i j l) = count c l.
Proof.
  unfold list_swap.
  destruct (nth_error l i) as [a|] eqn:Ei; [|reflexivity].
  destruct (nth_error l j) as [b|] eqn:Ej; [|reflexivity].
  pose proof (count_list_set c i b a l Ei) as H1.
  pose proof (nth_error_list_set i j b a b l Ei Ej) as E2.
  assert (E2' : nth_error (list_set i b l) j = Some b)
    by (rewrite E2; destruct (Nat.eqb j i); reflexivity).
  pose proof (count_list_set c j a b (list_set i b l) E2') as H2.
  lia.
Qed.

Lemma count_shuffle_from c i l r : count c (fst (shuffle_from i l r)) = count c l.
Proof.
  revert l r. induction i as [|i IH]; intros l r; simpl; [reflexivity|].
  destruct (randbelow (S (S i)) r) as [j r'].
  rewrite IH. apply count_list_swap.
Qed.

Lemma count_make_new_deck c r :
  count c (fst (make_new_deck r)) = count c unshuffled_deck.
Proof. apply count_shuffle_from. Qed.

Lemma count_py_pop c l x rest :
  py_pop l = Some (x, rest) -> count c l = (count c rest + count c [x])%nat.
Proof.
  intros E. apply py_pop_snoc in E. subst l. apply count_app.
Qed.

Lemma count_py_pop_n c n : forall l xs rest,
  py_pop_n n l = Some (xs, rest) -> count c l = (count c rest + count c xs)%nat.
Proof.
  induction n as [|n IH]; cbn [py_pop_n]; intros l xs rest.
  - intros E. injection E as <- <-. change (count c []) with 0%nat. lia.
  - destruct (py_pop l) as [[x l1]|] eqn:E1; [|discriminate].
    destruct (py_pop_n n l1) as [[ys l2]|] eqn:E2; [|discriminate].
    intros E. injection E as <- <-.
    apply (count_py_pop c) in E1. apply IH in E2.
    change (x :: ys) with ([x] ++ ys). rewrite count_app. lia.
Qed.

Lemma hands_count_dset c k v h :
  (hands_count c (dset k v h) + count c (dget_default k [] h)
   = hands_count c h + count c v)%nat.
Proof.
  unfold hands_count, dget_default.
  induction h as [|[k' v'] h IH]; simpl.
  - lia.
  - change (py_eqb k k') with (Z.eqb k k').
    destruct (Z.eqb k k'); simpl; lia.
Qed.

Lemma in_play_set_hand c p h g :
  (in_play c (set_hands (dset p h (hands g)) g) + count c (hand_of g p)
   = in_play c g + count c h)%nat.
Proof.
  unfold in_play, hand_of. simpl.
  pose proof (hands_count_dset c p h (hands g)). lia.
Qed.

Lemma deal_count c ps : forall hs dk hs' dk',
  NoDup ps -> (forall p, In p ps -> dget p hs = None) ->
  deal ps hs dk = Some (hs', dk') ->
  (count c dk' + hands_count c hs' = count c dk + hands_count c hs)%nat /\
  (List.length dk' + 3 * List.length ps = List.length dk)%nat.
Proof.
  induction ps as [|p ps IH]; cbn [deal]; intros hs dk hs' dk' Hnd Hfresh E.
  - injection E as <- <-. simpl. lia.
  - destruct (py_pop_n 3 dk) as [[h dk1]|] eqn:Ep; [|discriminate].
    inversion Hnd as [|? ? Hp Hnd']; subst.
    apply IH in E; auto.
    + destruct E as [Hsum Hlen].
      pose proof (count_py_pop_n c 3 dk h dk1 Ep) as Hc.
      apply py_pop_n_length in Ep.
      pose proof (hands_count_dset c p h hs) as Hd.
      unfold dget_default in Hd.
      rewrite (Hfresh p (or_introl eq_refl)) in Hd.
      change (count c []) with 0%nat in Hd. simpl List.length. lia.
    + intros q Hq. rewrite dget_dset_other.
      * apply Hfresh. right. exact Hq.
      * intros ->. contradiction.
Qed.

(** With [n] cards left in the deck the SEARCH loop draws [n] times and
    never reshuffles. *)
Lemma search_draws_enough n : forall dk us draws r,
  (n <= List.length dk)%nat ->
  exists dk' new r',
    search_draws n dk us draws r = (dk', us, draws ++ new, r') /\
    List.length dk = (List.length dk' + n)%nat /\
    forall c, count c dk = (count c dk' + count c new)%nat.
Proof.
  induction n as [|n IH]; intros dk us draws r Hlen.
  - exists dk, [], r. simpl. rewrite app_nil_r.
    split; [reflexivity|]. split; [lia|].
    intros c. change (count c []) with 0%nat. lia.
  - destruct dk as [|x dk0]; [simpl in Hlen; lia|].
    cbn [search_draws].
    destruct (py_pop_some (x :: dk0)) as (y & dk2 & Ep); [discriminate|].
    rewrite Ep.
    pose proof (py_pop_length _ _ _ Ep) as Hl.
    destruct (IH dk2 us (draws ++ [y]) r) as (dk' & new & r' & Es & Hlen' & Hc).
    { simpl in Hlen, Hl. lia. }
    exists dk', (y :: new), r'. split; [|split].
    + rewrite Es. rewrite <- app_assoc. reflexivity.
    + lia.
    + intros c. rewrite (count_py_pop c _ _ _ Ep), (Hc c).
      change (y :: new) with ([y] ++ new). rewrite count_app. lia.
Qed.

Lemma in_play_remove c uid card g :
  py_in card (hand_of g uid) = true ->
  (in_play c (set_hands (dset uid (py_remove card (hand_of g uid)) (hands g)) g)
   + (if String.eqb card c then 1 else 0) = in_play c g)%nat.
Proof.
  intros Hin. apply py_in_In in Hin.
  pose proof (in_play_set_hand c uid (py_remove card (hand_of g uid)) g) as Hs.
  destruct (String.eqb_spec card c) as [->|Hne].
  - pose proof (count_py_remove_same c _ Hin). lia.
  - rewrite count_py_remove_other in Hs by congruence. lia.
Qed.

Lemma in_play_eliminate c p g : (in_play c (eliminate p g) <= in_play c g)%nat.
Proof.
  pose proof (in_play_set_hand c p []
                (set_used (used g ++ hand_of g p)
                          (set_alive (py_remove p (alive g)) g))) as Hs.
  change (count c []) with 0%nat in Hs.
  change (in_play c (eliminate p g) + count c (hand_of g p) = in_play c g + 0)%nat in Hs.
  lia.
Qed.

Lemma in_play_give c p cs g :
  in_play c (set_hands (dset p (hand_of g p ++ cs) (hands g)) g)
  = (in_play c g + count c cs)%nat.
Proof.
  pose proof (in_play_set_hand c p (hand_of g p ++ cs) g) as Hs.
  rewrite count_app in Hs. lia.
Qed.

Lemma eliminate_alive_length p g :
  (List.length (alive g) <= S (List.length (alive (eliminate p g))))%nat.
Proof.
  change (alive (eliminate p g)) with (py_remove p (alive g)).
  destruct (in_dec Z.eq_dec p (alive g)) as [Hin|Hn].
  - rewrite (py_remove_length p _ Hin). lia.
  - rewrite (py_remove_absent p _ Hn). lia.
Qed.

Section SupplyFacts.
Variable db : Db.

Lemma play_search_supply uid r g :
  (3 <= List.length (deck g))%nat ->
  (List.length (deck (play_search db uid r g)) + 3 = List.length (deck g))%nat /\
  alive (play_search db uid r g) = alive g /\
  forall c, in_play c (play_search db uid r g) = in_play c g.
Proof.
  intros Hlen. unfold play_search.
  destruct (search_draws_enough 3 (deck (discard "searchcard" g))
              (used (discard "searchcard" g)) [] r Hlen)
    as (dk' & new & r' & Es & Hl & Hc).
  rewrite Es. cbv beta iota. change ([] ++ new) with new.
  split; [|split].
  - simpl. simpl in Hl. lia.
  - reflexivity.
  - intros c.
    change (in_play c (add_log ?m ?x)) with (in_play c x).
    rewrite in_play_give. unfold in_play. simpl.
    specialize (Hc c). simpl in Hc. lia.
Qed.

Lemma play_take_supply uid target r g :
  deck (play_take db uid target r g) = deck g /\
  alive (play_take db uid target r g) = alive g /\
  forall c, in_play c (play_take db uid target r g) = in_play c g.
Proof.
  unfold play_take.
  destruct (String.eqb target ""); [repeat split|].
  destruct (get_userid_by_username db target) as [t|]; [|repeat split].
  destruct (negb (Z.eqb t 0) && py_in t (alive (discard "takecard" g))
            && negb (Z.eqb t uid)); [|repeat split].
  destruct (hand_of (discard "takecard" g) t) as [|x th] eqn:Eh; [repeat split|].
  split; [reflexivity|]. split; [reflexivity|].
  intros c.
  change (in_play c (add_log ?m ?x)) with (in_play c x).
  rewrite in_play_give.
  pose proof (in_play_set_hand c t (py_remove (fst (choice x (x :: th) r)) (x :: th))
                (discard "takecard" g)) as Hs.
  rewrite Eh in Hs.
  change (in_play c (discard "takecard" g)) with (in_play c g) in Hs.
  set (taken := fst (choice x (x :: th) r)) in *.
  assert (Hin : In taken (x :: th)) by apply choice_In.
  assert (Hc : (count c (py_remove taken (x :: th)) + count c [taken]
                = count c (x :: th))%nat).
  { rewrite count_single. destruct (String.eqb_spec taken c) as [->|Hne].
    - pose proof (count_py_remove_same c _ Hin). lia.
    - rewrite count_py_remove_other by congruence. lia. }
  lia.
Qed.

Lemma play_exchange_supply uid target g :
  deck (play_exchange db uid target g) = deck g /\
  alive (play_exchange db uid target g) = alive g /\
  forall c, in_play c (play_exchange db uid target g) = in_play c g.
Proof.
  unfold play_exchange.
  destruct (String.eqb target ""); [repeat split|].
  destruct (get_userid_by_username db target) as [t|]; [|repeat split].
  destruct (negb (Z.eqb t 0) && py_in t (alive (discard "exchangecard" g)));
    [|repeat split].
  destruct (Z.eqb_spec t uid) as [->|Hne]; cbn [negb andb]; [repeat split|].
  split; [reflexivity|]. split; [reflexivity|].
  intros c.
  set (g1 := discard "exchangecard" g).
  pose proof (in_play_set_hand c uid (hand_of g1 t) g1) as H1.
  assert (Ht : hand_of (set_hands (dset uid (hand_of g1 t) (hands g1)) g1) t
               = hand_of g1 t).
  { unfold hand_of, dget_default. simpl. rewrite dget_dset_other by assumption.
    reflexivity. }
  pose proof (in_play_set_hand c t (hand_of g1 uid)
                (set_hands (dset uid (hand_of g1 t) (hands g1)) g1)) as H2.
  rewrite Ht in H2.
  assert (H3 : (in_play c (set_hands (dset t (hand_of g1 uid)
                                         (dset uid (hand_of g1 t) (hands g1))) g1)
                + count c (hand_of g1 t)
                = in_play c (set_hands (dset uid (hand_of g1 t) (hands g1)) g1)
                  + count c (hand_of g1 uid))%nat) by exact H2.
  change (in_play c (add_log ?m ?x)) with (in_play c x).
  change (in_play c g) with (in_play c g1).
  lia.
Qed.

Lemma play_accusate_supply uid target g :
  deck (play_accusate db uid target g) = deck g /\
  (List.length (alive g) <= S (List.length (alive (play_accusate db uid target g))))%nat /\
  forall c, (in_play c (play_accusate db uid target g) <= in_play c g)%nat.
Proof.
  unfold play_accusate.
  destruct (String.eqb target ""); [supply_frame|].
  destruct (get_userid_by_username db target) as [t|]; [|supply_frame].
  destruct (negb (Z.eqb t 0) && py_in t (alive (discard "accusatecard" g)));
    [|supply_frame].
  pose proof (eliminate_alive_length t (discard "accusatecard" g)) as Ht.
  pose proof (eliminate_alive_length uid (discard "accusatecard" g)) as Hu.
  assert (He : forall p c, (in_play c (eliminate p (discard "accusatecard" g))
                            <= in_play c g)%nat)
    by (intros p c; apply (in_play_eliminate c p (discard "accusatecard" g))).
  destruct (killer (discard "accusatecard" g)) as [k|].
  - destruct (Z.eqb k t); (split; [reflexivity|]); (split; [assumption|]);
      intros c; apply He.
  - split; [reflexivity|]. split; [assumption|]. intros c. apply He.
Qed.

Lemma play_kill_supply uid target g :
  deck (play_kill db uid target g) = deck g /\
  (List.length (alive g) <= S (List.length (alive (play_kill db uid target g))))%nat /\
  forall c, c <> "shieldcard"%string ->
            (in_play c (play_kill db uid target g) <= in_play c g)%nat.
Proof.
  unfold play_kill.
  destruct (String.eqb target ""); [supply_frame|].
  destruct (get_userid_by_username db target) as [t|]; [|supply_frame].
  destruct (negb (Z.eqb t 0)
            && py_in t (alive (set_killer (Some uid) (discard "killcard" g)))
            && negb (Z.eqb t uid)); [|supply_frame].
  destruct (dget t (shields_equipped (set_killer (Some uid) (discard "killcard" g))))
    as [[|]|].
  - split; [reflexivity|]. split; [simpl; lia|].
    intros c Hc.
    change (in_play c (add_log ?m ?x)) with (in_play c x).
    rewrite in_play_give.
    assert (E : count c ["shieldcard"%string] = 0%nat).
    { rewrite count_single.
      destruct (String.eqb_spec "shieldcard" c); [congruence | reflexivity]. }
    rewrite E. apply Nat.eq_le_incl. rewrite Nat.add_0_r. reflexivity.
  - split; [reflexivity|].
    split; [apply (eliminate_alive_length t (set_killer (Some uid) (discard "killcard" g)))|].
    intros c _.
    apply (in_play_eliminate c t (set_killer (Some uid) (discard "killcard" g))).
  - split; [reflexivity|].
    split; [apply (eliminate_alive_length t (set_killer (Some uid) (discard "killcard" g)))|].
    intros c _.
    apply (in_play_eliminate c t (set_killer (Some uid) (discard "killcard" g))).
Qed.

Lemma apply_card_supply uid card target r g :
  py_in card (hand_of g uid) = true -> supply_ok g ->
  supply_ok (apply_card db uid card target r g).
Proof.
  intros Hin [Hs Hl].
  pose proof (in_play_remove "searchcard" uid card g Hin) as Rs.
  pose proof (in_play_remove "killcard" uid card g Hin) as Rk.
  pose proof (in_play_remove "accusatecard" uid card g Hin) as Ra.
  unfold apply_card.
  set (g0 := set_hands (dset uid (py_remove card (hand_of g uid)) (hands g)) g) in *.
  assert (Hd0 : deck g0 = deck g) by reflexivity.
  assert (Ha0 : alive g0 = alive g) by reflexivity.
  card_cases card; cbn [String.eqb Ascii.eqb Bool.eqb] in *.
  - constructor.
    + change (3 * in_play "searchcard" g0 + 2 <= List.length (deck g))%nat. lia.
    + change (in_play "killcard" g0 + in_play "accusatecard" g0 + MATCH_SIZE
              <= List.length (alive g) + 2)%nat. lia.
  - destruct (play_search_supply uid r g0) as (Hd & Ha & Hc); [rewrite Hd0; lia|].
    rewrite Hd0 in Hd.
    constructor.
    + rewrite (Hc "searchcard"%string). lia.
    + rewrite (Hc "killcard"%string), (Hc "accusatecard"%string), Ha, Ha0. lia.
  - constructor.
    + change (3 * in_play "searchcard" g0 + 2 <= List.length (deck g))%nat. lia.
    + change (in_play "killcard" g0 + in_play "accusatecard" g0 + MATCH_SIZE
              <= List.length (alive g) + 2)%nat. lia.
  - destruct (play_take_supply uid target r g0) as (Hd & Ha & Hc).
    constructor.
    + rewrite (Hc "searchcard"%string), Hd, Hd0. lia.
    + rewrite (Hc "killcard"%string), (Hc "accusatecard"%string), Ha, Ha0. lia.
  - destruct (play_exchange_supply uid target g0) as (Hd & Ha & Hc).
    constructor.
    + rewrite (Hc "searchcard"%string), Hd, Hd0. lia.
    + rewrite (Hc "killcard"%string), (Hc "accusatecard"%string), Ha, Ha0. lia.
  - constructor.
    + change (3 * in_play "searchcard" g0 + 2 <= List.length (deck g))%nat. lia.
    + change (in_play "killcard" g0 + in_play "accusatecard" g0 + MATCH_SIZE
              <= List.length (alive g) + 2)%nat. lia.
  - destruct (play_accusate_supply uid target g0) as (Hd & Ha & Hc).
    pose proof (Hc "searchcard"%string). pose proof (Hc "killcard"%string).
    pose proof (Hc "accusatecard"%string).
    constructor.
    + rewrite Hd, Hd0. lia.
    + rewrite Ha0 in Ha. lia.
  - destruct (play_kill_supply uid target g0) as (Hd & Ha & Hc).
    pose proof (Hc "searchcard"%string ltac:(discriminate)).
    pose proof (Hc "killcard"%string ltac:(discriminate)).
    pose proof (Hc "accusatecard"%string ltac:(discriminate)).
    constructor.
    + rewrite Hd, Hd0. lia.
    + rewrite Ha0 in Ha. lia.
  - repeat match goal with
           | Hn : card <> _ |- _ => apply String.eqb_neq in Hn; rewrite ?Hn in *
           end.
    constructor.
    + change (3 * in_play "searchcard" g0 + 2 <= List.length (deck g))%nat. lia.
    + change (in_play "killcard" g0 + in_play "accusatecard" g0 + MATCH_SIZE
              <= List.length (alive g) + 2)%nat. lia.
Qed.

Lemma end_checks_supply g : supply_ok g -> supply_ok (end_checks g).
Proof.
  intros [Hs Hl].
  destruct (end_checks_fields g) as (_ & _ & Ha & Hh & Hd & _).
  constructor; unfold in_play in *; rewrite ?Ha, ?Hh, ?Hd; assumption.
Qed.

Lemma play_card_in_supply gid uid form_card target r g :
  supply_ok g -> supply_ok (snd (play_card_in db gid uid form_card target r g)).
Proof.
  intros Hok.
  destruct (play_card_in_cases db gid uid form_card target r g)
    as [-> | (card & _ & Hacc & ->)]; [assumption|].
  apply end_checks_supply, apply_card_supply; [apply Hacc | assumption].
Qed.
End SupplyFacts.

Lemma create_game_supply new_id now r ps w g w' :
  NoDup ps -> List.length ps = MATCH_SIZE ->
  create_game_for_players new_id now r ps w = Some (g, w') -> supply_ok g.
Proof.
  intros Hnd Hlen. unfold create_game_for_players.
  destruct (make_new_deck r) as [dk0 r'] eqn:Ed.
  assert (Hd : List.length dk0 = 32%nat).
  { pose proof (make_new_deck_length r) as H. rewrite Ed in H. exact H. }
  assert (Hc : forall c, count c dk0 = count c unshuffled_deck).
  { intros c. pose proof (count_make_new_deck c r) as H. rewrite Ed in H. exact H. }
  destruct (deal ps [] dk0) as [[hs dk]|] eqn:E; [|discriminate].
  intros Eg. injection Eg as <- <-.
  assert (Hdeal : forall c, (count c dk + hands_count c hs = count c unshuffled_deck)%nat /\
                            (List.length dk + 3 * List.length ps = 32)%nat).
  { intros c. destruct (deal_count c ps [] dk0 hs dk Hnd (fun _ _ => eq_refl) E)
      as [H1 H2].
    rewrite Hc in H1. rewrite Hd in H2.
    change (hands_count c []) with 0%nat in H1. split; lia. }
  destruct (Hdeal "searchcard"%string) as [Hs Hl].
  destruct (Hdeal "killcard"%string) as [Hk _].
  destruct (Hdeal "accusatecard"%string) as [Ha _].
  rewrite Hlen in Hl. unfold MATCH_SIZE in *.
  change (count "searchcard" unshuffled_deck) with 5%nat in Hs.
  change (count "killcard" unshuffled_deck) with 1%nat in Hk.
  change (count "accusatecard" unshuffled_deck) with 1%nat in Ha.
  constructor; unfold in_play, MATCH_SIZE; cbn [deck hands alive]; lia.
Qed.

(** Every session of a reachable state keeps the supply invariant. *)
Lemma reachable_supply w :
  reachable w ->
  forall gid g, dget gid (games w) = Some g -> supply_ok g.
Proof.
  intros Hr. induction Hr as [|w w' Hr IH Hs].
  - intros gid g. discriminate.
  - pose proof (reachable_ok w Hr) as Hok.
    destruct Hs as [db sess new_id now r w Hwf | db sess w Hwf
                   | db sess gid0 form_card target r w Hwf].
    + destruct (current_user db sess) as [user|] eqn:Hu;
        [|unfold join_queue; rewrite Hu; exact IH].
      destruct (join_queue_spec db sess new_id now r w user (ok_queue_short w Hok) Hu)
        as (H1 & H2 & H3).
      destruct (in_dec Z.eq_dec (user_id user) (matchmaking_queue w)) as [Hin|Hin].
      * rewrite (H1 Hin). exact IH.
      * destruct (Nat.eq_dec (S (List.length (matchmaking_queue w))) MATCH_SIZE)
          as [He|Hne].
        -- destruct (H3 Hin He) as (g0 & w0 & Ec & ->). cbn [snd].
           assert (Hsup : supply_ok g0).
           { apply (create_game_supply _ _ _ _ _ _ _) with (3 := Ec).
             - apply NoDup_app; [apply (ok_queue_nodup w Hok)
                                | repeat constructor; simpl; tauto |].
               intros x Hx [<-|[]]. contradiction.
             - rewrite length_app. simpl. lia. }
           apply create_game_fields in Ec.
           destruct Ec as (_ & _ & _ & _ & _ & _ & _ & _ & _ & Eg & _).
           simpl in Eg. rewrite Eg.
           intros gid g. rewrite dget_dset.
           destruct (py_eqb gid new_id); [intros E; injection E as <-; exact Hsup|].
           apply IH.
        -- pose proof (ok_queue_short w Hok).
           rewrite (H2 Hin) by lia. exact IH.
    + unfold leave_queue. destruct (current_user db sess); exact IH.
    + unfold play_card.
      destruct (current_user db sess) as [user|]; [|exact IH].
      destruct (dget gid0 (games w)) as [g0|] eqn:Eg; [|exact IH].
      pose proof (play_card_in_supply db gid0 (user_id user) form_card target r g0
                    (IH gid0 g0 Eg)) as Hsup.
      destruct (play_card_in db gid0 (user_id user) form_card target r g0) as [resp g'].
      cbn [snd games] in *.
      intros gid g. rewrite dget_dset.
      destruct (py_eqb gid gid0); [intros E; injection E as <-; exact Hsup|].
      apply IH.
Qed.

(** At most two players are ever eliminated from a session. *)
Lemma reachable_alive w gid g :
  reachable w -> dget gid (games w) = Some g ->
  (3 <= List.length (alive g))%nat.
Proof.
  intros Hr Hg.
  pose proof (sup_lethal g (reachable_supply w Hr gid g Hg)) as Hl.
  unfold MATCH_SIZE in Hl. lia.
Qed.

(** ** The sample sessions satisfy the invariant *)

Lemma demo_world_ok : game_ok (the_game demo_world).
Proof.
  apply (ok_games demo_world
           (reachable_ok demo_world (demo_joined_reachable _))
           "g1"%string).
  vm_compute. reflexivity.
Qed.

Lemma last_card_world_ok : game_ok (the_game last_card_world).
Proof.
  apply (ok_games last_card_world
           (reachable_ok last_card_world (demo_played_reachable _ _))
           "g1"%string).
  vm_compute. reflexivity.
Qed.

(** * The claims *)

(** ** C1: the number of cards in deck, hands and used pile *)

(** C1, as stated, fails: in a session reached by five joins, ann equips the
    [shieldcard] she was dealt; the 32 cards counted after the deal are 31
    after her call. *)
Lemma C1_shield_play_drops_a_card :
  reachable shield_played_world /\
  dget "g1"%string (games shield_played_world) = Some (the_game shield_played_world) /\
  card_total (the_game shield_world) = 32%nat /\
  card_total (the_game shield_played_world) = 31%nat.
Proof.
  split.
  - apply demo_played_reachable.
  - vm_compute. repeat split; reflexivity.
Qed.

(** C1, amended: a session is created with 32 cards in deck, hands and used
    pile; in every reachable session this number plus the number of equipped
    shield flags is at most 32; a call that passes the guards leaves the
    number of cards unchanged for every card, eliminations included, except
    that playing SHIELD lowers it by one and a KILL that breaks a shield
    raises it by one; a rejected call changes nothing. *)
Theorem card_count_of_sessions db w gid g :
  reachable w -> dget gid (games w) = Some g ->
  (card_total g + List.length (shields_equipped g) <= 32)%nat /\
  (forall uid card target r, accepted g uid card ->
     (card_total (snd (play_card_in db gid uid (Some card) target r g))
      + (if String.eqb card "shieldcard" then 1 else 0)
      = card_total g + (if shield_break db g uid card target then 1 else 0))%nat) /\
  (forall uid form_card target r,
     (forall card, form_card = Some card -> ~ accepted g uid card) ->
     snd (play_card_in db gid uid form_card target r g) = g) /\
  (forall new_id now r ps w0 g0 w1,
     NoDup ps -> (forall p, In p ps -> 0 < p) ->
     create_game_for_players new_id now r ps w0 = Some (g0, w1) ->
     card_total g0 = 32%nat).
Proof.
  intros Hr Hg.
  pose proof (ok_games w (reachable_ok w Hr) gid g Hg) as Hok.
  repeat apply conj.
  - apply (ok_cards g Hok).
  - intros uid card target r Hacc.
    rewrite (play_card_in_accepted db gid uid card target r g Hacc). cbn [snd].
    rewrite end_checks_total. apply apply_card_total. apply Hacc.
  - intros uid form_card target r Hrej.
    destruct (play_card_in_cases db gid uid form_card target r g)
      as [E | (card & Ec & Hacc & _)]; [exact E|].
    exfalso. exact (Hrej card Ec Hacc).
  - intros new_id now r ps w0 g0 w1 Hnd Hpos Ec.
    exact (proj2 (create_game_ok _ _ _ _ _ _ _ Hnd Hpos Ec)).
Qed.

Lemma card_count_of_sessions_witness :
  reachable demo_world /\
  dget "g1"%string (games demo_world) = Some (the_game demo_world) /\
  (card_total (the_game demo_world)
   + List.length (shields_equipped (the_game demo_world)) <= 32)%nat.
Proof.
  assert (H2 : reachable demo_world)
    by apply demo_joined_reachable.
  assert (H3 : dget "g1"%string (games demo_world) = Some (the_game demo_world))
    by (vm_compute; reflexivity).
  split; [exact H2|]. split; [exact H3|].
  exact (proj1 (card_count_of_sessions demo_db demo_world "g1" (the_game demo_world)
                  H2 H3)).
Defined.

(** ** C2: calls on a finished session *)

Section ResultBlind.
Variable db : Db.

Lemma same_but_result_refl g : same_but_result g g.
Proof. exists (finished g), (winner g). destruct g; reflexivity. Qed.

Lemma play_search_blind uid r f w g :
  play_search db uid r (set_result f w g) = set_result f w (play_search db uid r g).
Proof.
  unfold play_search.
  change (search_draws 3 (deck (discard "searchcard" (set_result f w g)))
            (used (discard "searchcard" (set_result f w g))) [] r)
    with (search_draws 3 (deck (discard "searchcard" g))
            (used (discard "searchcard" g)) [] r).
  destruct (search_draws 3 (deck (discard "searchcard" g))
              (used (discard "searchcard" g)) [] r) as [[[dk us] draws] r'].
  reflexivity.
Qed.

Lemma play_take_blind uid target r f w g :
  play_take db uid target r (set_result f w g)
  = set_result f w (play_take db uid target r g).
Proof.
  unfold play_take.
  destruct (String.eqb target ""); [reflexivity|].
  destruct (get_userid_by_username db target) as [t|]; [|reflexivity].
  change (alive (discard "takecard" (set_result f w g)))
    with (alive (discard "takecard" g)).
  destruct (negb (Z.eqb t 0) && py_in t (alive (discard "takecard" g))
            && negb (Z.eqb t uid)); [|reflexivity].
  change (hand_of (discard "takecard" (set_result f w g)) t)
    with (hand_of (discard "takecard" g) t).
  destruct (hand_of (discard "takecard" g) t); reflexivity.
Qed.

Lemma play_exchange_blind uid target f w g :
  play_exchange db uid target (set_result f w g)
  = set_result f w (play_exchange db uid target g).
Proof.
  unfold play_exchange.
  destruct (String.eqb target ""); [reflexivity|].
  destruct (get_userid_by_username db target) as [t|]; [|reflexivity].
  change (alive (discard "exchangecard" (set_result f w g)))
    with (alive (discard "exchangecard" g)).
  destruct (negb (Z.eqb t 0) && py_in t (alive (discard "exchangecard" g))
            && negb (Z.eqb t uid)); reflexivity.
Qed.

Lemma play_accusate_blind uid target f w g :
  same_but_result (play_accusate db uid target (set_result f w g))
                  (play_accusate db uid target g).
Proof.
  unfold play_accusate.
  destruct (String.eqb target ""); [exists f, w; reflexivity|].
  destruct (get_userid_by_username db target) as [t|]; [|exists f, w; reflexivity].
  change (alive (discard "accusatecard" (set_result f w g)))
    with (alive (discard "accusatecard" g)).
  destruct (negb (Z.eqb t 0) && py_in t (alive (discard "accusatecard" g)));
    [|exists f, w; reflexivity].
  change (killer (discard "accusatecard" (set_result f w g)))
    with (killer (discard "accusatecard" g)).
  destruct (killer (discard "accusatecard" g)) as [k|]; [|exists f, w; reflexivity].
  destruct (Z.eqb k t); [|exists f, w; reflexivity].
  exists true, (Some "faithfuls"%string). reflexivity.
Qed.

Lemma play_kill_blind uid target f w g :
  play_kill db uid target (set_result f w g)
  = set_result f w (play_kill db uid target g).
Proof.
  unfold play_kill.
  destruct (String.eqb target ""); [reflexivity|].
  destruct (get_userid_by_username db target) as [t|]; [|reflexivity].
  change (alive (set_killer (Some uid) (discard "killcard" (set_result f w g))))
    with (alive (set_killer (Some uid) (discard "killcard" g))).
  destruct (negb (Z.eqb t 0)
            && py_in t (alive (set_killer (Some uid) (discard "killcard" g)))
            && negb (Z.eqb t uid)); [|reflexivity].
  change (shields_equipped (set_killer (Some uid) (discard "killcard" (set_result f w g))))
    with (shields_equipped (set_killer (Some uid) (discard "killcard" g))).
  destruct (dget t (shields_equipped (set_killer (Some uid) (discard "killcard" g))))
    as [[|]|]; reflexivity.
Qed.

Lemma apply_card_blind uid card target r f w g :
  same_but_result (apply_card db uid card target r (set_result f w g))
                  (apply_card db uid card target r g).
Proof.
  unfold apply_card.
  change (set_hands (dset uid (py_remove card (hand_of (set_result f w g) uid))
                          (hands (set_result f w g))) (set_result f w g))
    with (set_result f w
            (set_hands (dset uid (py_remove card (hand_of g uid)) (hands g)) g)).
  set (g0 := set_hands (dset uid (py_remove card (hand_of g uid)) (hands g)) g).
  destruct (String.eqb card "statecard"); [exists f, w; reflexivity|].
  destruct (String.eqb card "searchcard");
    [exists f, w; apply play_search_blind|].
  destruct (String.eqb card "shieldcard"); [exists f, w; reflexivity|].
  destruct (String.eqb card "takecard"); [exists f, w; apply play_take_blind|].
  destruct (String.eqb card "exchangecard");
    [exists f, w; apply play_exchange_blind|].
  destruct (String.eqb card "judgecard"); [exists f, w; reflexivity|].
  destruct (String.eqb card "accusatecard"); [apply play_accusate_blind|].
  destruct (String.eqb card "killcard"); [exists f, w; apply play_kill_blind|].
  exists f, w. reflexivity.
Qed.

Lemma end_checks_blind g1 g2 :
  same_but_result g1 g2 -> same_but_result (end_checks g1) (end_checks g2).
Proof.
  intros (f & w & ->). unfold end_checks.
  change (killer (set_result f w g2)) with (killer g2).
  change (alive (set_result f w g2)) with (alive g2).
  change (all_hands_empty (set_result f w g2)) with (all_hands_empty g2).
  destruct (truthy_id (killer g2) && winner_by_killer (alive g2) (killer g2)).
  - exists true, (Some "killer"%string). reflexivity.
  - destruct (killer g2).
    + exists f, w. reflexivity.
    + destruct (all_hands_empty g2).
      * exists true, (Some "faithfuls"%string). reflexivity.
      * exists f, w. reflexivity.
Qed.

Lemma play_search_log uid r g :
  log (play_search db uid r g)
  = log g ++ [String.append (name_of db uid)
                (String.append " searched and drew "
                   (String.append
                      (str_of_nat
                         (List.length
                            (snd (fst (search_draws 3 (deck g)
                                         (used g ++ ["searchcard"%string]) [] r)))))
                      " card(s)."))].
Proof.
  unfold play_search.
  change (search_draws 3 (deck (discard "searchcard" g))
            (used (discard "searchcard" g)) [] r)
    with (search_draws 3 (deck g) (used g ++ ["searchcard"%string]) [] r).
  destruct (search_draws 3 (deck g) (used g ++ ["searchcard"%string]) [] r)
    as [[[dk us] draws] r'].
  reflexivity.
Qed.

(** Every card appends exactly one entry to the log. *)
Lemma apply_card_log uid card target r g :
  exists msg, log (apply_card db uid card target r g) = log g ++ [msg].
Proof.
  unfold apply_card.
  set (g0 := set_hands (dset uid (py_remove card (hand_of g uid)) (hands g)) g).
  change (log g) with (log g0).
  destruct (String.eqb card "statecard"); [eexists; reflexivity|].
  destruct (String.eqb card "searchcard");
    [eexists; apply play_search_log|].
  destruct (String.eqb card "shieldcard"); [eexists; reflexivity|].
  destruct (String.eqb card "takecard").
  { unfold play_take.
    destruct (String.eqb target ""); [eexists; reflexivity|].
    destruct (get_userid_by_username db target) as [t|]; [|eexists; reflexivity].
    destruct (negb (Z.eqb t 0) && py_in t (alive (discard "takecard" g0))
              && negb (Z.eqb t uid)); [|eexists; reflexivity].
    destruct (hand_of (discard "takecard" g0) t); eexists; reflexivity. }
  destruct (String.eqb card "exchangecard").
  { unfold play_exchange.
    destruct (String.eqb target ""); [eexists; reflexivity|].
    destruct (get_userid_by_username db target) as [t|]; [|eexists; reflexivity].
    destruct (negb (Z.eqb t 0) && py_in t (alive (discard "exchangecard" g0))
              && negb (Z.eqb t uid)); eexists; reflexivity. }
  destruct (String.eqb card "judgecard"); [eexists; reflexivity|].
  destruct (String.eqb card "accusatecard").
  { unfold play_accusate.
    destruct (String.eqb target ""); [eexists; reflexivity|].
    destruct (get_userid_by_username db target) as [t|]; [|eexists; reflexivity].
    destruct (negb (Z.eqb t 0) && py_in t (alive (discard "accusatecard" g0)));
      [|eexists; reflexivity].
    destruct (killer (discard "accusatecard" g0)) as [k|]; [|eexists; reflexivity].
    destruct (Z.eqb k t); eexists; reflexivity. }
  destruct (String.eqb card "killcard").
  { unfold play_kill.
    destruct (String.eqb target ""); [eexists; reflexivity|].
    destruct (get_userid_by_username db target) as [t|]; [|eexists; reflexivity].
    destruct (negb (Z.eqb t 0)
              && py_in t (alive (set_killer (Some uid) (discard "killcard" g0)))
              && negb (Z.eqb t uid)); [|eexists; reflexivity].
    destruct (dget t (shields_equipped (set_killer (Some uid) (discard "killcard" g0))))
      as [[|]|]; eexists; reflexivity. }
  eexists; reflexivity.
Qed.
End ResultBlind.

(** C2, as stated, fails: bob's correct accusation finishes the session
    (winner faithfuls); cat, still alive, then plays a [judgecard] and the
    call is carried out: her hand, the used pile and the log change. *)
Lemma C2_play_after_finish_is_carried_out :
  reachable finished_world /\
  dget "g1"%string (games finished_world) = Some (the_game finished_world) /\
  finished (the_game finished_world) = true /\
  let out := play_card_in demo_db "g1" 3 (Some "judgecard"%string) "" []
               (the_game finished_world) in
  fst out = redirect_game_room "g1" None /\
  hand_of (the_game finished_world) 3
  = ["judgecard"; "exchangecard"; "exchangecard"]%string /\
  hand_of (snd out) 3 = ["exchangecard"; "exchangecard"]%string /\
  used (snd out) = used (the_game finished_world) ++ ["judgecard"%string] /\
  List.length (log (snd out)) = S (List.length (log (the_game finished_world))).
Proof.
  split.
  - apply demo_played_reachable.
  - vm_compute. repeat split; reflexivity.
Qed.

(** C2, amended: [play_card] never reads the [finished] flag.  The response
    and the resulting state of a call are the same whatever the session's
    [finished] and [winner] fields are (those two fields apart).  A call is
    rejected, with the session unchanged, exactly when the actor is not a
    participant, is not alive or does not hold the named card; a call that
    passes these guards is carried out and appends one log entry. *)
Theorem finished_flag_not_consulted db gid uid form_card target r g f w :
  fst (play_card_in db gid uid form_card target r (set_result f w g))
  = fst (play_card_in db gid uid form_card target r g) /\
  same_but_result (snd (play_card_in db gid uid form_card target r (set_result f w g)))
                  (snd (play_card_in db gid uid form_card target r g)) /\
  (forall card, form_card = Some card -> accepted g uid card ->
     fst (play_card_in db gid uid form_card target r g) = redirect_game_room gid None /\
     List.length (log (snd (play_card_in db gid uid form_card target r g)))
     = S (List.length (log g))) /\
  ((forall card, form_card = Some card -> ~ accepted g uid card) ->
   play_card_in db gid uid form_card target r g
   = (fst (play_card_in db gid uid form_card target r g), g) /\
   fst (play_card_in db gid uid form_card target r g) <> redirect_game_room gid None).
Proof.
  repeat apply conj.
  - unfold play_card_in.
    change (players (set_result f w g)) with (players g).
    change (alive (set_result f w g)) with (alive g).
    change (hand_of (set_result f w g) uid) with (hand_of g uid).
    destruct (negb (py_in uid (players g))); [reflexivity|].
    destruct (negb (py_in uid (alive g))); [reflexivity|].
    destruct form_card as [card|]; [|reflexivity].
    destruct (String.eqb card "" || negb (py_in card (hand_of g uid))); reflexivity.
  - unfold play_card_in.
    change (players (set_result f w g)) with (players g).
    change (alive (set_result f w g)) with (alive g).
    change (hand_of (set_result f w g) uid) with (hand_of g uid).
    destruct (negb (py_in uid (players g))); [exists f, w; reflexivity|].
    destruct (negb (py_in uid (alive g))); [exists f, w; reflexivity|].
    destruct form_card as [card|]; [|exists f, w; reflexivity].
    destruct (String.eqb card "" || negb (py_in card (hand_of g uid)));
      [exists f, w; reflexivity|].
    cbn [snd]. apply end_checks_blind, apply_card_blind.
  - intros card -> Hacc.
    rewrite (play_card_in_accepted db gid uid card target r g Hacc). cbn [fst snd].
    split; [reflexivity|].
    destruct (end_checks_fields (apply_card db uid card target r g))
      as (_ & _ & _ & _ & _ & _ & _ & ->).
    destruct (apply_card_log db uid card target r g) as (msg & ->).
    rewrite length_app. simpl. lia.
  - intros Hrej. unfold play_card_in.
    destruct (py_in uid (players g)) eqn:Hp; cbn [negb];
      [|split; [reflexivity | discriminate]].
    destruct (py_in uid (alive g)) eqn:Ha; cbn [negb];
      [|split; [reflexivity | discriminate]].
    destruct form_card as [card|]; [|split; [reflexivity | discriminate]].
    destruct (String.eqb_spec card "") as [->|Hc]; cbn [orb];
      [split; [reflexivity | discriminate]|].
    destruct (py_in card (hand_of g uid)) eqn:Hh; cbn [negb];
      [|split; [reflexivity | discriminate]].
    exfalso. apply (Hrej card eq_refl). repeat split; assumption.
Qed.

(** ** C3: ACCUSATION *)

(** The end checks, read on a state with distinct alive players and a
    non-zero killer id. *)
Lemma end_checks_spec g :
  NoDup (alive g) -> (forall k, killer g = Some k -> k <> 0) ->
  (sole_killer g /\ finished (end_checks g) = true /\
   winner (end_checks g) = Some "killer"%string) \/
  (~ sole_killer g /\ killer g = None /\ all_hands_empty g = true /\
   finished (end_checks g) = true /\ winner (end_checks g) = Some "faithfuls"%string) \/
  (~ sole_killer g /\ ~ (killer g = None /\ all_hands_empty g = true) /\
   finished (end_checks g) = finished g /\ winner (end_checks g) = winner g).
Proof.
  intros Hnd Hkid.
  assert (Hsole : truthy_id (killer g) && winner_by_killer (alive g) (killer g) = true
                  <-> sole_killer g).
  { unfold sole_killer. split.
    - intros Hb. apply andb_true_iff in Hb. destruct Hb as [_ Hb].
      destruct (killer g) as [k|]; [|discriminate].
      exists k. split; [reflexivity|]. apply winner_by_killer_sole; assumption.
    - intros (k & Hk & Hal). rewrite Hk, Hal.
      apply sole_killer_wins. apply Hkid. exact Hk. }
  destruct (end_checks_result g)
    as [(Hb & Hf & Hw) | [(Hb & Hk & Ha & Hf & Hw) | (Hb & Hc & Hf & Hw)]].
  - left. repeat split; try assumption. apply Hsole. exact Hb.
  - right. left. repeat split; try assumption.
    intros Hs. apply Hsole in Hs. congruence.
  - right. right. repeat split; try assumption.
    + intros Hs. apply Hsole in Hs. congruence.
    + intros [Hk Ha]. destruct Hc; congruence.
Qed.

Lemma all_hands_empty_end_checks g :
  all_hands_empty (end_checks g) = all_hands_empty g.
Proof.
  destruct (end_checks_fields g) as (_ & Hp & _ & Hh & _).
  unfold all_hands_empty. rewrite Hp, Hh. reflexivity.
Qed.

Section AccusationFacts.
Variable db : Db.

Lemma names_positive target t : db_wf db -> names db target t -> t <> 0.
Proof.
  intros Hwf [_ Ht]. apply (get_userid_positive db target t Hwf) in Ht. lia.
Qed.

Lemma play_accusate_right uid target t g :
  names db target t -> t <> 0 -> In t (alive g) -> killer g = Some t ->
  play_accusate db uid target g
  = set_result true (Some "faithfuls"%string)
      (set_killer None
         (add_log (String.append (name_of db uid)
                     (String.append " used ACCUSATION and was correct! "
                        (String.append target " eliminated.")))
                  (eliminate t (discard "accusatecard" g)))).
Proof.
  intros [Hne Ht] H0 Hin Hk. unfold play_accusate.
  apply String.eqb_neq in Hne. rewrite Hne, Ht.
  apply Z.eqb_neq in H0. apply py_in_In in Hin.
  change (alive (discard "accusatecard" g)) with (alive g).
  change (killer (discard "accusatecard" g)) with (killer g).
  rewrite H0, Hin, Hk, Z.eqb_refl. reflexivity.
Qed.

Lemma play_accusate_wrong uid target t g :
  names db target t -> t <> 0 -> In t (alive g) -> killer g <> Some t ->
  play_accusate db uid target g
  = add_log (String.append (name_of db uid)
               (String.append " used ACCUSATION and was wrong → "
                  (String.append (name_of db uid) " eliminated.")))
            (eliminate uid (discard "accusatecard" g)).
Proof.
  intros [Hne Ht] H0 Hin Hk. unfold play_accusate.
  apply String.eqb_neq in Hne. rewrite Hne, Ht.
  apply Z.eqb_neq in H0. apply py_in_In in Hin.
  change (alive (discard "accusatecard" g)) with (alive g).
  change (killer (discard "accusatecard" g)) with (killer g).
  rewrite H0, Hin. cbn [negb andb].
  destruct (killer g) as [k|]; [|reflexivity].
  destruct (Z.eqb_spec k t) as [->|_]; [congruence | reflexivity].
Qed.
End AccusationFacts.

(** C3, as stated, fails in its last part: no [killcard] was dealt, all
    other hands are empty, and ann, holding only the [accusatecard], accuses
    bob.  She is eliminated; bob, cat, dan and eve remain alive, yet the end
    checks declare the session finished (winner faithfuls). *)
Lemma C3_wrong_accusation_can_finish_the_game :
  reachable last_card_world /\
  dget "g1"%string (games last_card_world) = Some (the_game last_card_world) /\
  killer (the_game last_card_world) = None /\
  finished (the_game last_card_world) = false /\
  let g' := snd (play_card_in demo_db "g1" 1 (Some "accusatecard"%string) "bob" []
                   (the_game last_card_world)) in
  alive g' = [2; 3; 4; 5] /\ killer g' = None /\
  finished g' = true /\ winner g' = Some "faithfuls"%string.
Proof.
  split.
  - apply demo_played_reachable.
  - vm_compute. repeat split; reflexivity.
Qed.

(** C3, amended: an ACCUSATION by an alive holder against an alive target.
    If the target is the killer: the target leaves the alive list, the
    target's hand goes to the used pile and is emptied, the killer becomes
    none, the session is finished and the winner is faithfuls.  Otherwise
    the accuser leaves the alive list, the accuser's hand goes to the used
    pile, the killer is unchanged, and [finished] and [winner] are left as
    they were unless an end check fires: the killer is then the only player
    alive (winner killer), or there is no killer and every hand is empty
    (winner faithfuls). *)
Theorem accusation_resolution db gid uid target t r g :
  db_wf db -> game_ok g -> accepted g uid "accusatecard" ->
  names db target t -> In t (alive g) ->
  let g' := snd (play_card_in db gid uid (Some "accusatecard"%string) target r g) in
  let rest := py_remove "accusatecard"%string (hand_of g uid) in
  (killer g = Some t ->
   alive g' = py_remove t (alive g) /\ ~ In t (alive g') /\
   hand_of g' t = [] /\
   used g' = used g ++ "accusatecard"%string
                       :: (if Z.eqb t uid then rest else hand_of g t) /\
   killer g' = None /\ finished g' = true /\ winner g' = Some "faithfuls"%string) /\
  (killer g <> Some t ->
   alive g' = py_remove uid (alive g) /\ ~ In uid (alive g') /\
   hand_of g' uid = [] /\
   used g' = used g ++ "accusatecard"%string :: rest /\
   killer g' = killer g /\
   (sole_killer g' -> finished g' = true /\ winner g' = Some "killer"%string) /\
   (killer g' = None -> all_hands_empty g' = true ->
    finished g' = true /\ winner g' = Some "faithfuls"%string) /\
   (~ sole_killer g' -> ~ (killer g' = None /\ all_hands_empty g' = true) ->
    finished g' = finished g /\ winner g' = winner g)).
Proof.
  intros Hwf Hok Hacc Hn Hin g' rest.
  pose proof (names_positive db target t Hwf Hn) as Ht0.
  assert (Eg : g' = end_checks
                      (play_accusate db uid target
                         (set_hands (dset uid rest (hands g)) g))).
  { unfold g'. rewrite (play_card_in_accepted db gid uid _ target r g Hacc).
    reflexivity. }
  set (g0 := set_hands (dset uid rest (hands g)) g) in *.
  assert (Hh0 : forall p, hand_of g0 p = if Z.eqb p uid then rest else hand_of g p).
  { intros p. unfold hand_of, dget_default, g0. simpl. rewrite dget_dset.
    change (py_eqb p uid) with (Z.eqb p uid).
    destruct (Z.eqb p uid); reflexivity. }
  pose proof (ok_alive_nodup g Hok) as Hnd.
  split; intros Hk.
  - rewrite (play_accusate_right db uid target t g0 Hn Ht0 Hin Hk) in Eg.
    set (g1 := set_result _ _ _) in Eg.
    destruct (end_checks_fields g1) as (_ & _ & Hal & Hh & _ & Hu & Hkk & _).
    rewrite Eg.
    assert (Hres : finished (end_checks g1) = true /\
                   winner (end_checks g1) = Some "faithfuls"%string).
    { destruct (end_checks_result g1)
        as [(Hb & _) | [(_ & _ & _ & Hf & Hw) | (_ & _ & Hf & Hw)]].
      - discriminate Hb.
      - split; assumption.
      - rewrite Hf, Hw. split; reflexivity. }
    assert (Hh' : forall p, hand_of (end_checks g1) p = hand_of g1 p)
      by (intros p; unfold hand_of; rewrite Hh; reflexivity).
    rewrite Hal, Hh', Hu, Hkk.
    repeat apply conj; try apply Hres; try reflexivity.
    + simpl. apply py_remove_gone. exact Hnd.
    + unfold hand_of, dget_default. simpl. rewrite dget_dset_same. reflexivity.
    + change (used g1) with ((used g ++ ["accusatecard"%string]) ++ hand_of g0 t).
      rewrite Hh0, <- app_assoc. reflexivity.
  - rewrite (play_accusate_wrong db uid target t g0 Hn Ht0 Hin Hk) in Eg.
    set (g1 := add_log _ _) in Eg.
    destruct (end_checks_fields g1) as (_ & _ & Hal & Hh & _ & Hu & Hkk & _).
    assert (Hnd1 : NoDup (alive g1)) by (simpl; apply py_remove_NoDup; exact Hnd).
    assert (Hkid1 : forall k, killer g1 = Some k -> k <> 0)
      by (simpl; apply (ok_killer_id g Hok)).
    pose proof (end_checks_spec g1 Hnd1 Hkid1) as Hspec.
    pose proof (all_hands_empty_end_checks g1) as Hall.
    assert (Hh' : forall p, hand_of (end_checks g1) p = hand_of g1 p)
      by (intros p; unfold hand_of; rewrite Hh; reflexivity).
    rewrite Eg. unfold sole_killer. rewrite Hall, Hal, Hh', Hu, Hkk.
    fold (sole_killer g1).
    repeat apply conj; try reflexivity.
    + simpl. apply py_remove_gone. exact Hnd.
    + unfold hand_of, dget_default. simpl. rewrite dget_dset_same. reflexivity.
    + change (used g1) with ((used g ++ ["accusatecard"%string]) ++ hand_of g0 uid).
      rewrite Hh0, Z.eqb_refl, <- app_assoc. reflexivity.
    + intros Hs. destruct Hspec as [(_ & Hf & Hw) | [(Hns & _) | (Hns & _)]];
        [split; assumption | contradiction | contradiction].
    + intros Hkn Ha.
      destruct Hspec as [((k & Hk1 & _) & _) | [(_ & _ & _ & Hf & Hw) | (_ & Hc & _)]].
      * congruence.
      * split; assumption.
      * exfalso. apply Hc. split; assumption.
    + intros Hns Hnf.
      destruct Hspec as [(Hs & _) | [(_ & Hk1 & Ha & _) | (_ & _ & Hf & Hw)]].
      * contradiction.
      * exfalso. apply Hnf. split; assumption.
      * split; assumption.
Qed.

Lemma accusation_resolution_witness :
  db_wf demo_db /\ game_ok (the_game last_card_world) /\
  accepted (the_game last_card_world) 1 "accusatecard" /\
  names demo_db "bob" 2 /\ In 2 (alive (the_game last_card_world)) /\
  alive (snd (play_card_in demo_db "g1" 1 (Some "accusatecard"%string) "bob" []
                (the_game last_card_world)))
  = py_remove 1 (alive (the_game last_card_world)).
Proof.
  assert (H1 : db_wf demo_db) by exact demo_db_wf.
  assert (H2 : game_ok (the_game last_card_world)) by exact last_card_world_ok.
  assert (H3 : accepted (the_game last_card_world) 1 "accusatecard")
    by (vm_compute; repeat split; discriminate).
  assert (H4 : names demo_db "bob" 2) by (split; [discriminate | reflexivity]).
  assert (H5 : In 2 (alive (the_game last_card_world)))
    by (vm_compute; right; left; reflexivity).
  assert (H6 : killer (the_game last_card_world) <> Some 2)
    by (vm_compute; discriminate).
  split; [exact H1|]. split; [exact H2|]. split; [exact H3|].
  split; [exact H4|]. split; [exact H5|].
  exact (proj1 (proj2 (accusation_resolution demo_db "g1" 1 "bob" 2 []
                         (the_game last_card_world) H1 H2 H3 H4 H5) H6)).
Defined.

(** ** C4: the killer's victory *)

Lemma duel_game_ok : game_ok duel_game.
Proof.
  constructor.
  - repeat constructor; simpl; intuition discriminate.
  - intros k E. injection E as <-. discriminate.
  - discriminate.
  - constructor.
  - vm_compute. lia.
Qed.

(** The end check for the killer's victory, on any session that satisfies
    the invariant (reachable or not): [X] is the killer the check reads, the
    killer after the card's effect; it is the killer before the call unless
    the card is a KILL played by somebody else, who thereby becomes the
    killer. *)
Lemma killer_victory_transition db gid uid card target r g :
  game_ok g -> uid <> 0 -> accepted g uid card ->
  let g' := snd (play_card_in db gid uid (Some card) target r g) in
  (forall X, killer g' = Some X ->
     (finished g' = true /\ winner g' = Some "killer"%string <-> alive g' = [X])) /\
  (killer g' = None -> winner g' <> Some "killer"%string) /\
  (forall X, killer g = Some X -> card <> "killcard"%string \/ uid = X ->
     (finished g' = true /\ winner g' = Some "killer"%string <-> alive g' = [X])).
Proof.
  intros Hok Hu Hacc g'.
  assert (Eg : g' = end_checks (apply_card db uid card target r g)).
  { unfold g'. rewrite (play_card_in_accepted db gid uid card target r g Hacc).
    reflexivity. }
  pose proof (apply_end_ok db uid card target r g Hu Hacc Hok) as Hok'.
  rewrite <- Eg in Hok'.
  pose proof (apply_card_outcome db uid card target r g) as Hout.
  set (g1 := apply_card db uid card target r g) in *.
  destruct (end_checks_fields g1) as (_ & _ & Hal & _ & _ & _ & Hk & _).
  rewrite <- Eg in Hal, Hk.
  pose proof (ok_alive_nodup g Hok) as Hnd.
  pose proof (outcome_nodup _ _ _ _ Hout Hnd) as Hnd1.
  pose proof (outcome_killer_id _ _ _ _ Hout Hu (ok_killer_id g Hok)) as Hkid1.
  assert (Post : forall X, killer g' = Some X ->
            (finished g' = true /\ winner g' = Some "killer"%string <-> alive g' = [X])).
  { intros X HX. split.
    - intros [_ Hw]. destruct (ok_killer_won g' Hok' Hw) as (_ & k & Hk' & Ha).
      congruence.
    - intros Ha.
      assert (Hs : sole_killer g1).
      { exists X. split; congruence. }
      rewrite Eg.
      destruct (end_checks_spec g1 Hnd1 Hkid1)
        as [(_ & Hf & Hw) | [(Hns & _) | (Hns & _)]];
        [split; assumption | contradiction | contradiction]. }
  assert (Pnone : killer g' = None -> winner g' <> Some "killer"%string).
  { intros Hn Hw. destruct (ok_killer_won g' Hok' Hw) as (_ & k & Hk' & _).
    congruence. }
  split; [exact Post|]. split; [exact Pnone|].
  intros X HX Hside.
  destruct Hout as [_ Hk1 _ _ | Hc _ Hk1 _ _ | t Hc _ _ _ Hk1 _ _
                   | t Ht Hkt Hal1 Hk1 _ _ | t _ _ _ Hk1 _ _].
  - apply Post. congruence.
  - destruct Hside as [Hne | ->]; [contradiction|]. apply Post. congruence.
  - destruct Hside as [Hne | ->]; [contradiction|]. apply Post. congruence.
  - assert (t = X) by congruence. subst t. split.
    + intros [_ Hw]. exfalso. apply Pnone; [congruence | exact Hw].
    + intros Ha. exfalso. apply (py_remove_gone X (alive g) Hnd).
      rewrite <- Hal1, <- Hal, Ha. left. reflexivity.
  - apply Post. congruence.
Qed.

(** C4: in a session with killer [X], a call that passes the guards ends
    with [finished = true] and [winner = "killer"] if and only if, after the
    card's effect, the alive list is exactly [X].  This holds for every
    session reachable through the matchmaking, with [X] the killer before
    the call as well as the killer after the card's effect (there, with one
    KILL and one ACCUSATION in play and a deck that outlasts the SEARCH
    cards, at least three players stay alive, so neither side ever holds);
    and it holds for the transition itself on every session that satisfies
    the invariant, with [X] the killer the end check reads. *)
Theorem killer_wins_iff_sole_alive db w gid g uid card target r :
  reachable w -> dget gid (games w) = Some g ->
  uid <> 0 -> accepted g uid card ->
  let g' := snd (play_card_in db gid uid (Some card) target r g) in
  (forall X, killer g = Some X ->
     (finished g' = true /\ winner g' = Some "killer"%string <-> alive g' = [X])) /\
  (forall X, killer g' = Some X ->
     (finished g' = true /\ winner g' = Some "killer"%string <-> alive g' = [X])) /\
  (forall h uid2 card2 target2 r2,
     game_ok h -> uid2 <> 0 -> accepted h uid2 card2 ->
     let h' := snd (play_card_in db gid uid2 (Some card2) target2 r2 h) in
     (forall X, killer h' = Some X ->
        (finished h' = true /\ winner h' = Some "killer"%string <-> alive h' = [X])) /\
     (killer h' = None -> winner h' <> Some "killer"%string) /\
     (forall X, killer h = Some X -> card2 <> "killcard"%string \/ uid2 = X ->
        (finished h' = true /\ winner h' = Some "killer"%string <-> alive h' = [X]))).
Proof.
  intros Hr Hg Hu Hacc g'.
  pose proof (ok_games w (reachable_ok w Hr) gid g Hg) as Hok.
  pose proof (reachable_supply w Hr gid g Hg) as Hsup.
  pose proof (play_card_in_ok db gid uid (Some card) target r g Hu Hok) as Hok'.
  pose proof (play_card_in_supply db gid uid (Some card) target r g Hsup) as Hsup'.
  fold g' in Hok', Hsup'.
  assert (Hthree : (3 <= List.length (alive g'))%nat).
  { pose proof (sup_lethal g' Hsup') as Hl. unfold MATCH_SIZE in Hl. lia. }
  assert (Hnever : forall X,
            (finished g' = true /\ winner g' = Some "killer"%string <-> alive g' = [X])).
  { intros X. split.
    - intros [_ Hw]. destruct (ok_killer_won g' Hok' Hw) as (_ & k & _ & Ha).
      rewrite Ha in Hthree. simpl in Hthree. lia.
    - intros Ha. rewrite Ha in Hthree. simpl in Hthree. lia. }
  split; [intros X _; apply Hnever|]. split; [intros X _; apply Hnever|].
  intros h uid2 card2 target2 r2 Hh Hu2 Hacc2.
  exact (killer_victory_transition db gid uid2 card2 target2 r2 h Hh Hu2 Hacc2).
Qed.

Lemma killer_wins_iff_sole_alive_witness :
  reachable demo_world /\
  dget "g1"%string (games demo_world) = Some (the_game demo_world) /\
  1 <> 0 /\ accepted (the_game demo_world) 1 "killcard" /\
  (finished (snd (play_card_in demo_db "g1" 1 (Some "killcard"%string) "bob" []
                    duel_game)) = true /\
   winner (snd (play_card_in demo_db "g1" 1 (Some "killcard"%string) "bob" []
                  duel_game)) = Some "killer"%string
   <-> alive (snd (play_card_in demo_db "g1" 1 (Some "killcard"%string) "bob" []
                     duel_game)) = [1]).
Proof.
  assert (H2 : reachable demo_world)
    by apply demo_joined_reachable.
  assert (H3 : dget "g1"%string (games demo_world) = Some (the_game demo_world))
    by (vm_compute; reflexivity).
  assert (H4 : 1 <> 0) by discriminate.
  assert (H5 : accepted (the_game demo_world) 1 "killcard")
    by (vm_compute; repeat split; discriminate).
  assert (H6 : accepted duel_game 1 "killcard")
    by (vm_compute; repeat split; discriminate).
  split; [exact H2|]. split; [exact H3|].
  split; [exact H4|]. split; [exact H5|].
  apply (proj1 (proj2 (proj2
           (killer_wins_iff_sole_alive demo_db demo_world "g1" (the_game demo_world)
              1 "killcard" "bob" [] H2 H3 H4 H5))
           duel_game 1 "killcard"%string "bob"%string [] duel_game_ok H4 H6) 1).
  vm_compute. reflexivity.
Defined.

(** ** C5: KILL *)

Section KillFacts.
Variable db : Db.

Lemma play_kill_killer uid target g : killer (play_kill db uid target g) = Some uid.
Proof.
  destruct (play_kill_outcome db uid target g)
    as [_ Hk _ _ | _ _ Hk _ _ | t _ _ _ _ Hk _ _ | t _ _ _ Hk _ _ | t _ _ _ Hk _ _].
  - unfold play_kill in *.
    destruct (String.eqb target ""); [reflexivity|].
    destruct (get_userid_by_username db target) as [t|]; [|reflexivity].
    destruct (negb (Z.eqb t 0)
              && py_in t (alive (set_killer (Some uid) (discard "killcard" g)))
              && negb (Z.eqb t uid)); [|reflexivity].
    destruct (dget t (shields_equipped (set_killer (Some uid) (discard "killcard" g))))
      as [[|]|]; reflexivity.
  - exact Hk.
  - exact Hk.
  - unfold play_kill in *.
    destruct (String.eqb target ""); [reflexivity|].
    destruct (get_userid_by_username db target) as [t'|]; [|reflexivity].
    destruct (negb (Z.eqb t' 0)
              && py_in t' (alive (set_killer (Some uid) (discard "killcard" g)))
              && negb (Z.eqb t' uid)); [|reflexivity].
    destruct (dget t' (shields_equipped (set_killer (Some uid) (discard "killcard" g))))
      as [[|]|]; reflexivity.
  - unfold play_kill in *.
    destruct (String.eqb target ""); [reflexivity|].
    destruct (get_userid_by_username db target) as [t'|]; [|reflexivity].
    destruct (negb (Z.eqb t' 0)
              && py_in t' (alive (set_killer (Some uid) (discard "killcard" g)))
              && negb (Z.eqb t' uid)); [|reflexivity].
    destruct (dget t' (shields_equipped (set_killer (Some uid) (discard "killcard" g))))
      as [[|]|]; reflexivity.
Qed.

Lemma play_kill_valid uid target t g :
  names db target t -> t <> 0 -> In t (alive g) -> t <> uid ->
  play_kill db uid target g
  = let g1 := set_killer (Some uid) (discard "killcard" g) in
    match dget t (shields_equipped g) with
    | Some true =>
        add_log (String.append (name_of db uid)
                   (String.append " attempted to kill "
                      (String.append target
                         " but shield broke and was taken by killer.")))
          (set_hands (dset uid (hand_of g uid ++ ["shieldcard"%string]) (hands g))
             (set_shields (dpop t (shields_equipped g)) g1))
    | _ =>
        add_log (String.append (name_of db uid)
                   (String.append " used KILL and eliminated "
                      (String.append target ".")))
          (eliminate t g1)
    end.
Proof.
  intros [Hne Ht] H0 Hin Hu. unfold play_kill.
  apply String.eqb_neq in Hne. rewrite Hne, Ht.
  apply Z.eqb_neq in H0. apply py_in_In in Hin. apply Z.eqb_neq in Hu.
  change (alive (set_killer (Some uid) (discard "killcard" g))) with (alive g).
  change (shields_equipped (set_killer (Some uid) (discard "killcard" g)))
    with (shields_equipped g).
  rewrite H0, Hin, Hu. cbn [negb andb].
  destruct (dget t (shields_equipped g)) as [[|]|]; reflexivity.
Qed.
End KillFacts.

(** C5: a KILL played by an alive holder makes the actor the killer.
    Against an alive target other than the actor: if the target's shield is
    equipped, nobody leaves the alive list, one [shieldcard] is appended to
    the actor's hand and the target's shield flag is removed (the other
    flags stay); otherwise the target leaves the alive list and the target's
    hand goes to the used pile. *)
Theorem kill_resolution db gid uid target r g :
  db_wf db -> game_ok g -> accepted g uid "killcard" ->
  let g' := snd (play_card_in db gid uid (Some "killcard"%string) target r g) in
  let rest := py_remove "killcard"%string (hand_of g uid) in
  killer g' = Some uid /\
  forall t, names db target t -> In t (alive g) -> t <> uid ->
    (dget t (shields_equipped g) = Some true ->
     alive g' = alive g /\ In t (alive g') /\
     hand_of g' uid = rest ++ ["shieldcard"%string] /\
     dget t (shields_equipped g') = None /\
     (forall p, p <> t -> dget p (shields_equipped g') = dget p (shields_equipped g))) /\
    (dget t (shields_equipped g) <> Some true ->
     alive g' = py_remove t (alive g) /\ ~ In t (alive g') /\
     hand_of g' t = [] /\
     used g' = used g ++ "killcard"%string :: hand_of g t /\
     shields_equipped g' = shields_equipped g).
Proof.
  intros Hwf Hok Hacc g' rest.
  assert (Eg : g' = end_checks
                      (play_kill db uid target
                         (set_hands (dset uid rest (hands g)) g))).
  { unfold g'. rewrite (play_card_in_accepted db gid uid _ target r g Hacc).
    reflexivity. }
  set (g0 := set_hands (dset uid rest (hands g)) g) in *.
  assert (Hh0 : forall p, hand_of g0 p = if Z.eqb p uid then rest else hand_of g p).
  { intros p. unfold hand_of, dget_default, g0. simpl. rewrite dget_dset.
    change (py_eqb p uid) with (Z.eqb p uid).
    destruct (Z.eqb p uid); reflexivity. }
  destruct (end_checks_fields (play_kill db uid target g0))
    as (_ & _ & Hal & Hh & _ & Hu & Hk & _).
  pose proof (end_checks_shields (play_kill db uid target g0)) as Hs.
  assert (Hh' : forall p, hand_of (end_checks (play_kill db uid target g0)) p
                          = hand_of (play_kill db uid target g0) p)
    by (intros p; unfold hand_of; rewrite Hh; reflexivity).
  split; [rewrite Eg, Hk; apply play_kill_killer|].
  intros t Hn Hin Htu.
  rewrite Eg, Hal, Hu, Hs, !Hh'.
  pose proof (names_positive db target t Hwf Hn) as Ht0.
  rewrite (play_kill_valid db uid target t g0 Hn Ht0 Hin Htu).
  change (shields_equipped g0) with (shields_equipped g).
  cbv zeta.
  split; intros Hsh.
  - rewrite Hsh. repeat apply conj.
    + reflexivity.
    + exact Hin.
    + unfold hand_of at 1. unfold dget_default. simpl. rewrite dget_dset_same.
      rewrite Hh0, Z.eqb_refl. reflexivity.
    + simpl. apply dget_dpop_same. apply (ok_shield_keys g Hok).
    + intros p Hp. simpl. apply dget_dpop_other. exact Hp.
  - assert (Ee : match dget t (shields_equipped g) with
                 | Some true =>
                     add_log (String.append (name_of db uid)
                                (String.append " attempted to kill "
                                   (String.append target
                                      " but shield broke and was taken by killer.")))
                       (set_hands (dset uid (hand_of g0 uid ++ ["shieldcard"%string])
                                       (hands g0))
                          (set_shields (dpop t (shields_equipped g))
                             (set_killer (Some uid) (discard "killcard" g0))))
                 | _ =>
                     add_log (String.append (name_of db uid)
                                (String.append " used KILL and eliminated "
                                   (String.append target ".")))
                       (eliminate t (set_killer (Some uid) (discard "killcard" g0)))
                 end
                 = add_log (String.append (name_of db uid)
                              (String.append " used KILL and eliminated "
                                 (String.append target ".")))
                     (eliminate t (set_killer (Some uid) (discard "killcard" g0)))).
    { destruct (dget t (shields_equipped g)) as [[|]|]; [congruence | |]; reflexivity. }
    rewrite Ee. repeat apply conj.
    + reflexivity.
    + simpl. apply py_remove_gone. apply (ok_alive_nodup g Hok).
    + unfold hand_of, dget_default. simpl. rewrite dget_dset_same. reflexivity.
    + change (used (add_log _ (eliminate t (set_killer (Some uid) (discard "killcard" g0)))))
        with ((used g ++ ["killcard"%string]) ++ hand_of g0 t).
      rewrite Hh0. apply Z.eqb_neq in Htu. rewrite Htu, <- app_assoc. reflexivity.
    + reflexivity.
Qed.

Lemma shielded_world_ok : game_ok (the_game shielded_world).
Proof.
  apply (ok_games shielded_world
           (reachable_ok shielded_world (demo_played_reachable _ _)) "g1"%string).
  vm_compute. reflexivity.
Qed.

Lemma kill_resolution_witness :
  db_wf demo_db /\ game_ok (the_game shielded_world) /\
  accepted (the_game shielded_world) 1 "killcard" /\
  names demo_db "bob" 2 /\ In 2 (alive (the_game shielded_world)) /\ 2 <> 1 /\
  dget 2 (shields_equipped (the_game shielded_world)) = Some true /\
  alive (snd (play_card_in demo_db "g1" 1 (Some "killcard"%string) "bob" []
                (the_game shielded_world)))
  = alive (the_game shielded_world).
Proof.
  assert (H1 : db_wf demo_db) by exact demo_db_wf.
  assert (H2 : game_ok (the_game shielded_world)) by exact shielded_world_ok.
  assert (H3 : accepted (the_game shielded_world) 1 "killcard")
    by (vm_compute; repeat split; discriminate).
  assert (H4 : names demo_db "bob" 2) by (split; [discriminate | reflexivity]).
  assert (H5 : In 2 (alive (the_game shielded_world)))
    by (vm_compute; right; left; reflexivity).
  assert (H6 : 2 <> 1) by discriminate.
  assert (H7 : dget 2 (shields_equipped (the_game shielded_world)) = Some true)
    by (vm_compute; reflexivity).
  split; [exact H1|]. split; [exact H2|]. split; [exact H3|]. split; [exact H4|].
  split; [exact H5|]. split; [exact H6|]. split; [exact H7|].
  exact (proj1 (proj1 (proj2 (kill_resolution demo_db "g1" 1 "bob" []
                                (the_game shielded_world) H1 H2 H3)
                         2 H4 H5 H6) H7)).
Defined.

(** ** C6: SHIELD *)

(** A shield flag stays set through every call, except a KILL that breaks
    that very shield. *)
Lemma shield_flag_persists db gid uid form_card target r h p :
  dget p (shields_equipped h) = Some true ->
  (forall card, form_card = Some card -> shield_break db h uid card target = true ->
                get_userid_by_username db target <> Some p) ->
  dget p (shields_equipped (snd (play_card_in db gid uid form_card target r h)))
  = Some true.
Proof.
  intros Hp Hnot.
  destruct (play_card_in_cases db gid uid form_card target r h)
    as [-> | (card & Ec & _ & ->)]; [exact Hp|].
  rewrite end_checks_shields, apply_card_shields. unfold shields_after.
  destruct (String.eqb card "shieldcard").
  - rewrite dget_dset. destruct (py_eqb p uid); [reflexivity | exact Hp].
  - destruct (shield_break db h uid card target) eqn:Eb; [|exact Hp].
    specialize (Hnot card Ec Eb).
    destruct (get_userid_by_username db target) as [t|]; [|exact Hp].
    rewrite dget_dpop_other; [exact Hp|]. congruence.
Qed.

(** C6, as stated, fails: ann is dealt [shieldcard; statecard; killcard];
    after she plays the [shieldcard] her hand is [statecard; killcard]: the
    card has left her hand. *)
Lemma C6_shield_card_leaves_the_hand :
  reachable shield_world /\
  dget "g1"%string (games shield_world) = Some (the_game shield_world) /\
  hand_of (the_game shield_world) 1 = ["shieldcard"; "statecard"; "killcard"]%string /\
  let out := play_card_in demo_db "g1" 1 (Some "shieldcard"%string) "" []
               (the_game shield_world) in
  fst out = redirect_game_room "g1" None /\
  hand_of (snd out) 1 = ["statecard"; "killcard"]%string /\
  py_in "shieldcard"%string (hand_of (snd out) 1) = false.
Proof.
  split.
  - apply demo_joined_reachable.
  - vm_compute. repeat split; reflexivity.
Qed.

(** C6, amended: a SHIELD played by an alive holder is not discarded: one
    copy leaves the actor's hand but is not added to the used pile (it is
    held as the equipped shield); the actor's shield flag is set; the deck,
    the used pile, the alive list, the killer, the other hands and the other
    flags are unchanged.  A flag that is set, in any state of a session,
    stays set through every call except a KILL that breaks that shield. *)
Theorem shield_is_equipped db gid uid target r g :
  accepted g uid "shieldcard" ->
  let g' := snd (play_card_in db gid uid (Some "shieldcard"%string) target r g) in
  hand_of g' uid = py_remove "shieldcard"%string (hand_of g uid) /\
  (forall p, p <> uid -> hand_of g' p = hand_of g p) /\
  used g' = used g /\ deck g' = deck g /\ alive g' = alive g /\
  killer g' = killer g /\
  dget uid (shields_equipped g') = Some true /\
  (forall p, p <> uid -> dget p (shields_equipped g') = dget p (shields_equipped g)) /\
  (forall h p gid2 uid2 form_card2 target2 r2,
     dget p (shields_equipped h) = Some true ->
     (forall card2, form_card2 = Some card2 ->
                    shield_break db h uid2 card2 target2 = true ->
                    get_userid_by_username db target2 <> Some p) ->
     dget p (shields_equipped
               (snd (play_card_in db gid2 uid2 form_card2 target2 r2 h)))
     = Some true).
Proof.
  intros Hacc g'.
  assert (Eg : g' = end_checks
                      (play_shield db uid
                         (set_hands (dset uid (py_remove "shieldcard"%string (hand_of g uid))
                                          (hands g)) g))).
  { unfold g'. rewrite (play_card_in_accepted db gid uid _ target r g Hacc).
    reflexivity. }
  set (g1 := play_shield db uid _) in Eg.
  destruct (end_checks_fields g1) as (_ & _ & Hal & Hh & Hd & Hu & Hk & _).
  pose proof (end_checks_shields g1) as Hs.
  assert (Hh' : forall p, hand_of g' p = hand_of g1 p)
    by (intros p; unfold hand_of; rewrite Eg, Hh; reflexivity).
  assert (Hflag : dget uid (shields_equipped g') = Some true).
  { rewrite Eg, Hs. simpl. apply dget_dset_same. }
  repeat apply conj.
  - rewrite Hh'. unfold hand_of, dget_default. simpl. rewrite dget_dset_same.
    reflexivity.
  - intros p Hp. rewrite Hh'. unfold hand_of, dget_default. simpl.
    rewrite dget_dset_other by exact Hp. reflexivity.
  - rewrite Eg, Hu. reflexivity.
  - rewrite Eg, Hd. reflexivity.
  - rewrite Eg, Hal. reflexivity.
  - rewrite Eg, Hk. reflexivity.
  - exact Hflag.
  - intros p Hp. rewrite Eg, Hs. simpl. apply dget_dset_other. exact Hp.
  - intros h p gid2 uid2 form_card2 target2 r2 Hp Hnot.
    apply shield_flag_persists; assumption.
Qed.

Lemma shield_world_accepts : accepted (the_game shield_world) 1 "shieldcard".
Proof. vm_compute. repeat split; discriminate. Qed.

Lemma shield_is_equipped_witness :
  accepted (the_game shield_world) 1 "shieldcard" /\
  used (snd (play_card_in demo_db "g1" 1 (Some "shieldcard"%string) "" []
               (the_game shield_world)))
  = used (the_game shield_world).
Proof.
  split; [exact shield_world_accepts|].
  exact (proj1 (proj2 (proj2 (shield_is_equipped demo_db "g1" 1 "" []
                                (the_game shield_world) shield_world_accepts)))).
Defined.

(** ** C7: TAKE from an empty hand *)

Lemma play_take_nothing db uid target t r g :
  names db target t -> t <> 0 -> In t (alive g) -> t <> uid -> hand_of g t = [] ->
  play_take db uid target r g
  = add_log (String.append target " had no cards to take.") (discard "takecard" g).
Proof.
  intros [Hne Ht] H0 Hin Hu Hh. unfold play_take.
  apply String.eqb_neq in Hne. rewrite Hne, Ht.
  apply Z.eqb_neq in H0. apply py_in_In in Hin. apply Z.eqb_neq in Hu.
  change (alive (discard "takecard" g)) with (alive g).
  change (hand_of (discard "takecard" g) t) with (hand_of g t).
  rewrite H0, Hin, Hu, Hh. reflexivity.
Qed.

(** C7, as stated, fails: bob has played his three cards; eve, holding
    [exchangecard; takecard; takecard], plays TAKE against bob.  Her own hand
    shrinks from three cards to two and the used pile grows by the
    [takecard]. *)
Lemma C7_take_card_is_spent :
  reachable bob_empty_world /\
  dget "g1"%string (games bob_empty_world) = Some (the_game bob_empty_world) /\
  hand_of (the_game bob_empty_world) 2 = [] /\
  hand_of (the_game bob_empty_world) 5 = ["exchangecard"; "takecard"; "takecard"]%string /\
  let out := play_card_in demo_db "g1" 5 (Some "takecard"%string) "bob" []
               (the_game bob_empty_world) in
  fst out = redirect_game_room "g1" None /\
  hand_of (snd out) 5 = ["exchangecard"; "takecard"]%string /\
  used (snd out) = used (the_game bob_empty_world) ++ ["takecard"%string] /\
  log (snd out) = log (the_game bob_empty_world) ++ ["bob had no cards to take."%string].
Proof.
  split.
  - apply demo_played_reachable.
  - vm_compute. repeat split; reflexivity.
Qed.

(** C7, amended: a TAKE by an alive holder against an alive player other
    than the actor whose hand is empty spends the card and nothing more: the
    played [takecard] goes from the actor's hand to the used pile, every
    other hand, the deck, the alive list, the killer and the shield flags
    are unchanged, and the single log entry "<target> had no cards to take."
    is appended.  (The end checks then run as after every call.) *)
Theorem take_from_empty_hand db gid uid target t r g :
  db_wf db -> accepted g uid "takecard" ->
  names db target t -> In t (alive g) -> t <> uid -> hand_of g t = [] ->
  let g' := snd (play_card_in db gid uid (Some "takecard"%string) target r g) in
  hand_of g' uid = py_remove "takecard"%string (hand_of g uid) /\
  (forall p, p <> uid -> hand_of g' p = hand_of g p) /\
  used g' = used g ++ ["takecard"%string] /\
  deck g' = deck g /\ alive g' = alive g /\ killer g' = killer g /\
  shields_equipped g' = shields_equipped g /\
  log g' = log g ++ [String.append target " had no cards to take."] /\
  g' = end_checks
         (add_log (String.append target " had no cards to take.")
            (discard "takecard"
               (set_hands (dset uid (py_remove "takecard"%string (hand_of g uid))
                                (hands g)) g))).
Proof.
  intros Hwf Hacc Hn Hin Htu Hempty g'.
  pose proof (names_positive db target t Hwf Hn) as Ht0.
  set (g0 := set_hands (dset uid (py_remove "takecard"%string (hand_of g uid))
                             (hands g)) g).
  assert (Hh0 : hand_of g0 t = []).
  { unfold hand_of, dget_default, g0. simpl.
    rewrite dget_dset_other by exact Htu. exact Hempty. }
  assert (Eg : g' = end_checks
                      (add_log (String.append target " had no cards to take.")
                               (discard "takecard" g0))).
  { unfold g'. rewrite (play_card_in_accepted db gid uid _ target r g Hacc).
    cbn [snd]. f_equal.
    change (apply_card db uid "takecard" target r g)
      with (play_take db uid target r g0).
    apply (play_take_nothing db uid target t r g0); assumption. }
  set (g1 := add_log _ _) in Eg.
  destruct (end_checks_fields g1) as (_ & _ & Hal & Hh & Hd & Hu & Hk & Hl).
  pose proof (end_checks_shields g1) as Hs.
  assert (Hh' : forall p, hand_of g' p = hand_of g1 p)
    by (intros p; unfold hand_of; rewrite Eg, Hh; reflexivity).
  repeat apply conj.
  - rewrite Hh'. unfold hand_of, dget_default. simpl. rewrite dget_dset_same.
    reflexivity.
  - intros p Hp. rewrite Hh'. unfold hand_of, dget_default. simpl.
    rewrite dget_dset_other by exact Hp. reflexivity.
  - rewrite Eg, Hu. reflexivity.
  - rewrite Eg, Hd. reflexivity.
  - rewrite Eg, Hal. reflexivity.
  - rewrite Eg, Hk. reflexivity.
  - rewrite Eg, Hs. reflexivity.
  - rewrite Eg, Hl. reflexivity.
  - exact Eg.
Qed.

Lemma take_from_empty_hand_witness :
  db_wf demo_db /\ accepted (the_game bob_empty_world) 5 "takecard" /\
  names demo_db "bob" 2 /\ In 2 (alive (the_game bob_empty_world)) /\ 2 <> 5 /\
  hand_of (the_game bob_empty_world) 2 = [] /\
  log (snd (play_card_in demo_db "g1" 5 (Some "takecard"%string) "bob" []
              (the_game bob_empty_world)))
  = log (the_game bob_empty_world) ++ [String.append "bob" " had no cards to take."].
Proof.
  assert (H1 : db_wf demo_db) by exact demo_db_wf.
  assert (H2 : accepted (the_game bob_empty_world) 5 "takecard")
    by (vm_compute; repeat split; discriminate).
  assert (H3 : names demo_db "bob" 2) by (split; [discriminate | reflexivity]).
  assert (H4 : In 2 (alive (the_game bob_empty_world)))
    by (vm_compute; right; left; reflexivity).
  assert (H5 : 2 <> 5) by discriminate.
  assert (H6 : hand_of (the_game bob_empty_world) 2 = [])
    by (vm_compute; reflexivity).
  split; [exact H1|]. split; [exact H2|]. split; [exact H3|].
  split; [exact H4|]. split; [exact H5|]. split; [exact H6|].
  exact (proj1 (proj2 (proj2 (proj2 (proj2 (proj2 (proj2 (proj2
          (take_from_empty_hand demo_db "g1" 5 "bob" 2 []
             (the_game bob_empty_world) H1 H2 H3 H4 H5 H6))))))))).
Defined.

(** ** C8: matchmaking *)

Lemma join_all_app db reqs1 reqs2 w :
  join_all db (reqs1 ++ reqs2) w = join_all db reqs2 (join_all db reqs1 w).
Proof. unfold join_all. apply fold_left_app. Qed.

(** Fewer than [MATCH_SIZE] distinct players just queue up, in order. *)
Lemma join_all_queued db reqs users : forall w,
  Forall2 (logged_in db) reqs users ->
  NoDup (matchmaking_queue w ++ map user_id users) ->
  (List.length (matchmaking_queue w) + List.length reqs < MATCH_SIZE)%nat ->
  join_all db reqs w
  = mkWorld (matchmaking_queue w ++ map user_id users) (games w) (user_to_game w).
Proof.
  intros w HF. revert w.
  induction HF as [|[[[sess new_id] now] r] u reqs users Hu HF IH]; intros w Hnd Hlen.
  - simpl. rewrite app_nil_r. destruct w; reflexivity.
  - simpl in Hlen. unfold logged_in in Hu. simpl in Hu.
    destruct (join_queue_spec db sess new_id now r w u) as (_ & Hq & _);
      [lia | exact Hu |].
    assert (Hnin : ~ In (user_id u) (matchmaking_queue w)).
    { simpl in Hnd. apply NoDup_remove_2 in Hnd. intros Hi. apply Hnd.
      apply in_or_app. left. exact Hi. }
    change (join_all db ((sess, new_id, now, r) :: reqs) w)
      with (join_all db reqs (snd (join_queue db sess new_id now r w))).
    rewrite (Hq Hnin) by lia. cbn [snd].
    rewrite IH.
    + simpl. rewrite <- app_assoc. reflexivity.
    + simpl. rewrite <- app_assoc. exact Hnd.
    + simpl. rewrite length_app. simpl. lia.
Qed.

(** C8: in every reachable state the queue holds no duplicates and fewer
    than [MATCH_SIZE = 5] players.  A join by a player already queued changes
    nothing; a join that brings the queue to fewer than 5 players appends the
    player; the join that brings it to 5 empties the queue and creates
    exactly one session, stored under the fresh id, whose participants are
    the 5 queued players in FIFO order.  In particular 5 joins by distinct
    players, starting from the empty state, leave an empty queue and exactly
    one session, holding all 5. *)
Theorem join_queue_matchmaking db w sess new_id now r user :
  db_wf db -> reachable w -> current_user db sess = Some user ->
  let uid := user_id user in
  let q := matchmaking_queue w in
  let out := join_queue db sess new_id now r w in
  MATCH_SIZE = 5%nat /\
  NoDup q /\ (List.length q < MATCH_SIZE)%nat /\
  NoDup (matchmaking_queue (snd out)) /\
  (List.length (matchmaking_queue (snd out)) < MATCH_SIZE)%nat /\
  (In uid q -> out = (json_started None, w)) /\
  (~ In uid q -> (S (List.length q) < MATCH_SIZE)%nat ->
   out = (json_started None, mkWorld (q ++ [uid]) (games w) (user_to_game w))) /\
  (~ In uid q -> S (List.length q) = MATCH_SIZE ->
   exists g,
     out = (json_started (Some new_id),
            mkWorld [] (dset new_id g (games w))
                    (register_players (q ++ [uid]) new_id (user_to_game w))) /\
     game_id g = new_id /\ players g = q ++ [uid] /\ alive g = q ++ [uid] /\
     finished g = false) /\
  (forall front users sess5 id5 now5 r5 user5,
     S (List.length front) = MATCH_SIZE ->
     Forall2 (logged_in db) front users ->
     current_user db sess5 = Some user5 ->
     NoDup (map user_id (users ++ [user5])) ->
     exists g,
       join_all db (front ++ [(sess5, id5, now5, r5)]) init_world
       = mkWorld [] [(id5, g)]
                 (register_players (map user_id (users ++ [user5])) id5 []) /\
       players g = map user_id (users ++ [user5])).
Proof.
  intros Hwf Hr Hu uid q out.
  pose proof (reachable_ok w Hr) as Hok.
  pose proof (join_queue_ok db sess new_id now r w Hwf Hok) as Hok'.
  destruct (join_queue_spec db sess new_id now r w user (ok_queue_short w Hok) Hu)
    as (H1 & H2 & H3).
  split; [reflexivity|].
  split; [exact (ok_queue_nodup w Hok)|].
  split; [exact (ok_queue_short w Hok)|].
  split; [exact (ok_queue_nodup _ Hok')|].
  split; [exact (ok_queue_short _ Hok')|].
  split; [exact H1|]. split; [exact H2|]. split.
  - intros Hnin Hlen. destruct (H3 Hnin Hlen) as (g & w' & Ec & Ej).
    exists g. subst out q uid. rewrite Ej.
    apply create_game_fields in Ec.
    destruct Ec as (Hid & Hp & Ha & _ & _ & _ & Hf & _ & Eq & Eg & Eu).
    simpl in Eq, Eg, Eu.
    repeat apply conj; try assumption.
    f_equal. destruct w' as [q' gs' m']. simpl in *. subst q' gs' m'. reflexivity.
  - intros front users sess5 id5 now5 r5 user5 Hlen HF Hu5 Hnd.
    rewrite join_all_app.
    assert (Hfront : join_all db front init_world
                     = mkWorld (map user_id users) [] []).
    { rewrite (join_all_queued db front users init_world HF).
      - reflexivity.
      - simpl. rewrite map_app in Hnd. apply NoDup_app_remove_r in Hnd. exact Hnd.
      - simpl. lia. }
    rewrite Hfront.
    change (join_all db [(sess5, id5, now5, r5)] (mkWorld (map user_id users) [] []))
      with (snd (join_queue db sess5 id5 now5 r5 (mkWorld (map user_id users) [] []))).
    assert (Hlu : List.length users = List.length front).
    { symmetry. eapply Forall2_length. exact HF. }
    destruct (join_queue_spec db sess5 id5 now5 r5
                (mkWorld (map user_id users) [] []) user5) as (_ & _ & H5).
    { simpl. rewrite length_map. lia. }
    { exact Hu5. }
    simpl in H5.
    destruct H5 as (g & w' & Ec & Ej).
    { rewrite map_app in Hnd. simpl in Hnd. apply NoDup_remove_2 in Hnd.
      rewrite app_nil_r in Hnd. exact Hnd. }
    { rewrite length_map. lia. }
    rewrite Ej. cbn [snd]. exists g.
    apply create_game_fields in Ec.
    destruct Ec as (_ & Hp & _ & _ & _ & _ & _ & _ & Eq & Eg & Eu).
    simpl in Eq, Eg, Eu. rewrite map_app. simpl.
    split; [|exact Hp].
    destruct w' as [q' gs' m']. simpl in *. subst q' gs' m'. reflexivity.
Qed.

Lemma join_queue_matchmaking_witness :
  db_wf demo_db /\ reachable four_queued /\
  matchmaking_queue four_queued = [1; 2; 3; 4] /\
  current_user demo_db (Some 5) = Some (mkUser 5 "eve") /\
  current_user demo_db (Some 2) = Some (mkUser 2 "bob") /\
  (exists g,
     join_queue demo_db (Some 5) "g1" 0 [] four_queued
     = (json_started (Some "g1"%string),
        mkWorld [] (dset "g1"%string g (games four_queued))
                (register_players [1; 2; 3; 4; 5] "g1" (user_to_game four_queued))) /\
     game_id g = "g1"%string /\ players g = [1; 2; 3; 4; 5] /\
     alive g = [1; 2; 3; 4; 5] /\ finished g = false) /\
  join_queue demo_db (Some 2) "g1" 0 [] four_queued = (json_started None, four_queued).
Proof.
  assert (H1 : db_wf demo_db) by exact demo_db_wf.
  assert (H2 : reachable four_queued) by apply demo_joined_reachable.
  assert (H3 : matchmaking_queue four_queued = [1; 2; 3; 4])
    by (vm_compute; reflexivity).
  assert (H5 : current_user demo_db (Some 5) = Some (mkUser 5 "eve")) by reflexivity.
  assert (H6 : current_user demo_db (Some 2) = Some (mkUser 2 "bob")) by reflexivity.
  assert (Hout : ~ In 5 (matchmaking_queue four_queued))
    by (rewrite H3; simpl; intuition discriminate).
  assert (Hlen : S (List.length (matchmaking_queue four_queued)) = MATCH_SIZE)
    by (rewrite H3; reflexivity).
  assert (Hin : In 2 (matchmaking_queue four_queued))
    by (rewrite H3; simpl; tauto).
  split; [exact H1|]. split; [exact H2|]. split; [exact H3|].
  split; [exact H5|]. split; [exact H6|].
  split.
  - destruct (proj1 (proj2 (proj2 (proj2 (proj2 (proj2 (proj2 (proj2
                (join_queue_matchmaking demo_db four_queued (Some 5) "g1" 0 []
                   (mkUser 5 "eve") H1 H2 H5)))))))) Hout Hlen)
      as (g & E & Eid & Ep & Ea & Ef).
    exists g. cbn [user_id] in E, Ep, Ea. rewrite H3 in Ep, Ea.
    rewrite E. split; [rewrite H3; reflexivity|].
    split; [exact Eid|]. split; [exact Ep|]. split; [exact Ea | exact Ef].
  - exact (proj1 (proj2 (proj2 (proj2 (proj2 (proj2
                   (join_queue_matchmaking demo_db four_queued (Some 2) "g1" 0 []
                      (mkUser 2 "bob") H1 H2 H6)))))) Hin).
Defined.

(** ** C9: accusing oneself *)

Lemma option_eq_dec_killer (k : option Z) (u : Z) : {k = Some u} + {k <> Some u}.
Proof.
  destruct k as [x|]; [|right; discriminate].
  destruct (Z.eq_dec x u) as [->|Hne]; [left; reflexivity | right; congruence].
Qed.

(** C9: ACCUSATION has no "target differs from the actor" guard.  An alive
    holder who names themself is resolved like any accuser: the actor leaves
    the alive list and the actor's hand goes to the used pile; if the actor
    is the killer the accusation is logged as correct, the killer becomes
    none and the session finishes with winner faithfuls; otherwise it is
    logged as wrong and the killer is unchanged. *)
Theorem self_accusation db gid uid target r g :
  db_wf db -> game_ok g -> accepted g uid "accusatecard" -> names db target uid ->
  let g' := snd (play_card_in db gid uid (Some "accusatecard"%string) target r g) in
  alive g' = py_remove uid (alive g) /\ ~ In uid (alive g') /\
  hand_of g' uid = [] /\
  used g' = used g ++ "accusatecard"%string
                      :: py_remove "accusatecard"%string (hand_of g uid) /\
  (killer g = Some uid ->
   killer g' = None /\ finished g' = true /\ winner g' = Some "faithfuls"%string /\
   log g' = log g ++ [String.append (name_of db uid)
                        (String.append " used ACCUSATION and was correct! "
                           (String.append target " eliminated."))]) /\
  (killer g <> Some uid ->
   killer g' = killer g /\
   log g' = log g ++ [String.append (name_of db uid)
                        (String.append " used ACCUSATION and was wrong → "
                           (String.append (name_of db uid) " eliminated."))]).
Proof.
  intros Hwf Hok Hacc Hn g'.
  pose proof (names_positive db target uid Hwf Hn) as Hu0.
  assert (Hin : In uid (alive g)) by (apply py_in_In; apply Hacc).
  set (rest := py_remove "accusatecard"%string (hand_of g uid)).
  assert (Eg : g' = end_checks
                      (play_accusate db uid target
                         (set_hands (dset uid rest (hands g)) g))).
  { unfold g'. rewrite (play_card_in_accepted db gid uid _ target r g Hacc).
    reflexivity. }
  set (g0 := set_hands (dset uid rest (hands g)) g) in *.
  assert (Hh0 : hand_of g0 uid = rest).
  { unfold hand_of, dget_default, g0. simpl. rewrite dget_dset_same. reflexivity. }
  pose proof (ok_alive_nodup g Hok) as Hnd.
  destruct (option_eq_dec_killer (killer g) uid) as [Hk | Hk].
  - rewrite (play_accusate_right db uid target uid g0 Hn Hu0 Hin Hk) in Eg.
    set (g1 := set_result _ _ _) in Eg.
    destruct (end_checks_fields g1) as (_ & _ & Hal & Hh & _ & Hu & Hkk & Hl).
    assert (Hres : finished (end_checks g1) = true /\
                   winner (end_checks g1) = Some "faithfuls"%string).
    { destruct (end_checks_result g1)
        as [(Hb & _) | [(_ & _ & _ & Hf & Hw) | (_ & _ & Hf & Hw)]].
      - discriminate Hb.
      - split; assumption.
      - rewrite Hf, Hw. split; reflexivity. }
    assert (Hh' : forall p, hand_of (end_checks g1) p = hand_of g1 p)
      by (intros p; unfold hand_of; rewrite Hh; reflexivity).
    rewrite Eg, Hal, Hh', Hu, Hkk, Hl.
    repeat apply conj.
    + reflexivity.
    + simpl. apply py_remove_gone. exact Hnd.
    + unfold hand_of, dget_default. simpl. rewrite dget_dset_same. reflexivity.
    + change (used g1) with ((used g ++ ["accusatecard"%string]) ++ hand_of g0 uid).
      rewrite Hh0, <- app_assoc. reflexivity.
    + intros _. repeat apply conj; try apply Hres; reflexivity.
    + intros Hne. contradiction.
  - rewrite (play_accusate_wrong db uid target uid g0 Hn Hu0 Hin Hk) in Eg.
    set (g1 := add_log _ _) in Eg.
    destruct (end_checks_fields g1) as (_ & _ & Hal & Hh & _ & Hu & Hkk & Hl).
    assert (Hh' : forall p, hand_of (end_checks g1) p = hand_of g1 p)
      by (intros p; unfold hand_of; rewrite Hh; reflexivity).
    rewrite Eg, Hal, Hh', Hu, Hkk, Hl.
    repeat apply conj.
    + reflexivity.
    + simpl. apply py_remove_gone. exact Hnd.
    + unfold hand_of, dget_default. simpl. rewrite dget_dset_same. reflexivity.
    + change (used g1) with ((used g ++ ["accusatecard"%string]) ++ hand_of g0 uid).
      rewrite Hh0, <- app_assoc. reflexivity.
    + intros He. contradiction.
    + intros _. split; reflexivity.
Qed.

Lemma self_accusation_witness :
  db_wf demo_db /\ game_ok (the_game demo_world) /\
  accepted (the_game demo_world) 1 "accusatecard" /\ names demo_db "ann" 1 /\
  alive (snd (play_card_in demo_db "g1" 1 (Some "accusatecard"%string) "ann" []
                (the_game demo_world)))
  = py_remove 1 (alive (the_game demo_world)).
Proof.
  assert (H1 : db_wf demo_db) by exact demo_db_wf.
  assert (H2 : game_ok (the_game demo_world)) by exact demo_world_ok.
  assert (H3 : accepted (the_game demo_world) 1 "accusatecard")
    by (vm_compute; repeat split; discriminate).
  assert (H4 : names demo_db "ann" 1) by (split; [discriminate | reflexivity]).
  split; [exact H1|]. split; [exact H2|]. split; [exact H3|]. split; [exact H4|].
  exact (proj1 (self_accusation demo_db "g1" 1 "ann" [] (the_game demo_world)
                  H1 H2 H3 H4)).
Defined.

(** ** C10: EXCHANGE *)

Lemma play_exchange_valid db uid target t g :
  names db target t -> t <> 0 -> In t (alive g) -> t <> uid ->
  play_exchange db uid target g
  = add_log (String.append (name_of db uid)
               (String.append " exchanged hands with " (String.append target ".")))
      (set_hands (dset t (hand_of g uid) (dset uid (hand_of g t) (hands g)))
                 (discard "exchangecard" g)).
Proof.
  intros [Hne Ht] H0 Hin Hu. unfold play_exchange.
  apply String.eqb_neq in Hne. rewrite Hne, Ht.
  apply Z.eqb_neq in H0. apply py_in_In in Hin. apply Z.eqb_neq in Hu.
  change (alive (discard "exchangecard" g)) with (alive g).
  rewrite H0, Hin, Hu. reflexivity.
Qed.

(** C10: an EXCHANGE by an alive holder against an alive target other than
    the actor swaps the two hands (the actor's hand without the played card)
    and nothing else: the shield flags stay where they are, and the alive
    list, the killer, the deck, the other hands and the used pile apart from
    the appended [exchangecard] are unchanged. *)
Theorem exchange_swaps_hands_only db gid uid target t r g :
  db_wf db -> accepted g uid "exchangecard" ->
  names db target t -> In t (alive g) -> t <> uid ->
  let g' := snd (play_card_in db gid uid (Some "exchangecard"%string) target r g) in
  hand_of g' uid = hand_of g t /\
  hand_of g' t = py_remove "exchangecard"%string (hand_of g uid) /\
  (forall p, p <> uid -> p <> t -> hand_of g' p = hand_of g p) /\
  shields_equipped g' = shields_equipped g /\
  alive g' = alive g /\ killer g' = killer g /\ deck g' = deck g /\
  used g' = used g ++ ["exchangecard"%string].
Proof.
  intros Hwf Hacc Hn Hin Htu g'.
  pose proof (names_positive db target t Hwf Hn) as Ht0.
  set (rest := py_remove "exchangecard"%string (hand_of g uid)).
  set (g0 := set_hands (dset uid rest (hands g)) g).
  assert (Hh0 : forall p, hand_of g0 p = if Z.eqb p uid then rest else hand_of g p).
  { intros p. unfold hand_of, dget_default, g0. simpl. rewrite dget_dset.
    change (py_eqb p uid) with (Z.eqb p uid).
    destruct (Z.eqb p uid); reflexivity. }
  assert (Eg : g' = end_checks (play_exchange db uid target g0)).
  { unfold g'. rewrite (play_card_in_accepted db gid uid _ target r g Hacc).
    reflexivity. }
  rewrite (play_exchange_valid db uid target t g0 Hn Ht0 Hin Htu) in Eg.
  rewrite (Hh0 uid), (Hh0 t), Z.eqb_refl in Eg.
  assert (Etu : Z.eqb t uid = false) by (apply Z.eqb_neq; exact Htu).
  rewrite Etu in Eg.
  set (g1 := add_log _ _) in Eg.
  destruct (end_checks_fields g1) as (_ & _ & Hal & Hh & Hd & Hu & Hk & _).
  pose proof (end_checks_shields g1) as Hs.
  assert (Hh' : forall p, hand_of g' p = hand_of g1 p)
    by (intros p; unfold hand_of; rewrite Eg, Hh; reflexivity).
  assert (Hg1 : forall p, hand_of g1 p
                          = if Z.eqb p t then rest
                            else if Z.eqb p uid then hand_of g t else hand_of g p).
  { intros p. unfold hand_of at 1. unfold dget_default, g1. simpl.
    rewrite !dget_dset.
    change (py_eqb p t) with (Z.eqb p t). change (py_eqb p uid) with (Z.eqb p uid).
    destruct (Z.eqb p t); [reflexivity|].
    destruct (Z.eqb p uid); reflexivity. }
  repeat apply conj.
  - rewrite Hh', Hg1, Z.eqb_refl.
    assert (Eut : Z.eqb uid t = false) by (apply Z.eqb_neq; congruence).
    rewrite Eut. reflexivity.
  - rewrite Hh', Hg1, Z.eqb_refl. reflexivity.
  - intros p Hpu Hpt. rewrite Hh', Hg1.
    apply Z.eqb_neq in Hpu. apply Z.eqb_neq in Hpt. rewrite Hpu, Hpt. reflexivity.
  - rewrite Eg, Hs. reflexivity.
  - rewrite Eg, Hal. reflexivity.
  - rewrite Eg, Hk. reflexivity.
  - rewrite Eg, Hd. reflexivity.
  - rewrite Eg, Hu. reflexivity.
Qed.

Lemma exchange_swaps_hands_only_witness :
  db_wf demo_db /\ accepted (the_game demo_world) 4 "exchangecard" /\
  names demo_db "eve" 5 /\ In 5 (alive (the_game demo_world)) /\ 5 <> 4 /\
  hand_of (snd (play_card_in demo_db "g1" 4 (Some "exchangecard"%string) "eve" []
                  (the_game demo_world))) 4
  = hand_of (the_game demo_world) 5.
Proof.
  assert (H1 : db_wf demo_db) by exact demo_db_wf.
  assert (H2 : accepted (the_game demo_world) 4 "exchangecard")
    by (vm_compute; repeat split; discriminate).
  assert (H3 : names demo_db "eve" 5) by (split; [discriminate | reflexivity]).
  assert (H4 : In 5 (alive (the_game demo_world)))
    by (vm_compute; do 4 right; left; reflexivity).
  assert (H5 : 5 <> 4) by discriminate.
  split; [exact H1|]. split; [exact H2|]. split; [exact H3|].
  split; [exact H4|]. split; [exact H5|].
  exact (proj1 (exchange_swaps_hands_only demo_db "g1" 4 "eve" 5 []
                  (the_game demo_world) H1 H2 H3 H4 H5)).
Defined.

(** * Further properties of the code *)

(** ** The deck and the deal *)

(** X1: whatever the draws, [make_new_deck] returns a permutation of the
    fixed 32 cards: five copies of each of the six main cards, one
    [killcard], one [accusatecard] and nothing else. *)
Theorem make_new_deck_multiset r :
  Permutation unshuffled_deck (fst (make_new_deck r)) /\
  List.length (fst (make_new_deck r)) = 32%nat /\
  (forall c, In c main_cards -> count c (fst (make_new_deck r)) = 5%nat) /\
  count "killcard" (fst (make_new_deck r)) = 1%nat /\
  count "accusatecard" (fst (make_new_deck r)) = 1%nat /\
  (forall c, In c (fst (make_new_deck r)) -> In c CARD_FILES).
Proof.
  assert (Hc : forall c, count c (fst (make_new_deck r)) = count c unshuffled_deck)
    by (intros c; apply count_make_new_deck).
  assert (Hp : Permutation unshuffled_deck (fst (make_new_deck r))).
  { apply (Permutation_count_occ string_dec). intros c. symmetry. apply Hc. }
  split; [exact Hp|]. split; [apply make_new_deck_length|].
  split; [|split; [|split]].
  - intros c Hin. rewrite Hc.
    simpl in Hin.
    destruct Hin as [<-|[<-|[<-|[<-|[<-|[<-|[]]]]]]]; reflexivity.
  - rewrite Hc. reflexivity.
  - rewrite Hc. reflexivity.
  - intros c Hin. apply (Permutation_in c (Permutation_sym Hp)) in Hin.
    simpl in Hin. simpl.
    repeat (destruct Hin as [<-|Hin]; [tauto|]). contradiction.
Qed.

Lemma deal_length ps : forall hs dk hs' dk',
  deal ps hs dk = Some (hs', dk') ->
  (List.length dk' + 3 * List.length ps = List.length dk)%nat.
Proof.
  induction ps as [|p ps IH]; cbn [deal]; intros hs dk hs' dk' E.
  - injection E as <- <-. simpl. lia.
  - destruct (py_pop_n 3 dk) as [[h dk1]|] eqn:Ep; [|discriminate].
    apply IH in E. apply py_pop_n_length in Ep. simpl List.length. lia.
Qed.

(** X2: [create_game_for_players] fails (the [IndexError] of [deck.pop()]
    on an empty deck) exactly when more than ten players are to be dealt
    three cards each from the 32-card deck; with up to ten players it
    returns a session. *)
Theorem create_game_fails_iff_deck_runs_out new_id now r ps w :
  create_game_for_players new_id now r ps w = None <-> (10 < List.length ps)%nat.
Proof.
  unfold create_game_for_players.
  destruct (make_new_deck r) as [dk0 r'] eqn:Ed.
  assert (Hd : List.length dk0 = 32%nat).
  { pose proof (make_new_deck_length r) as H. rewrite Ed in H. exact H. }
  destruct (deal ps [] dk0) as [[hs dk]|] eqn:E.
  - apply deal_length in E. split; [discriminate | lia].
  - split; [|reflexivity]. intros _.
    destruct (Nat.le_gt_cases (List.length ps) 10) as [Hle|Hgt]; [|exact Hgt].
    destruct (deal_some ps [] dk0) as (hs & dk & E'); [lia|]. congruence.
Qed.

Lemma dset_keys_new {V} (k : Z) (v : V) d :
  dget k d = None -> map fst (dset k v d) = map fst d ++ [k].
Proof.
  induction d as [|[k' v'] d IH]; simpl; [reflexivity|].
  change (py_eqb k k') with (Z.eqb k k').
  destruct (Z.eqb k k'); [discriminate|].
  intros E. simpl. rewrite IH by exact E. reflexivity.
Qed.

Lemma deal_hands ps : forall hs dk hs' dk',
  NoDup ps -> (forall p, In p ps -> dget p hs = None) ->
  deal ps hs dk = Some (hs', dk') ->
  map fst hs' = map fst hs ++ ps /\
  (forall p, In p ps -> exists h, dget p hs' = Some h /\ List.length h = 3%nat) /\
  (forall p, ~ In p ps -> dget p hs' = dget p hs).
Proof.
  induction ps as [|p ps IH]; cbn [deal]; intros hs dk hs' dk' Hnd Hfresh E.
  - injection E as <- <-. rewrite app_nil_r.
    split; [reflexivity|]. split; [intros p [] | reflexivity].
  - destruct (py_pop_n 3 dk) as [[h dk1]|] eqn:Ep; [|discriminate].
    inversion Hnd as [|? ? Hp Hnd']; subst.
    apply py_pop_n_length in Ep. destruct Ep as [Hh _].
    apply IH in E; [|exact Hnd'|].
    + destruct E as (Hk & Hin & Hout).
      split; [|split].
      * rewrite Hk, dset_keys_new by (apply Hfresh; left; reflexivity).
        rewrite <- app_assoc. reflexivity.
      * intros q [<-|Hq]; [|apply Hin; exact Hq].
        exists h. split; [|exact Hh].
        rewrite (Hout p Hp). apply dget_dset_same.
      * intros q Hq. rewrite Hout by (intros Hi; apply Hq; right; exact Hi).
        apply dget_dset_other. intros ->. apply Hq. left. reflexivity.
    + intros q Hq. rewrite dget_dset_other.
      * apply Hfresh. right. exact Hq.
      * intros ->. contradiction.
Qed.

Lemma find_killer_some hs k :
  find_killer hs = Some k -> exists h, In (k, h) hs /\ In "killcard"%string h.
Proof.
  induction hs as [|[p h] hs IH]; simpl; [discriminate|].
  destruct (py_in "killcard"%string h) eqn:Eh.
  - intros E. injection E as <-. exists h. split; [left; reflexivity|].
    apply py_in_In. exact Eh.
  - intros E. destruct (IH E) as (h' & Hin & Hk). exists h'. split; [right|]; assumption.
Qed.

Lemma find_killer_none hs :
  find_killer hs = None -> forall k h, In (k, h) hs -> ~ In "killcard"%string h.
Proof.
  induction hs as [|[p h] hs IH]; simpl; [tauto|].
  destruct (py_in "killcard"%string h) eqn:Eh; [discriminate|].
  intros E k h' [Heq|Hin].
  - injection Heq as <- <-. apply py_in_false. exact Eh.
  - eapply IH; eauto.
Qed.

Lemma In_dget {V} (d : dict Z V) k v :
  NoDup (map fst d) -> In (k, v) d -> dget k d = Some v.
Proof.
  induction d as [|[k' v'] d IH]; simpl; [tauto|].
  intros Hnd [Heq|Hin].
  - injection Heq as <- <-. change (py_eqb k' k') with (Z.eqb k' k').
    rewrite Z.eqb_refl. reflexivity.
  - inversion Hnd as [|? ? Hk Hnd']; subst.
    change (py_eqb k k') with (Z.eqb k k').
    destruct (Z.eqb_spec k k') as [->|Hne].
    + exfalso. apply Hk. apply (in_map fst) in Hin. exact Hin.
    + apply IH; assumption.
Qed.

Lemma count_pos c l : In c l <-> (0 < count c l)%nat.
Proof. unfold count. apply (count_occ_In string_dec). Qed.

Lemma hands_count_entry c (hs : dict Z (list string)) k h :
  In (k, h) hs -> (count c h <= hands_count c hs)%nat.
Proof.
  unfold hands_count. induction hs as [|[k' h'] hs IH]; simpl; [tauto|].
  intros [Heq|Hin].
  - injection Heq as <- <-. lia.
  - specialize (IH Hin). lia.
Qed.

Lemma hands_count_two_entries c (hs : dict Z (list string)) k1 h1 k2 h2 :
  In (k1, h1) hs -> In (k2, h2) hs -> k1 <> k2 ->
  (count c h1 + count c h2 <= hands_count c hs)%nat.
Proof.
  unfold hands_count. induction hs as [|[k' h'] hs IH]; simpl; [tauto|].
  intros [E1|I1] [E2|I2] Hne.
  - congruence.
  - injection E1 as <- <-. pose proof (hands_count_entry c hs k2 h2 I2) as H.
    unfold hands_count in H. lia.
  - injection E2 as <- <-. pose proof (hands_count_entry c hs k1 h1 I1) as H.
    unfold hands_count in H. lia.
  - specialize (IH I1 I2 Hne). lia.
Qed.

Lemma register_players_spec ps gid : forall (m : dict Z string) p,
  dget p (register_players ps gid m)
  = if py_in p ps then Some gid else dget p m.
Proof.
  induction ps as [|q ps IH]; intros m p; simpl; [reflexivity|].
  rewrite IH, dget_dset.
  change (py_eqb p q) with (Z.eqb p q).
  destruct (py_in p ps); destruct (Z.eqb p q); reflexivity.
Qed.

(** X3: a session created for distinct players.  Every participant is
    alive and holds exactly three cards, the deck keeps the other
    [32 - 3n], the used pile, the shield flags and the log are empty.  The
    killer is the participant whose hand holds the [killcard], and there is
    no killer exactly when the [killcard] stayed in the deck.  The session is
    stored under its id and every participant is pointed to it; the pointers
    of all other players are left as they were.  So the players pointed to
    the id afterwards are the participants and those who were pointed to it
    before (none when the id was not in use: then exactly the participants
    are pointed to the new session). *)
Theorem create_game_deal new_id now r ps w g w' :
  NoDup ps -> create_game_for_players new_id now r ps w = Some (g, w') ->
  players g = ps /\ alive g = ps /\ map fst (hands g) = ps /\
  (forall p, In p ps -> List.length (hand_of g p) = 3%nat) /\
  (List.length (deck g) + 3 * List.length ps = 32)%nat /\
  used g = [] /\ shields_equipped g = [] /\ log g = [] /\
  finished g = false /\ winner g = None /\
  (forall k, killer g = Some k <-> In k ps /\ In "killcard"%string (hand_of g k)) /\
  (killer g = None <-> In "killcard"%string (deck g)) /\
  dget new_id (games w') = Some g /\
  (forall p, In p ps -> dget p (user_to_game w') = Some new_id) /\
  (forall p, ~ In p ps -> dget p (user_to_game w') = dget p (user_to_game w)) /\
  (forall p, dget p (user_to_game w') = Some new_id <->
             In p ps \/ dget p (user_to_game w) = Some new_id) /\
  ((forall p, dget p (user_to_game w) <> Some new_id) ->
   forall p, dget p (user_to_game w') = Some new_id <-> In p ps).
Proof.
  intros Hnd Ec.
  pose proof (create_game_fields _ _ _ _ _ _ _ Ec)
    as (Hid & Hp & Ha & Hu & Hs & Hl & Hf & Hw & _ & Eg & Em).
  revert Ec. unfold create_game_for_players.
  destruct (make_new_deck r) as [dk0 r'] eqn:Ed.
  assert (Hd : List.length dk0 = 32%nat).
  { pose proof (make_new_deck_length r) as H. rewrite Ed in H. exact H. }
  assert (Hk0 : count "killcard" dk0 = 1%nat).
  { pose proof (count_make_new_deck "killcard" r) as H. rewrite Ed in H. exact H. }
  destruct (deal ps [] dk0) as [[hs dk]|] eqn:E; [|discriminate].
  intros Ec. injection Ec as Eg' Ew'.
  pose proof (deal_length _ _ _ _ _ E) as Hlen.
  destruct (deal_count "killcard" ps [] dk0 hs dk Hnd (fun _ _ => eq_refl) E)
    as [Hcount _].
  destruct (deal_hands ps [] dk0 hs dk Hnd (fun _ _ => eq_refl) E)
    as (Hkeys & Hhand & _).
  simpl in Hkeys. change (hands_count "killcard" []) with 0%nat in Hcount.
  rewrite Hk0 in Hcount.
  assert (Hnk : NoDup (map fst hs)) by (rewrite Hkeys; exact Hnd).
  assert (Hhands : hands g = hs) by (rewrite <- Eg'; reflexivity).
  assert (Hdeck : deck g = dk) by (rewrite <- Eg'; reflexivity).
  assert (Hkiller : killer g = find_killer hs) by (rewrite <- Eg'; reflexivity).
  assert (Hof : forall p h, In (p, h) hs -> hand_of g p = h).
  { intros p h Hin. unfold hand_of, dget_default. rewrite Hhands.
    rewrite (In_dget hs p h Hnk Hin). reflexivity. }
  assert (Hentry : forall p, In p ps -> In (p, hand_of g p) hs).
  { intros p Hin. destruct (Hhand p Hin) as (h & Eh & _).
    unfold hand_of, dget_default. rewrite Hhands, Eh. apply dget_In. exact Eh. }
  split; [exact Hp|]. split; [exact Ha|].
  split; [rewrite Hhands; exact Hkeys|].
  split.
  { intros p Hin. destruct (Hhand p Hin) as (h & Eh & Hh).
    unfold hand_of, dget_default. rewrite Hhands, Eh. exact Hh. }
  split; [rewrite Hdeck; lia|].
  split; [exact Hu|]. split; [exact Hs|]. split; [exact Hl|].
  split; [exact Hf|]. split; [exact Hw|].
  assert (Hpoint : forall p, dget p (user_to_game w') = Some new_id <->
                             In p ps \/ dget p (user_to_game w) = Some new_id).
  { intros p. rewrite Em, register_players_spec.
    destruct (py_in p ps) eqn:Hin.
    - apply py_in_In in Hin. tauto.
    - apply py_in_false in Hin. tauto. }
  split; [|split; [|split; [|split; [|split; [|split]]]]].
  - intros k. rewrite Hkiller. split.
    + intros Ek. destruct (find_killer_some hs k Ek) as (h & Hin & Hkc).
      split.
      * rewrite <- Hkeys. apply (in_map fst) in Hin. exact Hin.
      * rewrite (Hof k h Hin). exact Hkc.
    + intros [Hin Hkc].
      destruct (find_killer hs) as [k'|] eqn:Ek.
      * destruct (find_killer_some hs k' Ek) as (h' & Hin' & Hkc').
        destruct (Z.eq_dec k' k) as [->|Hne]; [reflexivity|]. exfalso.
        pose proof (hands_count_two_entries "killcard" hs k' h' k (hand_of g k)
                      Hin' (Hentry k Hin) Hne) as H2.
        apply count_pos in Hkc. apply count_pos in Hkc'. lia.
      * exfalso. apply (find_killer_none hs Ek k (hand_of g k) (Hentry k Hin)).
        exact Hkc.
  - rewrite Hkiller, Hdeck. split.
    + intros Ek. apply count_pos.
      assert (Hz : hands_count "killcard" hs = 0%nat).
      { unfold hands_count.
        assert (Hall : forall kv, In kv hs -> count "killcard" (snd kv) = 0%nat).
        { intros [k h] Hin. simpl.
          pose proof (find_killer_none hs Ek k h Hin) as Hn.
          destruct (count "killcard" h) eqn:Ec0; [reflexivity|].
          exfalso. apply Hn. apply count_pos. lia. }
        clear - Hall. induction hs as [|kv hs IH]; simpl; [reflexivity|].
        rewrite (Hall kv (or_introl eq_refl)), IH; [reflexivity|].
        intros kv' Hin. apply Hall. right. exact Hin. }
      lia.
    + intros Hin. apply count_pos in Hin.
      destruct (find_killer hs) as [k|] eqn:Ek; [|reflexivity]. exfalso.
      destruct (find_killer_some hs k Ek) as (h & Hin' & Hkc).
      pose proof (hands_count_entry "killcard" hs k h Hin') as Hle.
      apply count_pos in Hkc. lia.
  - rewrite <- Ew'. simpl. rewrite Eg'. apply dget_dset_same.
  - intros p Hin. rewrite Em, register_players_spec.
    apply py_in_In in Hin. rewrite Hin. reflexivity.
  - intros p Hin. rewrite Em, register_players_spec.
    apply py_in_false in Hin. rewrite Hin. reflexivity.
  - exact Hpoint.
  - intros Hfresh p. rewrite Hpoint. split; [|tauto].
    intros [Hin|Hold]; [exact Hin|]. exfalso. exact (Hfresh p Hold).
Qed.

Lemma create_game_deal_witness :
  NoDup [6; 7; 8; 9; 10] /\
  create_game_for_players "g1" 0 [] [6; 7; 8; 9; 10] demo_world <> None /\
  forall g w',
    create_game_for_players "g1" 0 [] [6; 7; 8; 9; 10] demo_world = Some (g, w') ->
    players g = [6; 7; 8; 9; 10] /\
    dget 6 (user_to_game w') = Some "g1"%string /\
    dget 1 (user_to_game w') = Some "g1"%string.
Proof.
  assert (H1 : NoDup [6; 7; 8; 9; 10])
    by (repeat constructor; simpl; intuition discriminate).
  assert (H2 : dget 1 (user_to_game demo_world) = Some "g1"%string)
    by (vm_compute; reflexivity).
  split; [exact H1|]. split; [vm_compute; discriminate|].
  intros g w' E.
  pose proof (create_game_deal "g1" 0 [] [6; 7; 8; 9; 10] demo_world g w' H1 E)
    as (Hp & _ & _ & _ & _ & _ & _ & _ & _ & _ & _ & _ & _ & _ & _ & Hpoint & _).
  split; [exact Hp|].
  split; [apply Hpoint; left; simpl; tauto | apply Hpoint; right; exact H2].
Defined.

(** ** An induction principle for the sessions of reachable states *)

(** A property of sessions that holds of every session dealt to five
    distinct registered players and is kept by every call that passes the
    guards holds of every session of every reachable state. *)
Lemma reachable_sessions_ind (P : Game -> Prop) :
  (forall new_id now r ps w g w',
     NoDup ps -> List.length ps = MATCH_SIZE -> (forall p, In p ps -> 0 < p) ->
     create_game_for_players new_id now r ps w = Some (g, w') -> P g) ->
  (forall db uid card target r g,
     db_wf db -> 0 < uid -> game_ok g -> supply_ok g -> P g ->
     accepted g uid card -> P (end_checks (apply_card db uid card target r g))) ->
  forall w, reachable w -> forall gid g, dget gid (games w) = Some g -> P g.
Proof.
  intros Hnew Hplay w Hr. induction Hr as [|w w' Hr IH Hs].
  - intros gid g. discriminate.
  - pose proof (reachable_ok w Hr) as Hok.
    destruct Hs as [db sess new_id now r w Hwf | db sess w Hwf
                   | db sess gid0 form_card target r w Hwf].
    + destruct (current_user db sess) as [user|] eqn:Hu;
        [|unfold join_queue; rewrite Hu; exact IH].
      pose proof (current_user_id db sess user Hwf Hu) as Hpos.
      destruct (join_queue_spec db sess new_id now r w user (ok_queue_short w Hok) Hu)
        as (H1 & H2 & H3).
      destruct (in_dec Z.eq_dec (user_id user) (matchmaking_queue w)) as [Hin|Hin].
      * rewrite (H1 Hin). exact IH.
      * destruct (Nat.eq_dec (S (List.length (matchmaking_queue w))) MATCH_SIZE)
          as [He|Hne].
        -- destruct (H3 Hin He) as (g0 & w0 & Ec & ->). cbn [snd].
           assert (HP : P g0).
           { apply (Hnew _ _ _ _ _ _ _) with (4 := Ec).
             - apply NoDup_app; [apply (ok_queue_nodup w Hok)
                                | repeat constructor; simpl; tauto |].
               intros x Hx [<-|[]]. contradiction.
             - rewrite length_app. simpl. lia.
             - intros p Hp. apply in_app_or in Hp.
               destruct Hp as [Hp|[<-|[]]]; [apply (ok_queue_ids w Hok) | ]; assumption. }
           apply create_game_fields in Ec.
           destruct Ec as (_ & _ & _ & _ & _ & _ & _ & _ & _ & Eg & _).
           simpl in Eg. rewrite Eg.
           intros gid g. rewrite dget_dset.
           destruct (py_eqb gid new_id); [intros E; injection E as <-; exact HP|].
           apply IH.
        -- pose proof (ok_queue_short w Hok).
           rewrite (H2 Hin) by lia. exact IH.
    + unfold leave_queue. destruct (current_user db sess); exact IH.
    + unfold play_card.
      destruct (current_user db sess) as [user|] eqn:Hu; [|exact IH].
      pose proof (current_user_id db sess user Hwf Hu) as Hpos.
      destruct (dget gid0 (games w)) as [g0|] eqn:Eg; [|exact IH].
      assert (HP : P (snd (play_card_in db gid0 (user_id user) form_card target r g0))).
      { destruct (play_card_in_cases db gid0 (user_id user) form_card target r g0)
          as [-> | (card & _ & Hacc & ->)]; [exact (IH gid0 g0 Eg)|].
        apply Hplay; try assumption.
        - exact (ok_games w Hok gid0 g0 Eg).
        - exact (reachable_supply w Hr gid0 g0 Eg).
        - exact (IH gid0 g0 Eg). }
      destruct (play_card_in db gid0 (user_id user) form_card target r g0) as [resp g'].
      cbn [snd games] in *.
      intros gid g. rewrite dget_dset.
      destruct (py_eqb gid gid0); [intros E; injection E as <-; exact HP|].
      apply IH.
Qed.

(** ** Matchmaking: leaving, rejoining and the status *)

Lemma filter_true_id_on_absent (x : Z) l :
  ~ In x l -> filter (fun p => negb (Z.eqb p x)) l = l.
Proof.
  induction l as [|y l IH]; simpl; [reflexivity|].
  intros Hn. destruct (Z.eqb_spec y x) as [->|Hne]; [tauto|].
  simpl. rewrite IH by tauto. reflexivity.
Qed.

Lemma py_remove_filter (x : Z) l :
  NoDup l -> py_remove x l = filter (fun p => negb (Z.eqb p x)) l.
Proof.
  induction 1 as [|y l Hy Hnd IH]; simpl; [reflexivity|].
  change (py_eqb x y) with (Z.eqb x y).
  rewrite (Z.eqb_sym y x).
  destruct (Z.eqb_spec x y) as [->|Hne]; simpl.
  - symmetry. apply filter_true_id_on_absent. exact Hy.
  - rewrite IH. reflexivity.
Qed.

Lemma py_remove_last (x : Z) l : ~ In x l -> py_remove x (l ++ [x]) = l.
Proof.
  induction l as [|y l IH]; simpl; intros Hn.
  - change (py_eqb x x) with (Z.eqb x x). rewrite Z.eqb_refl. reflexivity.
  - change (py_eqb x y) with (Z.eqb x y).
    destruct (Z.eqb_spec x y) as [->|Hne]; [tauto|].
    rewrite IH by tauto. reflexivity.
Qed.

(** X4: leaving the queue.  For a logged-in player and a queue without
    duplicates, [leave_queue] answers [left], keeps exactly the other
    players in their order, leaves the sessions and the player-to-session
    map alone, and a second call changes nothing more. *)
Theorem leave_queue_removes db sess w user :
  NoDup (matchmaking_queue w) ->
  current_user db sess = Some user ->
  let w' := snd (leave_queue db sess w) in
  fst (leave_queue db sess w) = json_left /\
  matchmaking_queue w'
  = filter (fun p => negb (Z.eqb p (user_id user))) (matchmaking_queue w) /\
  ~ In (user_id user) (matchmaking_queue w') /\
  (forall p, p <> user_id user ->
     (In p (matchmaking_queue w') <-> In p (matchmaking_queue w))) /\
  games w' = games w /\ user_to_game w' = user_to_game w /\
  leave_queue db sess w' = (json_left, w').
Proof.
  intros Hnd Hu w'.
  assert (Eq : matchmaking_queue w'
               = filter (fun p => negb (Z.eqb p (user_id user))) (matchmaking_queue w)).
  { subst w'. unfold leave_queue. rewrite Hu. cbn [snd matchmaking_queue].
    destruct (py_in (user_id user) (matchmaking_queue w)) eqn:Hin.
    - apply py_remove_filter. exact Hnd.
    - apply py_in_false in Hin. symmetry.
      apply filter_true_id_on_absent. exact Hin. }
  assert (Hout : ~ In (user_id user) (matchmaking_queue w')).
  { rewrite Eq. intros Hi. apply filter_In in Hi. destruct Hi as [_ Hi].
    rewrite Z.eqb_refl in Hi. discriminate. }
  split; [unfold leave_queue; rewrite Hu; reflexivity|].
  split; [exact Eq|]. split; [exact Hout|].
  split.
  { intros p Hp. rewrite Eq, filter_In.
    destruct (Z.eqb_spec p (user_id user)); [contradiction|]. simpl. tauto. }
  split; [subst w'; unfold leave_queue; rewrite Hu; reflexivity|].
  split; [subst w'; unfold leave_queue; rewrite Hu; reflexivity|].
  apply py_in_false in Hout.
  unfold leave_queue at 1. rewrite Hu. cbv zeta. rewrite Hout.
  destruct w'; reflexivity.
Qed.

Lemma leave_queue_removes_witness :
  NoDup (matchmaking_queue (mkWorld [1; 2; 3] [] [])) /\
  matchmaking_queue (snd (leave_queue demo_db (Some 2) (mkWorld [1; 2; 3] [] [])))
  = [1; 3].
Proof.
  assert (Hnd : NoDup (matchmaking_queue (mkWorld [1; 2; 3] [] []))).
  { simpl. repeat constructor; simpl; intuition discriminate. }
  split; [exact Hnd|].
  exact (proj1 (proj2 (leave_queue_removes demo_db (Some 2) (mkWorld [1; 2; 3] [] [])
                         (mkUser 2 "bob") Hnd eq_refl))).
Defined.

(** X5: joining and leaving again.  In a state that satisfies the world
    invariant, for a logged-in player a join followed by a leave restores
    the state exactly when the player was not queued before and the join
    does not complete a match: an already queued player ends up removed
    from the queue, and a completed match stays.  A queued player who
    leaves and joins again goes to the back of the queue. *)
Theorem join_then_leave_restores db sess new_id now r w user :
  world_ok w ->
  current_user db sess = Some user ->
  let uid := user_id user in
  (snd (leave_queue db sess (snd (join_queue db sess new_id now r w))) = w <->
   ~ In uid (matchmaking_queue w) /\
   (S (List.length (matchmaking_queue w)) < MATCH_SIZE)%nat) /\
  (In uid (matchmaking_queue w) ->
   matchmaking_queue
     (snd (join_queue db sess new_id now r (snd (leave_queue db sess w))))
   = py_remove uid (matchmaking_queue w) ++ [uid]).
Proof.
  intros Hok Hu uid.
  pose proof (ok_queue_short w Hok) as Hlt.
  destruct (join_queue_spec db sess new_id now r w user Hlt Hu) as (H1 & H2 & H3).
  assert (Hleave : forall w0,
            matchmaking_queue (snd (leave_queue db sess w0))
            = if py_in uid (matchmaking_queue w0)
              then py_remove uid (matchmaking_queue w0) else matchmaking_queue w0).
  { intros w0. unfold leave_queue. rewrite Hu. reflexivity. }
  split; [split|].
  - intros Hres.
    destruct (in_dec Z.eq_dec uid (matchmaking_queue w)) as [Hin|Hin].
    + exfalso. rewrite (H1 Hin) in Hres. cbn [snd] in Hres.
      apply (f_equal matchmaking_queue) in Hres. rewrite Hleave in Hres.
      pose proof (py_remove_length uid _ Hin) as Hl.
      apply py_in_In in Hin. rewrite Hin in Hres. rewrite Hres in Hl. lia.
    + split; [exact Hin|].
      destruct (Nat.eq_dec (S (List.length (matchmaking_queue w))) MATCH_SIZE)
        as [He|Hne]; [|lia].
      exfalso. destruct (H3 Hin He) as (g & w1 & Ec & Ej).
      rewrite Ej in Hres. cbn [snd] in Hres.
      apply create_game_fields in Ec.
      destruct Ec as (_ & _ & _ & _ & _ & _ & _ & _ & Eq & _).
      cbn [matchmaking_queue] in Eq.
      apply (f_equal matchmaking_queue) in Hres. rewrite Hleave, Eq in Hres.
      cbn [py_in] in Hres. rewrite <- Hres in He. unfold MATCH_SIZE in He.
      simpl in He. lia.
  - intros [Hin Hlen]. rewrite (H2 Hin Hlen).
    unfold leave_queue. rewrite Hu. cbn [snd matchmaking_queue games user_to_game].
    fold uid.
    assert (Hi : py_in uid (matchmaking_queue w ++ [uid]) = true).
    { apply py_in_In. apply in_or_app. right. left. reflexivity. }
    rewrite Hi, (py_remove_last uid _ Hin). destruct w; reflexivity.
  - intros Hin.
    pose proof (ok_queue_nodup w Hok) as Hnd.
    pose proof (py_remove_length uid _ Hin) as Hl.
    set (w1 := snd (leave_queue db sess w)).
    assert (Eq1 : matchmaking_queue w1 = py_remove uid (matchmaking_queue w)).
    { subst w1. rewrite Hleave. apply py_in_In in Hin. rewrite Hin. reflexivity. }
    assert (Hlt1 : (List.length (matchmaking_queue w1) < MATCH_SIZE)%nat)
      by (rewrite Eq1; lia).
    destruct (join_queue_spec db sess new_id now r w1 user Hlt1 Hu) as (_ & H2' & _).
    rewrite H2'.
    + cbn [snd matchmaking_queue]. rewrite Eq1. reflexivity.
    + rewrite Eq1. apply py_remove_gone. exact Hnd.
    + rewrite Eq1. lia.
Qed.

Lemma join_then_leave_restores_witness :
  world_ok four_queued /\
  current_user demo_db (Some 2) = Some (mkUser 2 "bob") /\
  snd (leave_queue demo_db (Some 2)
         (snd (join_queue demo_db (Some 2) "g1" 0 [] four_queued))) <> four_queued /\
  matchmaking_queue
    (snd (join_queue demo_db (Some 2) "g1" 0 []
            (snd (leave_queue demo_db (Some 2) four_queued))))
  = [1; 3; 4; 2] /\
  snd (leave_queue demo_db (Some 1)
         (snd (join_queue demo_db (Some 1) "g1" 0 [] init_world))) = init_world.
Proof.
  assert (H1 : world_ok four_queued).
  { apply reachable_ok. apply demo_joined_reachable. }
  assert (H2 : current_user demo_db (Some 2) = Some (mkUser 2 "bob")) by reflexivity.
  assert (H3 : matchmaking_queue four_queued = [1; 2; 3; 4])
    by (vm_compute; reflexivity).
  assert (Hin : In 2 (matchmaking_queue four_queued))
    by (rewrite H3; simpl; tauto).
  split; [exact H1|]. split; [exact H2|].
  pose proof (join_then_leave_restores demo_db (Some 2) "g1" 0 [] four_queued
                (mkUser 2 "bob") H1 H2) as [Hiff Hback].
  split; [|split].
  - intros E. apply Hiff in E. destruct E as [Hn _]. exact (Hn Hin).
  - rewrite (Hback Hin). cbn [user_id]. rewrite H3. reflexivity.
  - apply (proj1 (join_then_leave_restores demo_db (Some 1) "g1" 0 [] init_world
                    (mkUser 1 "ann") init_world_ok eq_refl)).
    split; [simpl; tauto | unfold MATCH_SIZE; simpl; lia].
Defined.

(** X6: the status after a match.  When the join of a logged-in player
    brings a queue of four to five and the fresh session id is not empty,
    [queue_status] afterwards reports an empty queue to everybody, the new
    session to each of the five matched players, and to any other
    logged-in player the session it reported before. *)
Theorem queue_status_after_match db sess new_id now r w user :
  (List.length (matchmaking_queue w) < MATCH_SIZE)%nat ->
  current_user db sess = Some user ->
  ~ In (user_id user) (matchmaking_queue w) ->
  S (List.length (matchmaking_queue w)) = MATCH_SIZE ->
  new_id <> ""%string ->
  let w' := snd (join_queue db sess new_id now r w) in
  forall sess_p user_p,
    current_user db sess_p = Some user_p ->
    (In (user_id user_p) (matchmaking_queue w ++ [user_id user]) ->
     queue_status db sess_p w' = json_status 0 (Some new_id)) /\
    (~ In (user_id user_p) (matchmaking_queue w ++ [user_id user]) ->
     exists o, queue_status db sess_p w
               = json_status (List.length (matchmaking_queue w)) o /\
               queue_status db sess_p w' = json_status 0 o).
Proof.
  intros Hlt Hu Hin Hlen Hid w' sess_p user_p Hp.
  destruct (join_queue_spec db sess new_id now r w user Hlt Hu) as (_ & _ & H3).
  destruct (H3 Hin Hlen) as (g & w1 & Ec & Ej).
  assert (Ew : w' = w1) by (subst w'; rewrite Ej; reflexivity).
  apply create_game_fields in Ec.
  destruct Ec as (_ & _ & _ & _ & _ & _ & _ & _ & Eq & _ & Em).
  simpl in Eq, Em.
  unfold queue_status. rewrite Hp, Ew, Eq, Em, register_players_spec.
  cbn [List.length]. split.
  - intros Hi. apply py_in_In in Hi. rewrite Hi.
    destruct (String.eqb_spec new_id ""); [contradiction | reflexivity].
  - intros Hi. apply py_in_false in Hi. rewrite Hi.
    eexists. split; reflexivity.
Qed.

Lemma queue_status_after_match_witness :
  queue_status demo_db (Some 2) demo_world = json_status 0 (Some "g1"%string).
Proof.
  refine (proj1 (queue_status_after_match demo_db (Some 5) "g1" 0 []
                   (mkWorld [1; 2; 3; 4] [] []) (mkUser 5 "eve")
                   _ eq_refl _ eq_refl _ (Some 2) (mkUser 2 "bob") eq_refl) _).
  - unfold MATCH_SIZE. simpl. lia.
  - simpl. intuition discriminate.
  - discriminate.
  - simpl. tauto.
Defined.

Lemma dget_dset_keeps {K V} `{PyEq K} (k k' : K) (v : V) d :
  dget k' d <> None -> dget k' (dset k v d) <> None.
Proof.
  rewrite dget_dset. destruct (py_eqb k' k); [discriminate | tauto].
Qed.

Lemma register_players_keeps ps gid (m : dict Z string) p :
  dget p m <> None -> dget p (register_players ps gid m) <> None.
Proof.
  rewrite register_players_spec. destruct (py_in p ps); [discriminate | tauto].
Qed.

(** X7: nothing is ever evicted.  No request removes a session from
    [games] or a player from [user_to_game]: a session id that resolves
    before a request resolves after it, and a player who was pointed to a
    session is still pointed to one. *)
Theorem registries_only_grow w w' :
  step w w' ->
  (forall gid, dget gid (games w) <> None -> dget gid (games w') <> None) /\
  (forall p, dget p (user_to_game w) <> None -> dget p (user_to_game w') <> None).
Proof.
  intros Hs.
  destruct Hs as [db sess new_id now r w Hwf | db sess w Hwf
                 | db sess gid0 form_card target r w Hwf].
  - unfold join_queue. destruct (current_user db sess) as [user|]; [|tauto].
    cbv zeta.
    destruct (Nat.leb MATCH_SIZE _); [|simpl; tauto].
    destruct (pop_front_n MATCH_SIZE _) as [[ps q2]|]; [|simpl; tauto].
    destruct (create_game_for_players new_id now r ps _) as [[g w3]|] eqn:Ec;
      [|simpl; tauto].
    apply create_game_fields in Ec.
    destruct Ec as (_ & _ & _ & _ & _ & _ & _ & _ & _ & Eg & Em).
    cbn [snd]. rewrite Eg, Em. cbn [games user_to_game]. split.
    + intros gid. apply dget_dset_keeps.
    + intros p. apply register_players_keeps.
  - unfold leave_queue. destruct (current_user db sess); simpl; tauto.
  - unfold play_card. destruct (current_user db sess) as [user|]; [|tauto].
    destruct (dget gid0 (games w)) as [g0|]; [|tauto].
    destruct (play_card_in db gid0 (user_id user) form_card target r g0) as [resp g'].
    cbn [snd games user_to_game]. split; [|tauto].
    intros gid. apply dget_dset_keeps.
Qed.

Lemma registries_only_grow_witness :
  step demo_world (snd (leave_queue demo_db (Some 1) demo_world)) /\
  dget "g1"%string (games (snd (leave_queue demo_db (Some 1) demo_world))) <> None.
Proof.
  assert (Hs : step demo_world (snd (leave_queue demo_db (Some 1) demo_world))).
  { apply step_leave. exact demo_db_wf. }
  split; [exact Hs|].
  apply (proj1 (registries_only_grow _ _ Hs) "g1"%string).
  vm_compute. discriminate.
Defined.

(** ** The [play_card] handler: what a call can touch *)

Lemma dset_keys_same {K V} `{PyEq K} (k : K) (v : V) d :
  dget k d <> None -> map fst (dset k v d) = map fst d.
Proof.
  induction d as [|[k' v'] d IH]; simpl; [congruence|].
  destruct (py_eqb_spec k k') as [->|Hne]; [reflexivity|].
  intros Hd. simpl. rewrite IH by exact Hd. reflexivity.
Qed.

(** The answer of [play_card_in] tells whether the call passed the guards. *)
Lemma play_card_in_response db gid uid form_card target r g :
  (fst (play_card_in db gid uid form_card target r g) = redirect_game_room gid None /\
   exists card, form_card = Some card /\ accepted g uid card /\
     snd (play_card_in db gid uid form_card target r g)
     = end_checks (apply_card db uid card target r g)) \/
  (fst (play_card_in db gid uid form_card target r g) <> redirect_game_room gid None /\
   snd (play_card_in db gid uid form_card target r g) = g).
Proof.
  unfold play_card_in.
  destruct (py_in uid (players g)) eqn:Hp; cbn [negb];
    [|right; split; [discriminate | reflexivity]].
  destruct (py_in uid (alive g)) eqn:Ha; cbn [negb];
    [|right; split; [discriminate | reflexivity]].
  destruct form_card as [card|]; [|right; split; [discriminate | reflexivity]].
  destruct (String.eqb_spec card "") as [->|Hc]; cbn [orb];
    [right; split; [discriminate | reflexivity]|].
  destruct (py_in card (hand_of g uid)) eqn:Hh; cbn [negb];
    [|right; split; [discriminate | reflexivity]].
  left. split; [reflexivity|]. exists card. repeat split; assumption.
Qed.

(** X8: a call of [play_card] touches one session at most.  The queue, the
    player-to-session map, the set of session ids and every other session
    stay as they are.  Any answer other than the plain redirect to the game
    room (the login redirect, an unknown session, a player who is not a
    participant or is eliminated, a card that is not in the hand) means that
    the whole state is unchanged; the plain redirect is given exactly when
    the user is logged in, the session exists and the call passes the three
    guards. *)
Theorem play_card_touches_one_session db sess gid form_card target r w :
  let out := play_card db sess gid form_card target r w in
  matchmaking_queue (snd out) = matchmaking_queue w /\
  user_to_game (snd out) = user_to_game w /\
  map fst (games (snd out)) = map fst (games w) /\
  (forall gid', gid' <> gid -> dget gid' (games (snd out)) = dget gid' (games w)) /\
  (fst out <> redirect_game_room gid None -> snd out = w) /\
  (fst out = redirect_game_room gid None <->
   exists user g card,
     current_user db sess = Some user /\ dget gid (games w) = Some g /\
     form_card = Some card /\ accepted g (user_id user) card).
Proof.
  intros out. subst out. unfold play_card.
  destruct (current_user db sess) as [user|] eqn:Hu.
  2:{ cbn [fst snd]. repeat apply conj; try reflexivity; try tauto.
      - intros E; discriminate.
      - intros (u & g & c & E & _); discriminate. }
  destruct (dget gid (games w)) as [g|] eqn:Eg.
  2:{ cbn [fst snd]. repeat apply conj; try reflexivity; try tauto.
      - intros E; discriminate.
      - intros (u & g & c & _ & E & _); discriminate. }
  pose proof (play_card_in_response db gid (user_id user) form_card target r g) as Hresp.
  destruct (play_card_in db gid (user_id user) form_card target r g) as [resp g']
    eqn:Epc.
  cbn [fst snd matchmaking_queue user_to_game games] in *.
  split; [reflexivity|]. split; [reflexivity|].
  split; [apply dset_keys_same; congruence|].
  split; [intros gid' Hne; apply dget_dset_other; exact Hne|].
  destruct Hresp as [(Er & card & Ef & Hacc & _) | (Er & Eg')].
  - split; [intros Hn; contradiction|].
    split; [intros _|intros _; exact Er].
    exists user, g, card. repeat split; try assumption; apply Hacc.
  - split.
    + intros _. subst g'. rewrite (dset_same_value gid g (games w) Eg).
      destruct w; reflexivity.
    + split; [intros E; contradiction|].
      intros (u & g0 & c & Eu & Eg0 & Ef & Hacc). exfalso.
      injection Eu as <-. injection Eg0 as <-.
      subst form_card.
      rewrite (play_card_in_accepted db gid (user_id user) c target r g Hacc) in Epc.
      injection Epc as <- _. apply Er. reflexivity.
Qed.

(** No card changes the id, the participants or the starting time. *)
Lemma apply_card_identity db uid card target r g :
  game_id (apply_card db uid card target r g) = game_id g /\
  players (apply_card db uid card target r g) = players g /\
  started_at (apply_card db uid card target r g) = started_at g.
Proof.
  repeat apply conj; engine_cases; reflexivity.
Qed.

Lemma end_checks_started g : started_at (end_checks g) = started_at g.
Proof.
  unfold end_checks.
  destruct (truthy_id (killer g) && winner_by_killer (alive g) (killer g));
    [reflexivity|].
  destruct (killer g); [reflexivity|].
  destruct (all_hands_empty g); reflexivity.
Qed.

(** X9: the identity of a session and its log.  No call of [play_card]
    changes the id, the list of participants or the starting time of the
    session.  The log is append-only: a call that passes the guards adds
    exactly one entry at the end, whatever the card and the target, and any
    other call leaves the session as it is. *)
Theorem play_card_in_log db gid uid form_card target r g :
  let out := play_card_in db gid uid form_card target r g in
  game_id (snd out) = game_id g /\ players (snd out) = players g /\
  started_at (snd out) = started_at g /\
  ((fst out = redirect_game_room gid None /\
    exists msg, log (snd out) = log g ++ [msg]) \/
   (fst out <> redirect_game_room gid None /\ snd out = g)).
Proof.
  intros out. subst out.
  destruct (play_card_in_response db gid uid form_card target r g)
    as [(Er & card & Ef & Hacc & ->) | (Er & ->)].
  - destruct (end_checks_fields (apply_card db uid card target r g))
      as (E1 & E2 & _ & _ & _ & _ & _ & E3).
    destruct (apply_card_identity db uid card target r g) as (I1 & I2 & I3).
    rewrite E1, E2, E3, end_checks_started, I1, I2, I3.
    repeat split. left. split; [exact Er|].
    apply apply_card_log.
  - repeat split. right. split; [exact Er | reflexivity].
Qed.

(** X10: nobody comes back.  Whatever the call, every player alive after
    it was alive before it, and at most one player is removed from the
    alive list: the list is either unchanged or has lost one of its
    members. *)
Theorem alive_only_shrinks db gid uid form_card target r g :
  let g' := snd (play_card_in db gid uid form_card target r g) in
  incl (alive g') (alive g) /\
  (List.length (alive g) <= S (List.length (alive g')))%nat /\
  (alive g' = alive g \/
   exists t, In t (alive g) /\ alive g' = py_remove t (alive g)).
Proof.
  intros g'.
  assert (H3 : alive g' = alive g \/
               exists t, In t (alive g) /\ alive g' = py_remove t (alive g)).
  { subst g'.
    destruct (play_card_in_cases db gid uid form_card target r g)
      as [-> | (card & _ & Hacc & ->)]; [left; reflexivity|].
    destruct (end_checks_fields (apply_card db uid card target r g))
      as (_ & _ & -> & _).
    destruct (apply_card_outcome db uid card target r g)
      as [Ha _ _ _ | _ Ha _ _ _ | t _ Ht _ Ha _ _ _ | t Ht _ Ha _ _ _ | t _ _ Ha _ _ _].
    - left; exact Ha.
    - left; exact Ha.
    - right; exists t; split; assumption.
    - right; exists t; split; assumption.
    - right; exists uid; split; [|exact Ha].
      apply py_in_In. apply Hacc. }
  destruct H3 as [E | (t & Ht & E)].
  - rewrite E. split; [apply incl_refl|]. split; [lia | left; reflexivity].
  - rewrite E. split; [intros x Hx; eapply py_remove_In; exact Hx|].
    split; [rewrite (py_remove_length t _ Ht); lia|].
    right. exists t. split; [exact Ht | reflexivity].
Qed.

(** ** The shape of a session is kept *)

Lemma dget_key_In {V} (d : dict Z V) k : In k (map fst d) -> dget k d <> None.
Proof.
  induction d as [|[k' v'] d IH]; simpl; [tauto|].
  change (py_eqb k k') with (Z.eqb k k').
  destruct (Z.eqb_spec k k') as [->|Hne]; [discriminate|].
  intros [E|Hin]; [congruence | exact (IH Hin)].
Qed.

Lemma dget_default_dset p k v (h : dict Z (list string)) :
  dget_default p [] (dset k v h) = if Z.eqb p k then v else dget_default p [] h.
Proof.
  unfold dget_default. rewrite dget_dset.
  change (py_eqb p k) with (Z.eqb p k). destruct (Z.eqb p k); reflexivity.
Qed.

Lemma shape_ext g g' :
  players g' = players g -> hands g' = hands g -> alive g' = alive g ->
  killer g' = killer g -> session_shape g -> session_shape g'.
Proof.
  intros Ep Eh Ea Ek [H1 H2 H3 H4 H5 H6].
  constructor; unfold hand_of in *; rewrite ?Ep, ?Eh, ?Ea, ?Ek; assumption.
Qed.

Lemma shape_add_log m g : session_shape g -> session_shape (add_log m g).
Proof. apply shape_ext; reflexivity. Qed.

Lemma shape_discard c g : session_shape g -> session_shape (discard c g).
Proof. apply shape_ext; reflexivity. Qed.

Lemma shape_set_used x g : session_shape g -> session_shape (set_used x g).
Proof. apply shape_ext; reflexivity. Qed.

Lemma shape_set_deck x g : session_shape g -> session_shape (set_deck x g).
Proof. apply shape_ext; reflexivity. Qed.

Lemma shape_set_result f x g : session_shape g -> session_shape (set_result f x g).
Proof. apply shape_ext; reflexivity. Qed.

Lemma shape_set_shields x g : session_shape g -> session_shape (set_shields x g).
Proof. apply shape_ext; reflexivity. Qed.

Lemma shape_set_killer x g :
  (forall k, x = Some k -> In k (players g)) ->
  session_shape g -> session_shape (set_killer x g).
Proof.
  intros Hx [H1 H2 H3 H4 H5 H6]. constructor; try assumption.
Qed.

Lemma shape_set_hand k v g :
  In k (alive g) -> session_shape g ->
  session_shape (set_hands (dset k v (hands g)) g).
Proof.
  intros Hk [H1 H2 H3 H4 H5 H6]. constructor; try assumption.
  - cbn [hands set_hands players]. rewrite <- H3. apply dset_keys_same.
    apply dget_key_In. rewrite H3. apply H4. exact Hk.
  - intros p Hp. unfold hand_of. cbn [hands set_hands alive] in *.
    rewrite dget_default_dset.
    destruct (Z.eqb_spec p k) as [->|Hne]; [contradiction|].
    apply H6. exact Hp.
Qed.

Lemma shape_eliminate t g :
  In t (alive g) -> session_shape g -> session_shape (eliminate t g).
Proof.
  intros Ht [H1 H2 H3 H4 H5 H6]. constructor; try assumption.
  - change (map fst (dset t [] (hands g)) = players g).
    rewrite <- H3. apply dset_keys_same.
    apply dget_key_In. rewrite H3. apply H4. exact Ht.
  - change (incl (py_remove t (alive g)) (players g)).
    intros x Hx. apply H4. eapply py_remove_In. exact Hx.
  - intros p Hp.
    change (~ In p (py_remove t (alive g))) in Hp.
    change (dget_default p [] (dset t [] (hands g)) = []).
    rewrite dget_default_dset.
    destruct (Z.eqb_spec p t) as [->|Hne]; [reflexivity|].
    apply H6. intros Hin. apply Hp. apply py_remove_In_neq; assumption.
Qed.

Ltac shape_steps :=
  repeat match goal with
         | |- session_shape (add_log _ _) => apply shape_add_log
         | |- session_shape (discard _ _) => apply shape_discard
         | |- session_shape (set_used _ _) => apply shape_set_used
         | |- session_shape (set_deck _ _) => apply shape_set_deck
         | |- session_shape (set_result _ _ _) => apply shape_set_result
         | |- session_shape (set_shields _ _) => apply shape_set_shields
         | |- session_shape (set_killer _ _) => apply shape_set_killer
         | |- session_shape (set_hands (dset _ _ (hands _)) _) => apply shape_set_hand
         | |- session_shape (eliminate _ _) => apply shape_eliminate
         end.

Lemma apply_card_shape db uid card target r g :
  In uid (alive g) -> session_shape g ->
  session_shape (apply_card db uid card target r g).
Proof.
  intros Hu Hs. unfold apply_card.
  pose proof (shape_set_hand uid (py_remove card (hand_of g uid)) g Hu Hs) as H0.
  set (g0 := set_hands (dset uid (py_remove card (hand_of g uid)) (hands g)) g) in *.
  assert (Hu0 : In uid (alive g0)) by exact Hu.
  clearbody g0. clear Hs Hu g.
  destruct (String.eqb card "statecard");
    [unfold play_state; shape_steps; exact H0|].
  destruct (String.eqb card "searchcard").
  { unfold play_search.
    destruct (search_draws 3 (deck (discard "searchcard" g0))
                (used (discard "searchcard" g0)) [] r) as [[[dk us] draws] r'].
    shape_steps; [exact Hu0 | exact H0]. }
  destruct (String.eqb card "shieldcard");
    [unfold play_shield; shape_steps; exact H0|].
  destruct (String.eqb card "takecard").
  { unfold play_take.
    destruct (String.eqb target ""); [shape_steps; exact H0|].
    destruct (get_userid_by_username db target) as [t|]; [|shape_steps; exact H0].
    destruct (negb (Z.eqb t 0) && py_in t (alive (discard "takecard" g0))
              && negb (Z.eqb t uid)) eqn:Hc; [|shape_steps; exact H0].
    apply andb_prop in Hc. destruct Hc as [Hc _].
    apply andb_prop in Hc. destruct Hc as [_ Ht]. apply py_in_In in Ht.
    destruct (hand_of (discard "takecard" g0) t) as [|c l];
      [shape_steps; exact H0|].
    shape_steps; [exact Hu0 | exact Ht | exact H0]. }
  destruct (String.eqb card "exchangecard").
  { unfold play_exchange.
    destruct (String.eqb target ""); [shape_steps; exact H0|].
    destruct (get_userid_by_username db target) as [t|]; [|shape_steps; exact H0].
    destruct (negb (Z.eqb t 0) && py_in t (alive (discard "exchangecard" g0))
              && negb (Z.eqb t uid)) eqn:Hc; [|shape_steps; exact H0].
    apply andb_prop in Hc. destruct Hc as [Hc _].
    apply andb_prop in Hc. destruct Hc as [_ Ht]. apply py_in_In in Ht.
    apply shape_add_log.
    apply (shape_set_hand t (hand_of (discard "exchangecard" g0) uid)
             (set_hands (dset uid (hand_of (discard "exchangecard" g0) t)
                              (hands (discard "exchangecard" g0)))
                        (discard "exchangecard" g0))).
    - exact Ht.
    - shape_steps; [exact Hu0 | exact H0]. }
  destruct (String.eqb card "judgecard");
    [unfold play_judge; shape_steps; exact H0|].
  destruct (String.eqb card "accusatecard").
  { unfold play_accusate.
    destruct (String.eqb target ""); [shape_steps; exact H0|].
    destruct (get_userid_by_username db target) as [t|]; [|shape_steps; exact H0].
    destruct (negb (Z.eqb t 0) && py_in t (alive (discard "accusatecard" g0))) eqn:Hc;
      [|shape_steps; exact H0].
    apply andb_prop in Hc. destruct Hc as [_ Ht]. apply py_in_In in Ht.
    destruct (killer (discard "accusatecard" g0)) as [k|].
    - destruct (Z.eqb k t).
      + shape_steps; [discriminate | exact Ht | exact H0].
      + shape_steps; [exact Hu0 | exact H0].
    - shape_steps; [exact Hu0 | exact H0]. }
  assert (Hk : forall k, Some uid = Some k -> In k (players (discard "killcard" g0))).
  { intros k E. injection E as <-. apply (shape_alive g0 H0). exact Hu0. }
  destruct (String.eqb card "killcard").
  { unfold play_kill.
    destruct (String.eqb target ""); [shape_steps; [exact Hk | exact H0]|].
    destruct (get_userid_by_username db target) as [t|];
      [|shape_steps; [exact Hk | exact H0]].
    destruct (negb (Z.eqb t 0)
              && py_in t (alive (set_killer (Some uid) (discard "killcard" g0)))
              && negb (Z.eqb t uid)) eqn:Hc; [|shape_steps; [exact Hk | exact H0]].
    apply andb_prop in Hc. destruct Hc as [Hc _].
    apply andb_prop in Hc. destruct Hc as [_ Ht]. apply py_in_In in Ht.
    destruct (dget t (shields_equipped (set_killer (Some uid) (discard "killcard" g0))))
      as [[|]|].
    - shape_steps; [exact Hu0 | exact Hk | exact H0].
    - shape_steps; [exact Ht | exact Hk | exact H0].
    - shape_steps; [exact Ht | exact Hk | exact H0]. }
  unfold play_other. shape_steps. exact H0.
Qed.

Lemma end_checks_shape g : session_shape g -> session_shape (end_checks g).
Proof.
  intros Hs. unfold end_checks.
  destruct (truthy_id (killer g) && winner_by_killer (alive g) (killer g));
    [apply shape_set_result; exact Hs|].
  destruct (killer g); [exact Hs|].
  destruct (all_hands_empty g); [apply shape_set_result|]; exact Hs.
Qed.

Lemma create_game_shape new_id now r ps w g w' :
  NoDup ps -> List.length ps = MATCH_SIZE ->
  create_game_for_players new_id now r ps w = Some (g, w') -> session_shape g.
Proof.
  intros Hnd Hlen. unfold create_game_for_players.
  destruct (make_new_deck r) as [dk0 r'].
  destruct (deal ps [] dk0) as [[hs dk]|] eqn:E; [|discriminate].
  intros Eg. injection Eg as <- <-.
  destruct (deal_hands ps [] dk0 hs dk Hnd (fun p _ => eq_refl) E) as (Hk & Hh & Hf).
  simpl in Hk.
  constructor; cbn [players alive hands killer]; try assumption.
  - apply incl_refl.
  - intros k Ek. apply find_killer_some in Ek. destruct Ek as (h & Hin & _).
    rewrite <- Hk. apply (in_map fst) in Hin. exact Hin.
  - intros p Hp. unfold hand_of, dget_default. cbn [hands].
    rewrite (Hf p Hp). reflexivity.
Qed.

Lemma reachable_shape w :
  reachable w -> forall gid g, dget gid (games w) = Some g -> session_shape g.
Proof.
  apply reachable_sessions_ind.
  - intros new_id now r ps w0 g w' Hnd Hlen _ Ec.
    exact (create_game_shape new_id now r ps w0 g w' Hnd Hlen Ec).
  - intros db uid card target r g _ _ _ _ Hs Hacc.
    apply end_checks_shape, apply_card_shape; [|exact Hs].
    apply py_in_In. apply Hacc.
Qed.

(** X11: the eliminated hold no cards.  In every session of every
    reachable state, a player who is not alive has an empty hand (the cards
    went to the used pile when the player was eliminated, and no later card
    gives any back). *)
Theorem eliminated_hold_no_cards w gid g p :
  reachable w -> dget gid (games w) = Some g ->
  ~ In p (alive g) -> hand_of g p = [].
Proof.
  intros Hr Hg. apply (shape_dead g (reachable_shape w Hr gid g Hg)).
Qed.

Lemma eliminated_hold_no_cards_witness :
  reachable finished_world /\
  dget "g1"%string (games finished_world) = Some (the_game finished_world) /\
  ~ In 1 (alive (the_game finished_world)) /\
  hand_of (the_game finished_world) 1 = [].
Proof.
  assert (H1 : reachable finished_world) by apply demo_played_reachable.
  assert (H2 : dget "g1"%string (games finished_world) = Some (the_game finished_world))
    by (vm_compute; reflexivity).
  assert (H3 : ~ In 1 (alive (the_game finished_world)))
    by (vm_compute; intuition discriminate).
  split; [exact H1|]. split; [exact H2|]. split; [exact H3|].
  exact (eliminated_hold_no_cards finished_world "g1" (the_game finished_world) 1
           H1 H2 H3).
Defined.

(** X12: the participants of a session.  In every session of every
    reachable state the participants are five distinct players, the hands
    are keyed by exactly the participants, in their order, the players
    alive are distinct participants, and the killer, once known, is a
    participant. *)
Theorem session_participants w gid g :
  reachable w -> dget gid (games w) = Some g ->
  NoDup (players g) /\ List.length (players g) = 5%nat /\
  map fst (hands g) = players g /\
  NoDup (alive g) /\ incl (alive g) (players g) /\
  (forall k, killer g = Some k -> In k (players g)).
Proof.
  intros Hr Hg.
  destruct (reachable_shape w Hr gid g Hg) as [H1 H2 H3 H4 H5 _].
  pose proof (ok_alive_nodup g (ok_games w (reachable_ok w Hr) gid g Hg)) as Hnd.
  repeat apply conj; assumption.
Qed.

Lemma session_participants_witness :
  reachable finished_world /\
  dget "g1"%string (games finished_world) = Some (the_game finished_world) /\
  map fst (hands (the_game finished_world)) = players (the_game finished_world).
Proof.
  assert (H1 : reachable finished_world) by apply demo_played_reachable.
  assert (H2 : dget "g1"%string (games finished_world) = Some (the_game finished_world))
    by (vm_compute; reflexivity).
  split; [exact H1|]. split; [exact H2|].
  exact (proj1 (proj2 (proj2 (session_participants finished_world "g1"
                                 (the_game finished_world) H1 H2)))).
Defined.

(** ** Cards by kind

    Copies of one card name in deck, hands and used pile together. *)

Section KindFacts.
Variable db : Db.
Variable c : string.

Lemma total_count_add_log m g : total_count c (add_log m g) = total_count c g.
Proof. reflexivity. Qed.

Lemma total_count_discard x g :
  total_count c (discard x g) = (total_count c g + count c [x])%nat.
Proof.
  unfold total_count, discard. cbn [deck hands used set_used].
  rewrite count_app. lia.
Qed.

Lemma total_count_set_hand p h g :
  (total_count c (set_hands (dset p h (hands g)) g) + count c (hand_of g p)
   = total_count c g + count c h)%nat.
Proof.
  unfold total_count, hand_of. cbn [deck hands used set_hands].
  pose proof (hands_count_dset c p h (hands g)). lia.
Qed.

Lemma total_count_give p cs g :
  total_count c (set_hands (dset p (hand_of g p ++ cs) (hands g)) g)
  = (total_count c g + count c cs)%nat.
Proof.
  pose proof (total_count_set_hand p (hand_of g p ++ cs) g) as Ht.
  rewrite count_app in Ht. lia.
Qed.

Lemma total_count_eliminate p g : total_count c (eliminate p g) = total_count c g.
Proof.
  pose proof (total_count_set_hand p []
                (set_used (used g ++ hand_of g p)
                          (set_alive (py_remove p (alive g)) g))) as Ht.
  change (count c []) with 0%nat in Ht.
  change (total_count c (eliminate p g) + count c (hand_of g p)
          = total_count c (set_used (used g ++ hand_of g p)
                             (set_alive (py_remove p (alive g)) g)) + 0)%nat in Ht.
  assert (Hu : total_count c (set_used (used g ++ hand_of g p)
                                (set_alive (py_remove p (alive g)) g))
               = (total_count c g + count c (hand_of g p))%nat).
  { unfold total_count. cbn [deck hands used set_used set_alive].
    rewrite count_app. lia. }
  lia.
Qed.

Lemma total_count_remove uid card g :
  py_in card (hand_of g uid) = true ->
  (total_count c (set_hands (dset uid (py_remove card (hand_of g uid)) (hands g)) g)
   + count c [card] = total_count c g)%nat.
Proof.
  intros Hin. apply py_in_In in Hin.
  pose proof (total_count_set_hand uid (py_remove card (hand_of g uid)) g) as Hs.
  rewrite count_single.
  destruct (String.eqb_spec card c) as [->|Hne].
  - pose proof (count_py_remove_same c _ Hin). lia.
  - rewrite count_py_remove_other in Hs by congruence. lia.
Qed.

Lemma count_shuffle l r : count c (fst (shuffle l r)) = count c l.
Proof. apply count_shuffle_from. Qed.

(** Deck, used pile and drawn cards together keep every card through the
    draws of a SEARCH, reshuffle included. *)
Lemma search_draws_kind n : forall dk us draws r dk' us' draws' r',
  search_draws n dk us draws r = (dk', us', draws', r') ->
  (count c dk' + count c us' + count c draws'
   = count c dk + count c us + count c draws)%nat.
Proof.
  induction n as [|n IH]; cbn [search_draws]; intros dk us draws r dk' us' draws' r'.
  - intros E. injection E as <- <- <- <-. reflexivity.
  - destruct dk as [|x dk0].
    + pose proof (count_shuffle us r) as Hs.
      destruct (shuffle us r) as [d r1]. cbn [fst] in Hs.
      destruct (py_pop d) as [[y d2]|] eqn:Ep.
      * intros E. apply IH in E. apply (count_py_pop c) in Ep.
        rewrite count_app in E. change (count c []) with 0%nat in *. lia.
      * intros E. apply IH in E. apply py_pop_none in Ep. subst d.
        change (count c []) with 0%nat in *. lia.
    + destruct (py_pop (x :: dk0)) as [[y d2]|] eqn:Ep.
      * intros E. apply IH in E. apply (count_py_pop c) in Ep.
        rewrite count_app in E. lia.
      * apply py_pop_none in Ep. discriminate.
Qed.

Lemma play_search_kind uid r g :
  total_count c (play_search db uid r g)
  = (total_count c g + count c ["searchcard"%string])%nat.
Proof.
  unfold play_search.
  destruct (search_draws 3 (deck (discard "searchcard" g))
              (used (discard "searchcard" g)) [] r) as [[[dk us] draws] r'] eqn:Es.
  apply search_draws_kind in Es.
  change (total_count c (add_log ?m ?x)) with (total_count c x).
  rewrite total_count_give.
  revert Es. unfold total_count, discard. cbn [deck hands used set_used set_deck].
  rewrite count_app. change (count c []) with 0%nat. lia.
Qed.

Lemma play_take_kind uid target r g :
  total_count c (play_take db uid target r g)
  = (total_count c g + count c ["takecard"%string])%nat.
Proof.
  unfold play_take. pose proof (total_count_discard "takecard" g) as Hd.
  destruct (String.eqb target ""); [exact Hd|].
  destruct (get_userid_by_username db target) as [t|]; [|exact Hd].
  destruct (negb (Z.eqb t 0) && py_in t (alive (discard "takecard" g))
            && negb (Z.eqb t uid)); [|exact Hd].
  destruct (hand_of (discard "takecard" g) t) as [|x th] eqn:Eh; [exact Hd|].
  change (total_count c (add_log ?m ?y)) with (total_count c y).
  rewrite total_count_give.
  pose proof (total_count_set_hand t
                (py_remove (fst (choice x (x :: th) r)) (x :: th))
                (discard "takecard" g)) as Hs.
  rewrite Eh in Hs.
  set (taken := fst (choice x (x :: th) r)) in *.
  assert (Hin : In taken (x :: th)) by apply choice_In.
  assert (Hc : (count c (py_remove taken (x :: th)) + count c [taken]
                = count c (x :: th))%nat).
  { rewrite count_single. destruct (String.eqb_spec taken c) as [->|Hne].
    - pose proof (count_py_remove_same c _ Hin). lia.
    - rewrite count_py_remove_other by congruence. lia. }
  lia.
Qed.

Lemma play_exchange_kind uid target g :
  total_count c (play_exchange db uid target g)
  = (total_count c g + count c ["exchangecard"%string])%nat.
Proof.
  unfold play_exchange. pose proof (total_count_discard "exchangecard" g) as Hd.
  destruct (String.eqb target ""); [exact Hd|].
  destruct (get_userid_by_username db target) as [t|]; [|exact Hd].
  destruct (negb (Z.eqb t 0) && py_in t (alive (discard "exchangecard" g)));
    [|exact Hd].
  destruct (Z.eqb_spec t uid) as [->|Hne]; cbn [negb andb]; [exact Hd|].
  change (total_count c (add_log ?m ?y)) with (total_count c y).
  set (g1 := discard "exchangecard" g) in *.
  pose proof (total_count_set_hand uid (hand_of g1 t) g1) as H1.
  assert (Ht : hand_of (set_hands (dset uid (hand_of g1 t) (hands g1)) g1) t
               = hand_of g1 t).
  { unfold hand_of, dget_default. simpl. rewrite dget_dset_other by assumption.
    reflexivity. }
  pose proof (total_count_set_hand t (hand_of g1 uid)
                (set_hands (dset uid (hand_of g1 t) (hands g1)) g1)) as H2.
  rewrite Ht in H2.
  assert (H3 : (total_count c (set_hands (dset t (hand_of g1 uid)
                                         (dset uid (hand_of g1 t) (hands g1))) g1)
                + count c (hand_of g1 t)
                = total_count c (set_hands (dset uid (hand_of g1 t) (hands g1)) g1)
                  + count c (hand_of g1 uid))%nat) by exact H2.
  lia.
Qed.

Lemma play_accusate_kind uid target g :
  total_count c (play_accusate db uid target g)
  = (total_count c g + count c ["accusatecard"%string])%nat.
Proof.
  unfold play_accusate. pose proof (total_count_discard "accusatecard" g) as Hd.
  destruct (String.eqb target ""); [exact Hd|].
  destruct (get_userid_by_username db target) as [t|]; [|exact Hd].
  destruct (negb (Z.eqb t 0) && py_in t (alive (discard "accusatecard" g)));
    [|exact Hd].
  assert (He : forall p, total_count c (eliminate p (discard "accusatecard" g))
                         = (total_count c g + count c ["accusatecard"%string])%nat)
    by (intros p; rewrite total_count_eliminate; exact Hd).
  destruct (killer (discard "accusatecard" g)) as [k|].
  - destruct (Z.eqb k t); [exact (He t) | exact (He uid)].
  - exact (He uid).
Qed.

Lemma play_kill_kind uid target g :
  total_count c (play_kill db uid target g)
  = (total_count c g + count c ["killcard"%string]
     + if shield_break db g uid "killcard" target
       then count c ["shieldcard"%string] else 0)%nat.
Proof.
  unfold play_kill, shield_break.
  assert (Hd : total_count c (set_killer (Some uid) (discard "killcard" g))
               = (total_count c g + count c ["killcard"%string])%nat)
    by apply total_count_discard.
  cbn [String.eqb Ascii.eqb Bool.eqb andb].
  destruct (String.eqb target ""); cbn [negb andb];
    [rewrite total_count_add_log; lia|].
  destruct (get_userid_by_username db target) as [t|];
    [|rewrite total_count_add_log; lia].
  cbn [alive set_killer discard set_used shields_equipped].
  destruct (negb (Z.eqb t 0) && py_in t (alive g) && negb (Z.eqb t uid));
    cbn [andb]; [|rewrite total_count_add_log; lia].
  destruct (dget t (shields_equipped g)) as [[|]|].
  - rewrite total_count_add_log, total_count_give.
    change (total_count c (set_shields _ ?y)) with (total_count c y). lia.
  - rewrite total_count_add_log, total_count_eliminate. lia.
  - rewrite total_count_add_log, total_count_eliminate. lia.
Qed.

Lemma end_checks_kind g : total_count c (end_checks g) = total_count c g.
Proof.
  unfold end_checks.
  destruct (truthy_id (killer g) && winner_by_killer (alive g) (killer g));
    [reflexivity|].
  destruct (killer g); [reflexivity|].
  destruct (all_hands_empty g); reflexivity.
Qed.

(** The copies of [c] after the [if/elif] chain: an equipped shield leaves
    the count, a broken shield comes back. *)
Lemma apply_card_kind uid card target r g :
  py_in card (hand_of g uid) = true ->
  (total_count c (apply_card db uid card target r g)
   + (if String.eqb card "shieldcard" then count c ["shieldcard"%string] else 0)
   = total_count c g
     + (if shield_break db g uid card target then count c ["shieldcard"%string] else 0))%nat.
Proof.
  intros Hin. pose proof (total_count_remove uid card g Hin) as Hrem.
  unfold apply_card.
  set (g0 := set_hands (dset uid (py_remove card (hand_of g uid)) (hands g)) g) in *.
  assert (Hsb : forall x, shield_break db g uid x target
                          = shield_break db g0 uid x target) by reflexivity.
  card_cases card; cbn [String.eqb Ascii.eqb Bool.eqb];
    try (unfold shield_break; cbn [String.eqb Ascii.eqb Bool.eqb andb]).
  - unfold play_state. rewrite total_count_discard, total_count_add_log. lia.
  - rewrite play_search_kind. lia.
  - unfold play_shield. rewrite total_count_add_log.
    change (total_count c (set_shields _ ?x)) with (total_count c x). lia.
  - rewrite play_take_kind. lia.
  - rewrite play_exchange_kind. lia.
  - unfold play_judge. rewrite total_count_add_log, total_count_discard. lia.
  - rewrite play_accusate_kind. lia.
  - rewrite play_kill_kind. rewrite <- Hsb.
    unfold shield_break; cbn [String.eqb Ascii.eqb Bool.eqb andb]. lia.
  - repeat match goal with
           | Hn : card <> _ |- _ => apply String.eqb_neq in Hn; rewrite Hn; clear Hn
           end.
    cbn [andb]. unfold play_other.
    rewrite total_count_add_log, total_count_discard. lia.
Qed.
End KindFacts.

(** X13: cards are conserved kind by kind.  Whatever the call, the number
    of copies of any card other than [shieldcard] in deck, hands and used
    pile together is the same before and after: cards only move between the
    three places.  (A [shieldcard] leaves when it is equipped and comes
    back when a KILL breaks it.) *)
Theorem cards_are_conserved_by_kind db gid uid form_card target r g c :
  c <> "shieldcard"%string ->
  total_count c (snd (play_card_in db gid uid form_card target r g))
  = total_count c g.
Proof.
  intros Hc.
  destruct (play_card_in_cases db gid uid form_card target r g)
    as [-> | (card & _ & Hacc & ->)]; [reflexivity|].
  rewrite end_checks_kind.
  assert (Hin : py_in card (hand_of g uid) = true) by apply Hacc.
  pose proof (apply_card_kind db c uid card target r g Hin) as Hk.
  assert (E : count c ["shieldcard"%string] = 0%nat).
  { rewrite count_single.
    destruct (String.eqb_spec "shieldcard" c); [congruence | reflexivity]. }
  rewrite E in Hk.
  destruct (String.eqb card "shieldcard");
    destruct (shield_break db g uid card target); lia.
Qed.

Lemma cards_are_conserved_by_kind_witness :
  "killcard"%string <> "shieldcard"%string /\
  total_count "killcard"
    (snd (play_card_in demo_db "g1" 1 (Some "killcard"%string) "bob" []
            (the_game demo_world)))
  = total_count "killcard" (the_game demo_world).
Proof.
  assert (H : "killcard"%string <> "shieldcard"%string) by discriminate.
  split; [exact H|].
  exact (cards_are_conserved_by_kind demo_db "g1" 1 (Some "killcard"%string) "bob" []
           (the_game demo_world) "killcard" H).
Defined.

Lemma create_game_census new_id now r ps w g w' :
  NoDup ps ->
  create_game_for_players new_id now r ps w = Some (g, w') -> census g.
Proof.
  intros Hnd. unfold create_game_for_players.
  destruct (make_new_deck r) as [dk0 r'] eqn:Ed.
  assert (Hc : forall c, count c dk0 = count c unshuffled_deck).
  { intros c. pose proof (count_make_new_deck c r) as H. rewrite Ed in H. exact H. }
  destruct (deal ps [] dk0) as [[hs dk]|] eqn:E; [|discriminate].
  intros Eg. injection Eg as <- <-.
  assert (Ht : forall c, total_count c
                 {| game_id := new_id; players := ps; alive := ps; hands := hs;
                    deck := dk; used := []; killer := find_killer hs;
                    shields_equipped := []; log := []; started_at := now;
                    finished := false; winner := None |}
               = count c unshuffled_deck).
  { intros c.
    destruct (deal_count c ps [] dk0 hs dk Hnd (fun p _ => eq_refl) E) as [Hd _].
    unfold total_count. cbn [deck hands used].
    change (hands_count c []) with 0%nat in Hd.
    change (count c []) with 0%nat. rewrite <- Hc. lia. }
  split.
  - intros c _. apply Ht.
  - rewrite Ht. cbn [shields_equipped List.length]. vm_compute. lia.
Qed.

Lemma apply_card_census db uid card target r g :
  py_in card (hand_of g uid) = true -> census g ->
  census (end_checks (apply_card db uid card target r g)).
Proof.
  intros Hin [Hc Hs]. split.
  - intros c Hne. rewrite end_checks_kind, <- (Hc c Hne).
    pose proof (apply_card_kind db c uid card target r g Hin) as Hk.
    assert (E : count c ["shieldcard"%string] = 0%nat).
    { rewrite count_single.
      destruct (String.eqb_spec "shieldcard" c); [congruence | reflexivity]. }
    rewrite E in Hk.
    destruct (String.eqb card "shieldcard");
      destruct (shield_break db g uid card target); lia.
  - rewrite end_checks_kind, end_checks_shields.
    pose proof (apply_card_kind db "shieldcard" uid card target r g Hin) as Hk.
    change (count "shieldcard" ["shieldcard"%string]) with 1%nat in Hk.
    rewrite apply_card_shields. unfold shields_after.
    destruct (String.eqb card "shieldcard") eqn:Es.
    + apply String.eqb_eq in Es. subst card.
      pose proof (dset_length_le uid true (shields_equipped g)).
      unfold shield_break in Hk. cbn [String.eqb Ascii.eqb Bool.eqb andb] in Hk. lia.
    + destruct (shield_break db g uid card target) eqn:Eb; [|lia].
      unfold shield_break in Eb.
      destruct (get_userid_by_username db target) as [t|];
        [|rewrite andb_false_r in Eb; discriminate].
      destruct (dget t (shields_equipped g)) as [[|]|] eqn:Ed;
        try (rewrite !andb_false_r in Eb; discriminate).
      pose proof (dpop_length _ _ _ Ed). lia.
Qed.

Lemma reachable_census w :
  reachable w -> forall gid g, dget gid (games w) = Some g -> census g.
Proof.
  apply reachable_sessions_ind.
  - intros new_id now r ps w0 g w' Hnd _ _ Ec.
    exact (create_game_census new_id now r ps w0 g w' Hnd Ec).
  - intros db uid card target r g _ _ _ _ Hc Hacc.
    apply apply_card_census; [apply Hacc | exact Hc].
Qed.

Lemma unshuffled_deck_files c : In c unshuffled_deck -> In c CARD_FILES.
Proof.
  intros Hin. simpl in Hin. simpl.
  repeat (destruct Hin as [<-|Hin]; [tauto|]). contradiction.
Qed.

(** X14: the census of a session.  In every session of every reachable
    state, deck, hands and used pile together hold exactly one [killcard],
    one [accusatecard] and five copies of each of [statecard],
    [searchcard], [takecard], [exchangecard] and [judgecard]; the
    [shieldcard]s left and the shield flags are at most five together; and
    every card in the deck, in the used pile or in a hand is one of the
    eight names of [CARD_FILES]. *)
Theorem session_card_census w gid g :
  reachable w -> dget gid (games w) = Some g ->
  total_count "killcard" g = 1%nat /\
  total_count "accusatecard" g = 1%nat /\
  (forall c, In c ["statecard"; "searchcard"; "takecard"; "exchangecard";
                   "judgecard"]%string -> total_count c g = 5%nat) /\
  (total_count "shieldcard" g + List.length (shields_equipped g) <= 5)%nat /\
  (forall c, In c (deck g) \/ In c (used g) \/ (exists p, In c (hand_of g p)) ->
             In c CARD_FILES).
Proof.
  intros Hr Hg. destruct (reachable_census w Hr gid g Hg) as [Hc Hs].
  split; [rewrite Hc by discriminate; reflexivity|].
  split; [rewrite Hc by discriminate; reflexivity|].
  split.
  { intros c Hin. simpl in Hin.
    destruct Hin as [<-|[<-|[<-|[<-|[<-|[]]]]]];
      (rewrite Hc by discriminate); reflexivity. }
  split; [exact Hs|].
  intros c Hin.
  destruct (String.eqb_spec c "shieldcard") as [->|Hne]; [simpl; tauto|].
  apply unshuffled_deck_files. apply count_pos. rewrite <- (Hc c Hne).
  unfold total_count.
  destruct Hin as [Hin | [Hin | (p & Hin)]].
  - apply count_pos in Hin. lia.
  - apply count_pos in Hin. lia.
  - unfold hand_of, dget_default in Hin.
    destruct (dget p (hands g)) as [h|] eqn:Eh; [|destruct Hin].
    apply dget_In in Eh. apply (hands_count_entry c) in Eh.
    apply count_pos in Hin. lia.
Qed.

Lemma session_card_census_witness :
  reachable finished_world /\
  dget "g1"%string (games finished_world) = Some (the_game finished_world) /\
  total_count "killcard" (the_game finished_world) = 1%nat.
Proof.
  assert (H1 : reachable finished_world) by apply demo_played_reachable.
  assert (H2 : dget "g1"%string (games finished_world) = Some (the_game finished_world))
    by (vm_compute; reflexivity).
  split; [exact H1|]. split; [exact H2|].
  exact (proj1 (session_card_census finished_world "g1" (the_game finished_world)
                  H1 H2)).
Defined.

(** ** SEARCH *)

(** The number of cards drawn by the loop of SEARCH: one per round while
    deck and used pile together still hold a card. *)
Lemma search_draws_length n : forall dk us draws r dk' us' draws' r',
  search_draws n dk us draws r = (dk', us', draws', r') ->
  List.length draws'
  = (List.length draws + Nat.min n (List.length dk + List.length us))%nat /\
  (List.length dk' + List.length us' + Nat.min n (List.length dk + List.length us)
   = List.length dk + List.length us)%nat.
Proof.
  induction n as [|n IH]; cbn [search_draws]; intros dk us draws r dk' us' draws' r'.
  - intros E. injection E as <- <- <- <-. simpl. lia.
  - destruct dk as [|x dk0].
    + pose proof (shuffle_length us r) as Hs.
      destruct (shuffle us r) as [d r1]. cbn [fst] in Hs.
      destruct (py_pop d) as [[y d2]|] eqn:Ep.
      * intros E. apply IH in E. apply py_pop_length in Ep.
        rewrite length_app in E. simpl List.length in *. lia.
      * intros E. apply IH in E. apply py_pop_none in Ep. subst d.
        simpl List.length in *. lia.
    + destruct (py_pop (x :: dk0)) as [[y d2]|] eqn:Ep.
      * intros E. apply IH in E. apply py_pop_length in Ep.
        rewrite length_app in E. simpl List.length in *. lia.
      * apply py_pop_none in Ep. discriminate.
Qed.

Lemma hand_of_own k v g : hand_of (set_hands (dset k v (hands g)) g) k = v.
Proof.
  unfold hand_of. cbn [hands set_hands]. rewrite dget_default_dset, Z.eqb_refl.
  reflexivity.
Qed.

Lemma hand_of_other k v g p :
  p <> k -> hand_of (set_hands (dset k v (hands g)) g) p = hand_of g p.
Proof.
  intros Hne. unfold hand_of. cbn [hands set_hands]. rewrite dget_default_dset.
  destruct (Z.eqb_spec p k); [contradiction | reflexivity].
Qed.

(** X15: how many cards SEARCH draws.  A SEARCH that passes the guards
    draws [min 3 (|deck| + |used| + 1)] cards, counted on the state before
    the call: the played [searchcard] is on the used pile before the first
    draw and comes back with the reshuffle when the deck runs out.  So at
    least one card and at most three are drawn, the hand changes by that
    number less one, deck and used pile together lose that number less one,
    and the log entry reports it. *)
Theorem search_draw_count db gid uid target r g :
  accepted g uid "searchcard" ->
  let g' := snd (play_card_in db gid uid (Some "searchcard"%string) target r g) in
  let n := Nat.min 3 (List.length (deck g) + List.length (used g) + 1) in
  (1 <= n <= 3)%nat /\
  (List.length (hand_of g' uid) + 1 = List.length (hand_of g uid) + n)%nat /\
  (List.length (deck g') + List.length (used g') + n
   = List.length (deck g) + List.length (used g) + 1)%nat /\
  log g' = log g ++ [String.append (get_username_by_id db uid)
                       (String.append " searched and drew "
                          (String.append (str_of_nat n) " card(s)."))].
Proof.
  intros Hacc g' n.
  assert (Hin : In "searchcard"%string (hand_of g uid)).
  { apply py_in_In. apply Hacc. }
  subst g'. rewrite (play_card_in_accepted db gid uid _ target r g Hacc). cbn [snd].
  destruct (end_checks_fields (apply_card db uid "searchcard" target r g))
    as (_ & _ & _ & Eh & Ed & Eu & _ & El).
  unfold hand_of. rewrite Eh, Ed, Eu, El. clear Eh Ed Eu El.
  unfold apply_card. cbn [String.eqb Ascii.eqb Bool.eqb].
  set (g0 := set_hands (dset uid (py_remove "searchcard"%string (hand_of g uid))
                             (hands g)) g).
  assert (H0 : hand_of g0 uid = py_remove "searchcard"%string (hand_of g uid))
    by apply hand_of_own.
  unfold play_search, name_of.
  destruct (search_draws 3 (deck (discard "searchcard" g0))
              (used (discard "searchcard" g0)) [] r) as [[[dk us] draws] r'] eqn:Es.
  apply search_draws_length in Es. destruct Es as [Hl Hd].
  assert (Eused : List.length (used (discard "searchcard" g0))
                  = (List.length (used g) + 1)%nat).
  { unfold discard. cbn [used set_used]. rewrite length_app. reflexivity. }
  change (deck (discard "searchcard" g0)) with (deck g) in Hl, Hd.
  rewrite Eused in Hl, Hd.
  rewrite Nat.add_assoc in Hl, Hd. fold n in Hl, Hd.
  simpl List.length in Hl.
  split; [unfold n; lia|].
  split.
  { change (List.length
              (hand_of (set_hands
                 (dset uid (hand_of (set_used us (set_deck dk (discard "searchcard" g0)))
                                    uid ++ draws)
                       (hands (set_used us (set_deck dk (discard "searchcard" g0)))))
                 (set_used us (set_deck dk (discard "searchcard" g0)))) uid) + 1
            = List.length (hand_of g uid) + n)%nat.
    rewrite hand_of_own, length_app.
    change (hand_of (set_used us (set_deck dk (discard "searchcard" g0))) uid)
      with (hand_of g0 uid).
    rewrite H0. pose proof (py_remove_length "searchcard"%string _ Hin). lia. }
  split.
  { cbn [deck used add_log set_hands set_used set_deck]. lia. }
  cbn [log add_log set_hands set_used set_deck discard].
  rewrite Hl. reflexivity.
Qed.

Lemma search_draw_count_witness :
  accepted (the_game search_world) 1 "searchcard"%string /\
  (List.length (hand_of (snd (play_card_in demo_db "g1" 1 (Some "searchcard"%string)
                                ""%string [] (the_game search_world))) 1) + 1
   = List.length (hand_of (the_game search_world) 1)
     + Nat.min 3 (List.length (deck (the_game search_world))
                  + List.length (used (the_game search_world)) + 1))%nat.
Proof.
  assert (H : accepted (the_game search_world) 1 "searchcard"%string)
    by (vm_compute; repeat split; discriminate).
  split; [exact H|].
  exact (proj1 (proj2 (search_draw_count demo_db "g1" 1 ""%string []
                         (the_game search_world) H))).
Defined.

(** With enough cards in the deck the loop of SEARCH pops from its end and
    never looks at the used pile. *)
Lemma search_draws_pops n : forall dk us draws r xs dk',
  py_pop_n n dk = Some (xs, dk') ->
  search_draws n dk us draws r = (dk', us, draws ++ xs, r).
Proof.
  induction n as [|n IH]; cbn [py_pop_n search_draws]; intros dk us draws r xs dk'.
  - intros E. injection E as <- <-. rewrite app_nil_r. reflexivity.
  - destruct dk as [|y dk0]; [discriminate|].
    destruct (py_pop (y :: dk0)) as [[x l1]|]; [|discriminate].
    destruct (py_pop_n n l1) as [[ys l2]|] eqn:E2; [|discriminate].
    intros E. injection E as <- <-.
    rewrite (IH l1 us (draws ++ [x]) r ys l2 E2), <- app_assoc. reflexivity.
Qed.

Lemma py_pop_n_snoc {A} n : forall (l xs l' : list A),
  py_pop_n n l = Some (xs, l') -> l = l' ++ rev xs.
Proof.
  induction n as [|n IH]; cbn [py_pop_n]; intros l xs l'.
  - intros E. injection E as <- <-. rewrite app_nil_r. reflexivity.
  - destruct (py_pop l) as [[x l1]|] eqn:E1; [|discriminate].
    destruct (py_pop_n n l1) as [[ys l2]|] eqn:E2; [|discriminate].
    intros E. injection E as <- <-.
    apply py_pop_snoc in E1. apply IH in E2. subst l l1.
    simpl. rewrite app_assoc. reflexivity.
Qed.

(** X16: SEARCH in a reachable session.  There the deck always holds the
    three cards: a SEARCH that passes the guards moves the last three cards
    of the deck, in the order they are popped, to the end of the actor's
    hand (after the [searchcard] is removed from it), puts the
    [searchcard] on the used pile, and leaves every other hand and the
    alive list as they are; the used pile is not reshuffled. *)
Theorem search_takes_three w db gid uid target r g :
  reachable w -> dget gid (games w) = Some g ->
  accepted g uid "searchcard" ->
  let g' := snd (play_card_in db gid uid (Some "searchcard"%string) target r g) in
  exists xs,
    List.length xs = 3%nat /\
    deck g = deck g' ++ rev xs /\
    hand_of g' uid = py_remove "searchcard"%string (hand_of g uid) ++ xs /\
    (forall p, p <> uid -> hand_of g' p = hand_of g p) /\
    used g' = used g ++ ["searchcard"%string] /\
    alive g' = alive g.
Proof.
  intros Hr Hg Hacc g'.
  assert (Hin : py_in "searchcard"%string (hand_of g uid) = true) by apply Hacc.
  pose proof (sup_search g (reachable_supply w Hr gid g Hg)) as Hs.
  pose proof (in_play_remove "searchcard" uid "searchcard" g Hin) as Hrem.
  rewrite String.eqb_refl in Hrem.
  destruct (py_pop_n_some 3 (deck g)) as (xs & dk' & Hpop); [lia|].
  exists xs.
  destruct (py_pop_n_length 3 _ _ _ Hpop) as [Hl _].
  pose proof (py_pop_n_snoc 3 _ _ _ Hpop) as Hd.
  subst g'. rewrite (play_card_in_accepted db gid uid _ target r g Hacc). cbn [snd].
  destruct (end_checks_fields (apply_card db uid "searchcard" target r g))
    as (_ & _ & Ea & Eh & Ed & Eu & _ & _).
  unfold hand_of. rewrite Eh, Ed, Eu, Ea. clear Eh Ed Eu Ea.
  unfold apply_card. cbn [String.eqb Ascii.eqb Bool.eqb].
  set (g0 := set_hands (dset uid (py_remove "searchcard"%string (hand_of g uid))
                             (hands g)) g).
  unfold play_search.
  rewrite (search_draws_pops 3 (deck (discard "searchcard" g0))
             (used (discard "searchcard" g0)) [] r xs dk' Hpop).
  cbn [deck used alive hands add_log set_hands set_used set_deck discard app].
  split; [exact Hl|]. split; [exact Hd|].
  split.
  { rewrite dget_default_dset, Z.eqb_refl.
    change (hand_of (set_used (used g0 ++ ["searchcard"%string])
                       (set_deck dk' (discard "searchcard" g0))) uid)
      with (dget_default uid [] (hands g0)).
    unfold g0. cbn [hands set_hands].
    rewrite dget_default_dset, Z.eqb_refl. reflexivity. }
  split.
  { intros p Hne. rewrite dget_default_dset.
    destruct (Z.eqb_spec p uid); [contradiction|].
    unfold g0. cbn [hands set_hands]. rewrite dget_default_dset.
    destruct (Z.eqb_spec p uid); [contradiction | reflexivity]. }
  split; reflexivity.
Qed.

Lemma search_takes_three_witness :
  reachable search_world /\
  dget "g1"%string (games search_world) = Some (the_game search_world) /\
  accepted (the_game search_world) 1 "searchcard"%string /\
  exists xs,
    List.length xs = 3%nat /\
    deck (the_game search_world)
    = deck (snd (play_card_in demo_db "g1" 1 (Some "searchcard"%string) ""%string []
                   (the_game search_world))) ++ rev xs.
Proof.
  assert (H1 : reachable search_world) by apply demo_joined_reachable.
  assert (H2 : dget "g1"%string (games search_world) = Some (the_game search_world))
    by (vm_compute; reflexivity).
  assert (H3 : accepted (the_game search_world) 1 "searchcard"%string)
    by (vm_compute; repeat split; discriminate).
  split; [exact H1|]. split; [exact H2|]. split; [exact H3|].
  destruct (search_takes_three search_world demo_db "g1" 1 ""%string []
              (the_game search_world) H1 H2 H3) as (xs & Hl & Hd & _).
  exists xs. split; [exact Hl | exact Hd].
Defined.

(** ** Name lookups *)

Lemma find_unique_key {A B} (f : A -> B) (eqb : B -> B -> bool) l u v :
  (forall x y, eqb x y = true <-> x = y) ->
  NoDup (map f l) -> In u l ->
  find (fun x => eqb (f x) (f u)) l = Some v -> v = u.
Proof.
  intros Heq. induction l as [|a l IH]; simpl; [tauto|].
  intros Hnd Hin. inversion Hnd as [|? ? Ha Hnd']; subst.
  destruct (eqb (f a) (f u)) eqn:E.
  - intros Ev. injection Ev as <-. apply Heq in E.
    destruct Hin as [->|Hin]; [reflexivity|].
    exfalso. apply Ha. rewrite E. apply in_map. exact Hin.
  - destruct Hin as [->|Hin].
    + assert (eqb (f u) (f u) = true) by (apply Heq; reflexivity). congruence.
    + apply IH; assumption.
Qed.

(** X17: names and ids resolve to each other.  With unique usernames, the
    name that [get_username_by_id] gives for a registered id resolves back
    to that id; with unique ids, the id that [get_userid_by_username] gives
    for a name has that name.  An id that is not registered is shown as
    ["UID"] followed by its decimal digits. *)
Theorem username_lookup_round_trip db :
  NoDup (map username db) -> NoDup (map user_id db) ->
  (forall uid, select_by_id db uid <> None ->
     get_userid_by_username db (get_username_by_id db uid) = Some uid) /\
  (forall name uid, get_userid_by_username db name = Some uid ->
     get_username_by_id db uid = name) /\
  (forall uid, select_by_id db uid = None ->
     get_username_by_id db uid = String.append "UID" (str_of_Z uid)).
Proof.
  intros Hn Hi. repeat apply conj.
  - intros uid Hs. unfold get_username_by_id, get_userid_by_username.
    destruct (select_by_id db uid) as [u|] eqn:Eu; [|contradiction].
    unfold select_by_id in Eu. apply find_some in Eu. destruct Eu as [Hin Eid].
    apply Z.eqb_eq in Eid.
    unfold select_by_username.
    destruct (find (fun x => String.eqb (username x) (username u)) db) as [v|] eqn:Ev.
    + apply (find_unique_key username String.eqb db u v String.eqb_eq Hn Hin) in Ev.
      subst v. rewrite Eid. reflexivity.
    + exfalso. apply (find_none _ _ Ev) in Hin. rewrite String.eqb_refl in Hin.
      discriminate.
  - intros name uid. unfold get_userid_by_username, get_username_by_id.
    destruct (select_by_username db name) as [u|] eqn:Eu; [|discriminate].
    intros E. injection E as <-.
    unfold select_by_username in Eu. apply find_some in Eu. destruct Eu as [Hin En].
    apply String.eqb_eq in En.
    unfold select_by_id.
    destruct (find (fun x => Z.eqb (user_id x) (user_id u)) db) as [v|] eqn:Ev.
    + apply (find_unique_key user_id Z.eqb db u v Z.eqb_eq Hi Hin) in Ev.
      subst v. exact En.
    + exfalso. apply (find_none _ _ Ev) in Hin. rewrite Z.eqb_refl in Hin.
      discriminate.
  - intros uid Hs. unfold get_username_by_id. rewrite Hs. reflexivity.
Qed.

Lemma username_lookup_round_trip_witness :
  NoDup (map username demo_db) /\ NoDup (map user_id demo_db) /\
  get_userid_by_username demo_db (get_username_by_id demo_db 3) = Some 3.
Proof.
  assert (H1 : NoDup (map username demo_db)).
  { simpl. repeat constructor; simpl; intuition discriminate. }
  assert (H2 : NoDup (map user_id demo_db)).
  { simpl. repeat constructor; simpl; intuition discriminate. }
  split; [exact H1|]. split; [exact H2|].
  apply (proj1 (username_lookup_round_trip demo_db H1 H2) 3).
  discriminate.
Defined.

(** ** Cards that are spent without effect *)

Lemma inert_card db uid card target r g :
  has_effect db g uid card target = false ->
  exists msg,
    apply_card db uid card target r g
    = add_log msg
        (set_killer (if String.eqb card "killcard" then Some uid else killer g)
           (discard card
              (set_hands (dset uid (py_remove card (hand_of g uid)) (hands g)) g))).
Proof.
  unfold has_effect, target_ok, apply_card.
  set (g0 := set_hands (dset uid (py_remove card (hand_of g uid)) (hands g)) g).
  card_cases card; cbn [String.eqb Ascii.eqb Bool.eqb orb andb negb]; intros H.
  - eexists; reflexivity.
  - discriminate.
  - discriminate.
  - unfold play_take.
    destruct (String.eqb target ""); [eexists; reflexivity|].
    destruct (get_userid_by_username db target) as [t|]; [|eexists; reflexivity].
    change (alive (discard "takecard" g0)) with (alive g).
    cbn [negb andb] in H. rewrite H. eexists; reflexivity.
  - unfold play_exchange.
    destruct (String.eqb target ""); [eexists; reflexivity|].
    destruct (get_userid_by_username db target) as [t|]; [|eexists; reflexivity].
    change (alive (discard "exchangecard" g0)) with (alive g).
    cbn [negb andb] in H. rewrite H. eexists; reflexivity.
  - eexists; reflexivity.
  - unfold play_accusate.
    destruct (String.eqb target ""); [eexists; reflexivity|].
    destruct (get_userid_by_username db target) as [t|]; [|eexists; reflexivity].
    change (alive (discard "accusatecard" g0)) with (alive g).
    cbn [negb andb] in H. rewrite andb_true_r in H. rewrite H. eexists; reflexivity.
  - unfold play_kill.
    destruct (String.eqb target ""); [eexists; reflexivity|].
    destruct (get_userid_by_username db target) as [t|]; [|eexists; reflexivity].
    change (alive (set_killer (Some uid) (discard "killcard" g0))) with (alive g).
    cbn [negb andb] in H. rewrite H. eexists; reflexivity.
  - repeat match goal with
           | Hn : card <> _ |- _ => apply String.eqb_neq in Hn; rewrite Hn; clear Hn
           end.
    eexists; reflexivity.
Qed.



(** ** TAKE from a hand that holds cards *)

Lemma play_take_valid db uid target t r g c th :
  names db target t -> t <> 0 -> In t (alive g) -> t <> uid ->
  hand_of g t = c :: th ->
  play_take db uid target r g
  = let taken := fst (choice c (c :: th) r) in
    let g2 := set_hands (dset t (py_remove taken (c :: th))
                              (hands (discard "takecard" g)))
                        (discard "takecard" g) in
    add_log (String.append (name_of db uid)
               (String.append " took a card from " (String.append target ".")))
      (set_hands (dset uid (hand_of g2 uid ++ [taken]) (hands g2)) g2).
Proof.
  intros [Hne Ht] H0 Hin Hu Hh. unfold play_take.
  apply String.eqb_neq in Hne. rewrite Hne, Ht.
  apply Z.eqb_neq in H0. apply py_in_In in Hin. apply Z.eqb_neq in Hu.
  change (alive (discard "takecard" g)) with (alive g).
  change (hand_of (discard "takecard" g) t) with (hand_of g t).
  rewrite H0, Hin, Hu, Hh. reflexivity.
Qed.

(** X18: a TAKE that finds a card.  A TAKE by an alive holder against an
    alive player other than the actor whose hand is not empty moves exactly
    one card of that hand (its first occurrence) to the end of the actor's
    hand, after the played [takecard] has left it; the [takecard] goes to
    the used pile; the other hands, the deck, the alive list, the killer and
    the shield flags are unchanged. *)
Theorem take_moves_one_card db gid uid target t r g :
  db_wf db -> accepted g uid "takecard" ->
  names db target t -> In t (alive g) -> t <> uid -> hand_of g t <> [] ->
  let g' := snd (play_card_in db gid uid (Some "takecard"%string) target r g) in
  exists taken,
    In taken (hand_of g t) /\
    hand_of g' t = py_remove taken (hand_of g t) /\
    hand_of g' uid = py_remove "takecard"%string (hand_of g uid) ++ [taken] /\
    (forall p, p <> uid -> p <> t -> hand_of g' p = hand_of g p) /\
    used g' = used g ++ ["takecard"%string] /\
    deck g' = deck g /\ alive g' = alive g /\ killer g' = killer g /\
    shields_equipped g' = shields_equipped g.
Proof.
  intros Hwf Hacc Hn Hin Htu Hne g'.
  pose proof (names_positive db target t Hwf Hn) as Ht0.
  set (rest := py_remove "takecard"%string (hand_of g uid)).
  set (g0 := set_hands (dset uid rest (hands g)) g).
  destruct (hand_of g t) as [|c th] eqn:Eh; [contradiction|].
  assert (Hh0 : hand_of g0 t = c :: th).
  { unfold g0. rewrite hand_of_other by exact Htu. exact Eh. }
  assert (Eg : g' = end_checks (play_take db uid target r g0)).
  { unfold g'. rewrite (play_card_in_accepted db gid uid _ target r g Hacc).
    reflexivity. }
  rewrite (play_take_valid db uid target t r g0 c th Hn Ht0 Hin Htu Hh0) in Eg.
  cbv zeta in Eg.
  set (taken := fst (choice c (c :: th) r)) in *.
  exists taken.
  split; [apply choice_In|].
  match type of Eg with _ = end_checks ?x => set (g1 := x) in * end.
  destruct (end_checks_fields g1) as (_ & _ & Ea & Ehh & Ed & Eu & Ek & _).
  pose proof (end_checks_shields g1) as Es.
  rewrite Eg. unfold hand_of. rewrite Ehh, Ed, Eu, Ea, Ek, Es.
  unfold g1.
  cbn [hands deck used alive killer shields_equipped add_log set_hands discard
       set_used].
  assert (Eut : Z.eqb uid t = false) by (apply Z.eqb_neq; congruence).
  assert (Etu : Z.eqb t uid = false) by (apply Z.eqb_neq; exact Htu).
  split.
  { rewrite !dget_default_dset, Etu, Z.eqb_refl. reflexivity. }
  split.
  { rewrite dget_default_dset, Z.eqb_refl.
    unfold hand_of. cbn [hands set_hands].
    rewrite dget_default_dset, Eut.
    unfold g0. cbn [hands set_hands].
    rewrite dget_default_dset, Z.eqb_refl. reflexivity. }
  split.
  { intros p Hpu Hpt. rewrite !dget_default_dset.
    destruct (Z.eqb_spec p uid); [contradiction|].
    destruct (Z.eqb_spec p t); [contradiction|].
    unfold g0. cbn [hands set_hands]. rewrite dget_default_dset.
    destruct (Z.eqb_spec p uid); [contradiction | reflexivity]. }
  repeat split; reflexivity.
Qed.

Lemma take_moves_one_card_witness :
  db_wf demo_db /\
  accepted (the_game demo_world) 5 "takecard"%string /\
  names demo_db "bob" 2 /\ In 2 (alive (the_game demo_world)) /\ 2 <> 5 /\
  hand_of (the_game demo_world) 2 <> [] /\
  exists taken,
    In taken (hand_of (the_game demo_world) 2) /\
    hand_of (snd (play_card_in demo_db "g1" 5 (Some "takecard"%string) "bob" []
                    (the_game demo_world))) 2
    = py_remove taken (hand_of (the_game demo_world) 2).
Proof.
  assert (H1 : accepted (the_game demo_world) 5 "takecard"%string)
    by (vm_compute; repeat split; discriminate).
  assert (H2 : names demo_db "bob" 2)
    by (split; [discriminate | reflexivity]).
  assert (H3 : In 2 (alive (the_game demo_world))) by (vm_compute; tauto).
  assert (H4 : 2 <> 5) by discriminate.
  assert (H5 : hand_of (the_game demo_world) 2 <> []) by (vm_compute; discriminate).
  split; [exact demo_db_wf|]. split; [exact H1|]. split; [exact H2|].
  split; [exact H3|]. split; [exact H4|]. split; [exact H5|].
  destruct (take_moves_one_card demo_db "g1" 5 "bob" 2 [] (the_game demo_world)
              demo_db_wf H1 H2 H3 H4 H5) as (taken & Hi & Ht & _).
  exists taken. split; [exact Hi | exact Ht].
Defined.

(** ** How a session ends *)

Lemma finished_stays db gid uid form_card target r g :
  finished g = true ->
  finished (snd (play_card_in db gid uid form_card target r g)) = true.
Proof.
  intros Hf.
  destruct (play_card_in_cases db gid uid form_card target r g)
    as [-> | (card & _ & _ & ->)]; [exact Hf|].
  assert (H1 : finished (apply_card db uid card target r g) = true).
  { destruct (apply_card_outcome db uid card target r g)
      as [_ _ E _ | _ _ _ E _ | t _ _ _ _ _ E _ | t _ _ _ _ E _ | t _ _ _ _ E _];
      congruence. }
  destruct (end_checks_result (apply_card db uid card target r g))
    as [(_ & E & _) | [(_ & _ & _ & E & _) | (_ & _ & E & _)]]; congruence.
Qed.

Lemma reachable_result w :
  reachable w -> forall gid g, dget gid (games w) = Some g -> result_ok g.
Proof.
  apply reachable_sessions_ind.
  - intros new_id now r ps w0 g w' _ _ _ Ec.
    apply create_game_fields in Ec.
    destruct Ec as (_ & _ & _ & _ & _ & _ & Ef & Ew & _).
    left. split; assumption.
  - intros db uid card target r g Hwf Hpos Hok Hsup Hres Hacc.
    assert (Hu : uid <> 0) by lia.
    pose proof (apply_end_ok db uid card target r g Hu Hacc Hok) as Hok'.
    assert (Hsup' : supply_ok (end_checks (apply_card db uid card target r g))).
    { apply end_checks_supply, apply_card_supply; [apply Hacc | exact Hsup]. }
    pose proof (sup_lethal _ Hsup') as Hl. unfold MATCH_SIZE in Hl.
    assert (Hnk : winner (end_checks (apply_card db uid card target r g))
                  <> Some "killer"%string).
    { intros Hw. destruct (ok_killer_won _ Hok' Hw) as (_ & k & _ & Hal).
      rewrite Hal in Hl. simpl in Hl. lia. }
    assert (H1 : result_ok (apply_card db uid card target r g)).
    { unfold result_ok in *.
      destruct (apply_card_outcome db uid card target r g)
        as [_ _ E1 E2 | _ _ _ E1 E2 | t _ _ _ _ _ E1 E2 | t _ _ _ _ E1 E2
            | t _ _ _ _ E1 E2]; rewrite E1, E2; auto. }
    unfold result_ok in *.
    destruct (end_checks_result (apply_card db uid card target r g))
      as [(_ & _ & E) | [(_ & _ & _ & E1 & E2) | (_ & _ & E1 & E2)]].
    + contradiction.
    + right. split; assumption.
    + rewrite E1, E2. exact H1.
Qed.

(** X20: how an online session can end.  In every session of every
    reachable state at least three players are alive, so the killer is
    never the winner: a session is either open, with no winner, or finished
    and won by the faithfuls.  And no call of [play_card], on any session,
    resets [finished] once it is set. *)
Theorem online_session_result w gid g :
  reachable w -> dget gid (games w) = Some g ->
  (3 <= List.length (alive g))%nat /\
  winner g <> Some "killer"%string /\
  ((finished g = false /\ winner g = None) \/
   (finished g = true /\ winner g = Some "faithfuls"%string)) /\
  (forall db uid form_card target r,
     finished g = true ->
     finished (snd (play_card_in db gid uid form_card target r g)) = true).
Proof.
  intros Hr Hg.
  pose proof (reachable_result w Hr gid g Hg) as Hres.
  split; [exact (reachable_alive w gid g Hr Hg)|].
  split; [destruct Hres as [[_ E] | [_ E]]; rewrite E; discriminate|].
  split; [exact Hres|].
  intros db uid form_card target r. apply finished_stays.
Qed.

Lemma online_session_result_witness :
  reachable finished_world /\
  dget "g1"%string (games finished_world) = Some (the_game finished_world) /\
  winner (the_game finished_world) <> Some "killer"%string.
Proof.
  assert (H1 : reachable finished_world) by apply demo_played_reachable.
  assert (H2 : dget "g1"%string (games finished_world) = Some (the_game finished_world))
    by (vm_compute; reflexivity).
  split; [exact H1|]. split; [exact H2|].
  exact (proj1 (proj2 (online_session_result finished_world "g1"
                         (the_game finished_world) H1 H2))).
Defined.

(** ** [winner_by_killer] on any list *)

(** X21: [winner_by_killer] answers true exactly when a killer is given,
    the alive list is not empty and every entry of it is the killer
    (duplicates included); without a killer it answers false. *)
Theorem winner_by_killer_iff al killer_ :
  winner_by_killer al killer_ = true <->
  exists k, killer_ = Some k /\ al <> [] /\ forall p, In p al -> p = k.
Proof.
  unfold winner_by_killer. destruct killer_ as [k|].
  2:{ split; [discriminate | intros (k & E & _); discriminate]. }
  assert (Hf : List.length (filter (fun p => negb (Z.eqb p k)) al) = 0%nat
               <-> forall p, In p al -> p = k).
  { rewrite length_zero_iff_nil. split.
    - intros Hnil p Hp. destruct (Z.eqb_spec p k) as [|Hne]; [assumption|].
      assert (Hin : In p (filter (fun p => negb (Z.eqb p k)) al)).
      { apply filter_In. split; [exact Hp|].
        apply Z.eqb_neq in Hne. rewrite Hne. reflexivity. }
      rewrite Hnil in Hin. destruct Hin.
    - intros Hall. destruct (filter (fun p => negb (Z.eqb p k)) al) as [|x l] eqn:E;
        [reflexivity|].
      assert (Hin : In x (filter (fun p => negb (Z.eqb p k)) al))
        by (rewrite E; left; reflexivity).
      apply filter_In in Hin. destruct Hin as [Hx Hb].
      rewrite (Hall x Hx), Z.eqb_refl in Hb. discriminate. }
  split.
  - destruct (py_in k al) eqn:Hin; [|discriminate]. cbn [andb].
    destruct (Nat.eqb_spec (List.length (filter (fun p => negb (Z.eqb p k)) al)) 0)
      as [Hz|]; [|discriminate].
    intros _. exists k. split; [reflexivity|].
    apply py_in_In in Hin. split; [intros ->; destruct Hin|].
    apply Hf. exact Hz.
  - intros (k' & E & Hne & Hall). injection E as <-.
    assert (Hin : py_in k al = true).
    { apply py_in_In. destruct al as [|x l]; [contradiction|].
      left. apply Hall. left. reflexivity. }
    rewrite Hin. cbn [andb].
    apply Hf in Hall. rewrite Hall. reflexivity.
Qed.

(** ** The game room

    The room page is never displayed: the render of its template fails. *)

Lemma play_card_in_players db gid uid form_card target r g :
  players (snd (play_card_in db gid uid form_card target r g)) = players g.
Proof.
  destruct (play_card_in_cases db gid uid form_card target r g)
    as [-> | (card & _ & _ & ->)]; [reflexivity|].
  destruct (end_checks_fields (apply_card db uid card target r g)) as (_ & -> & _).
  apply apply_card_identity.
Qed.

(** X22: the redirect of [play_card] lands on the failing render.
    Whenever [play_card] redirects a logged-in user to the game room (after
    a card was played, or with the flash of an eliminated player or of an
    invalid card), the request to [game_room] on the resulting state passes
    the login, session and participant checks and reaches the render, which
    fails with the template error: the room is not displayed.  For that
    user [game_room] ends in the error exactly on the states where the
    session exists and the user is one of its participants. *)
Theorem game_room_after_play db sess gid form_card target r w user fl :
  current_user db sess = Some user ->
  fst (play_card db sess gid form_card target r w) = redirect_game_room gid fl ->
  game_room db sess gid (snd (play_card db sess gid form_card target r w))
  = room_template_error /\
  (forall w0,
     game_room db sess gid w0 = room_template_error <->
     exists g, dget gid (games w0) = Some g /\ In (user_id user) (players g)).
Proof.
  intros Hu Hresp.
  assert (Hchar : forall w0,
            game_room db sess gid w0 = room_template_error <->
            exists g, dget gid (games w0) = Some g /\ In (user_id user) (players g)).
  { intros w0. unfold game_room. rewrite Hu.
    destruct (dget gid (games w0)) as [g|].
    - destruct (py_in (user_id user) (players g)) eqn:Hin; cbn [negb].
      + apply py_in_In in Hin. split; [intros _; exists g; auto | reflexivity].
      + apply py_in_false in Hin. split; [discriminate|].
        intros (g0 & E & Hi). injection E as <-. contradiction.
    - split; [discriminate | intros (g0 & E & _); discriminate]. }
  split; [|exact Hchar].
  apply Hchar. revert Hresp. unfold play_card. rewrite Hu.
  destruct (dget gid (games w)) as [g|] eqn:Eg; [|discriminate].
  pose proof (play_card_in_players db gid (user_id user) form_card target r g) as Hp.
  assert (Hin : fst (play_card_in db gid (user_id user) form_card target r g)
                = redirect_game_room gid fl -> py_in (user_id user) (players g) = true).
  { unfold play_card_in.
    destruct (py_in (user_id user) (players g)); [reflexivity | discriminate]. }
  destruct (play_card_in db gid (user_id user) form_card target r g) as [resp g'].
  cbn [fst snd] in *. intros Er. specialize (Hin Er).
  exists g'. cbn [games]. rewrite dget_dset_same. split; [reflexivity|].
  rewrite Hp. apply py_in_In. exact Hin.
Qed.

Lemma game_room_after_play_witness :
  current_user demo_db (Some 1) = Some (mkUser 1 "ann") /\
  fst (play_card demo_db (Some 1) "g1" (Some "statecard"%string) ""%string []
         demo_world) = redirect_game_room "g1" None /\
  game_room demo_db (Some 1) "g1"
    (snd (play_card demo_db (Some 1) "g1" (Some "statecard"%string) ""%string []
            demo_world))
  = room_template_error.
Proof.
  assert (H1 : current_user demo_db (Some 1) = Some (mkUser 1 "ann")) by reflexivity.
  assert (H2 : fst (play_card demo_db (Some 1) "g1" (Some "statecard"%string)
                      ""%string [] demo_world) = redirect_game_room "g1" None)
    by (vm_compute; reflexivity).
  split; [exact H1|]. split; [exact H2|].
  exact (proj1 (game_room_after_play demo_db (Some 1) "g1" (Some "statecard"%string)
                  ""%string [] demo_world (mkUser 1 "ann") None H1 H2)).
Defined.

(** ** Card images and labels *)

Lemma upper_labels l : In l (map snd CARD_LABEL) -> upper l = l.
Proof.
  simpl. intros H.
  repeat (destruct H as [<-|H]; [reflexivity|]). contradiction.
Qed.

(** X23: what [card_image] serves.  The answer is 404 exactly for the
    names outside [CARD_FILES].  For each of the eight names a PNG file, when
    present, is sent whether or not a PSD exists; otherwise a PSD gives the
    placeholder that prints the card's entry of [CARD_LABEL] (every name has
    one, it is already in upper case, and the fall-back to the card name is
    never taken); with neither file the missing-file placeholder is
    served. *)
Theorem card_image_spec file_exists c :
  map fst CARD_LABEL = CARD_FILES /\
  (card_image file_exists c = image_not_found <-> ~ In c CARD_FILES) /\
  (In c CARD_FILES ->
   exists l,
     dget c CARD_LABEL = Some l /\ upper l = l /\
     card_image file_exists c
     = if file_exists (String.append c ".png") then image_png (String.append c ".png")
       else if file_exists (String.append c ".psd") then image_svg_psd l c
       else image_svg_missing c).
Proof.
  split; [reflexivity|]. split.
  - unfold card_image. destruct (py_in c CARD_FILES) eqn:Hin; cbn [negb].
    + apply py_in_In in Hin. split; [|contradiction].
      destruct (file_exists (String.append c ".png")); [discriminate|].
      destruct (file_exists (String.append c ".psd")); discriminate.
    + apply py_in_false in Hin. tauto.
  - intros Hin. unfold card_image.
    assert (Hp : py_in c CARD_FILES = true) by (apply py_in_In; exact Hin).
    rewrite Hp. cbn [negb].
    simpl in Hin.
    repeat (destruct Hin as [<-|Hin];
            [eexists; split; [reflexivity|]; split; reflexivity|]).
    contradiction.
Qed.

(** X24: every card of a session has its image and its label.  In a
    reachable state, each card in the hand of any player of any session has
    an entry in [CARD_LABEL] and is answered by [card_image] with something
    other than 404, whatever files exist. *)
Theorem session_cards_are_served w gid g p file_exists c :
  reachable w -> dget gid (games w) = Some g ->
  In c (hand_of g p) ->
  (exists l, dget c CARD_LABEL = Some l) /\
  card_image file_exists c <> image_not_found.
Proof.
  intros Hr Eg Hc.
  destruct (reachable_census w Hr gid g Eg) as [Hcen _].
  assert (Hf : In c CARD_FILES).
  { destruct (String.eqb_spec c "shieldcard") as [->|Hne]; [simpl; tauto|].
    apply unshuffled_deck_files. apply count_pos. rewrite <- (Hcen c Hne).
    unfold total_count. unfold hand_of, dget_default in Hc.
    destruct (dget p (hands g)) as [h|] eqn:Eh; [|destruct Hc].
    apply dget_In in Eh. apply (hands_count_entry c) in Eh.
    apply count_pos in Hc. lia. }
  split.
  - simpl in Hf.
    repeat (destruct Hf as [<-|Hf]; [eexists; reflexivity|]). contradiction.
  - unfold card_image. apply py_in_In in Hf. rewrite Hf. cbn [negb].
    destruct (file_exists (String.append c ".png")); [discriminate|].
    destruct (file_exists (String.append c ".psd")); discriminate.
Qed.

Lemma session_cards_are_served_witness :
  reachable demo_world /\
  dget "g1"%string (games demo_world) = Some (the_game demo_world) /\
  In "killcard"%string (hand_of (the_game demo_world) 1) /\
  card_image (fun _ => false) "killcard" <> image_not_found.
Proof.
  assert (H1 : reachable demo_world) by apply demo_joined_reachable.
  assert (H2 : dget "g1"%string (games demo_world) = Some (the_game demo_world))
    by (vm_compute; reflexivity).
  assert (H3 : In "killcard"%string (hand_of (the_game demo_world) 1))
    by (vm_compute; tauto).
  split; [exact H1|]. split; [exact H2|]. split; [exact H3|].
  exact (proj2 (session_cards_are_served demo_world "g1" (the_game demo_world) 1
                  (fun _ => false) "killcard" H1 H2 H3)).
Defined.

(** ** Uploads: [allowed_file] *)

Lemma after_last_dot_none s : after_last_dot s = None <-> dot_free s.
Proof.
  induction s as [|a s IH]; simpl; [tauto|].
  destruct (after_last_dot s) as [e|].
  - split; [discriminate|]. intros [_ Hd]. apply IH in Hd. discriminate.
  - destruct (Ascii.eqb_spec a "."%char) as [->|Hne].
    + split; [discriminate | intros [Hn _]; congruence].
    + split; [intros _; split; [exact Hne | apply IH; reflexivity] | reflexivity].
Qed.

Lemma after_last_dot_some s e :
  after_last_dot s = Some e <->
  exists stem, s = String.append stem (String "."%char e) /\ dot_free e.
Proof.
  split.
  - revert e. induction s as [|a s IH]; simpl; intros e; [discriminate|].
    destruct (after_last_dot s) as [e'|] eqn:E.
    + intros Ee. injection Ee as <-. destruct (IH e' eq_refl) as (stem & -> & Hd).
      exists (String a stem). split; [reflexivity | exact Hd].
    + destruct (Ascii.eqb_spec a "."%char) as [->|Hne]; [|discriminate].
      intros Ee. injection Ee as <-. exists EmptyString.
      split; [reflexivity | apply after_last_dot_none; exact E].
  - intros (stem & -> & Hd). induction stem as [|a stem IH]; simpl.
    + apply after_last_dot_none in Hd. rewrite Hd. reflexivity.
    + rewrite IH. reflexivity.
Qed.

Lemma ascii_lower_upper a : ascii_lower (ascii_upper a) = ascii_lower a.
Proof. destruct a as [[] [] [] [] [] [] [] []]; reflexivity. Qed.

Lemma ascii_upper_dot a : a <> "."%char -> ascii_upper a <> "."%char.
Proof. destruct a as [[] [] [] [] [] [] [] []]; intros H; try discriminate; exact H. Qed.

Lemma lower_upper s : lower (upper s) = lower s.
Proof.
  induction s as [|a s IH]; simpl; [reflexivity|].
  rewrite ascii_lower_upper, IH. reflexivity.
Qed.

Lemma upper_dot_free s : dot_free s -> dot_free (upper s).
Proof.
  induction s as [|a s IH]; simpl; [tauto|].
  intros [Ha Hs]. split; [apply ascii_upper_dot; exact Ha | apply IH; exact Hs].
Qed.

(** X25: which file names [allowed_file] accepts.  A name is accepted
    exactly when it has a dot and the text after its last dot, put in lower
    case, is one of the allowed extensions: a name without a dot is
    rejected, only the last extension counts, and writing the extension in
    upper case changes nothing. *)
Theorem allowed_file_iff name allowed :
  (allowed_file name allowed = true <->
   exists stem ext,
     name = String.append stem (String "."%char ext) /\ dot_free ext /\
     In (lower ext) allowed) /\
  (dot_free name -> allowed_file name allowed = false) /\
  (forall stem ext, dot_free ext ->
     allowed_file (String.append stem (String "."%char (upper ext))) allowed
     = allowed_file (String.append stem (String "."%char ext)) allowed).
Proof.
  split; [|split].
  - unfold allowed_file. split.
    + destruct (after_last_dot name) as [e|] eqn:E; [|discriminate].
      intros Hin. apply after_last_dot_some in E. destruct E as (stem & -> & Hd).
      exists stem, e. split; [reflexivity|]. split; [exact Hd|].
      apply py_in_In. exact Hin.
    + intros (stem & ext & -> & Hd & Hin).
      assert (E : after_last_dot (String.append stem (String "."%char ext)) = Some ext).
      { apply after_last_dot_some. exists stem. split; [reflexivity | exact Hd]. }
      rewrite E. apply py_in_In. exact Hin.
  - intros Hd. unfold allowed_file. apply after_last_dot_none in Hd. rewrite Hd.
    reflexivity.
  - intros stem ext Hd. unfold allowed_file.
    assert (E1 : after_last_dot (String.append stem (String "."%char (upper ext)))
                 = Some (upper ext)).
    { apply after_last_dot_some. exists stem.
      split; [reflexivity | apply upper_dot_free; exact Hd]. }
    assert (E2 : after_last_dot (String.append stem (String "."%char ext)) = Some ext).
    { apply after_last_dot_some. exists stem. split; [reflexivity | exact Hd]. }
    rewrite E1, E2, lower_upper. reflexivity.
Qed.

Lemma allowed_file_iff_witness :
  dot_free "png" /\
  allowed_file "photo.holiday.PNG" ALLOWED_AVATAR
  = allowed_file "photo.holiday.png" ALLOWED_AVATAR.
Proof.
  assert (H : dot_free "png") by (simpl; repeat split; discriminate).
  split; [exact H|].
  exact (proj2 (proj2 (allowed_file_iff "photo.holiday.png" ALLOWED_AVATAR))
           "photo.holiday"%string "png"%string H).
Defined.

(** ** Bots mode *)

Lemma choice_In_nonempty {A} (d : A) l r : l <> [] -> In (fst (choice d l r)) l.
Proof.
  intros Hne. unfold choice.
  assert (Hlen : (0 < List.length l)%nat).
  { destruct l; [contradiction | simpl; lia]. }
  assert (Hj : (fst (randbelow (List.length l) r) < List.length l)%nat).
  { unfold randbelow. destruct r as [|x r']; cbn [fst]; [exact Hlen|].
    apply Nat.mod_upper_bound. lia. }
  destruct (randbelow (List.length l) r) as [j r']. cbn [fst] in *.
  apply nth_In. exact Hj.
Qed.

Lemma hand_at_dset hs k v p :
  hand_at (dset k v hs) p = if String.eqb p k then v else hand_at hs p.
Proof.
  unfold hand_at, dget_default. rewrite dget_dset.
  change (py_eqb p k) with (String.eqb p k). destruct (String.eqb p k); reflexivity.
Qed.

Lemma bot_deal_spec ps : forall hs dk,
  (3 * List.length ps <= List.length dk)%nat ->
  exists hs' dk',
    bot_deal ps hs dk = Some (hs', dk') /\
    (List.length dk' + 3 * List.length ps = List.length dk)%nat /\
    forall p, ~ In p ps -> dget p hs' = dget p hs.
Proof.
  induction ps as [|q ps IH]; cbn [bot_deal]; intros hs dk Hl.
  - exists hs, dk. split; [reflexivity|]. split; [simpl; lia | reflexivity].
  - simpl List.length in Hl.
    destruct (py_pop_n_some 3 dk) as (h & dk1 & Ep); [lia|].
    rewrite Ep. destruct (py_pop_n_length 3 _ _ _ Ep) as [_ Hd].
    destruct (IH (dset q h hs) dk1) as (hs' & dk' & E & Hl' & Hk); [lia|].
    exists hs', dk'. split; [exact E|]. split; [simpl List.length; lia|].
    intros p Hp. rewrite Hk by (intros Hi; apply Hp; right; exact Hi).
    apply dget_dset_other. intros ->. apply Hp. left. reflexivity.
Qed.

Lemma bot_players_nodup : NoDup bot_players.
Proof. unfold bot_players. repeat constructor; simpl; intuition discriminate. Qed.

(** The setup always succeeds; the killer it finds is a player, and a hand
    exists for the five players only. *)
Lemma bots_setup_spec r :
  exists hs k r1,
    bots_setup r = Some (hs, k, r1) /\
    (forall q, k = Some q -> In q bot_players) /\
    (forall p, ~ In p bot_players -> hand_at hs p = []).
Proof.
  unfold bots_setup.
  pose proof (make_new_deck_length r) as Hlen.
  destruct (make_new_deck r) as [dk0 r1]. cbn [fst] in Hlen.
  destruct (bot_deal_spec bot_players [] dk0) as (hs & dk & E & Hl & Hk).
  { rewrite Hlen. simpl. lia. }
  rewrite E.
  assert (Hh : forall p, ~ In p bot_players -> hand_at hs p = []).
  { intros p Hp. unfold hand_at, dget_default. rewrite (Hk p Hp). reflexivity. }
  destruct (find (fun p => py_in "killcard"%string (hand_at hs p)) bot_players)
    as [q|] eqn:Ef.
  - exists hs, (Some q), r1. split; [reflexivity|]. split; [|exact Hh].
    intros q' Eq. injection Eq as <-. apply find_some in Ef. apply Ef.
  - pose proof (shuffle_length (dk ++ ["killcard"%string]) r1) as Hs.
    destruct (shuffle (dk ++ ["killcard"%string]) r1) as [dk2 r2]. cbn [fst] in Hs.
    pose proof (choice_In_nonempty "YOU"%string bot_players r2) as Hq.
    destruct (choice "YOU"%string bot_players r2) as [q r3]. cbn [fst] in Hq.
    destruct (py_pop dk2) as [[c dk3]|] eqn:Ep.
    + eexists _, None, r3. split; [reflexivity|]. split; [discriminate|].
      intros p Hp. rewrite hand_at_dset.
      destruct (String.eqb_spec p q) as [->|Hne]; [|exact (Hh p Hp)].
      exfalso. apply Hp. apply Hq. discriminate.
    + apply py_pop_none in Ep. subst dk2.
      rewrite length_app in Hs. simpl in Hs. lia.
Qed.

Lemma filter_others_nonempty p l :
  NoDup l -> (2 <= List.length l)%nat ->
  filter (fun x => negb (String.eqb x p)) l <> [].
Proof.
  intros Hnd Hl. destruct l as [|a [|b l]]; [simpl in Hl; lia | simpl in Hl; lia|].
  assert (Hab : a <> b).
  { inversion Hnd as [|? ? Ha _]; subst. intros ->. apply Ha. left. reflexivity. }
  simpl.
  destruct (String.eqb_spec a p) as [->|Hap]; cbn [negb]; [|discriminate].
  destruct (String.eqb_spec b p) as [->|Hbp]; cbn [negb]; [congruence | discriminate].
Qed.

Lemma filter_NoDup {A} (f : A -> bool) l : NoDup l -> NoDup (filter f l).
Proof.
  induction 1 as [|x l Hx Hnd IH]; simpl; [constructor|].
  destruct (f x); [|exact IH].
  constructor; [|exact IH]. intros Hi. apply filter_In in Hi. tauto.
Qed.

Section BotsFacts.
Variable k0 : option string.

Lemma bot_kill_ok p st r :
  sim_ok k0 st -> sim_killer st = Some p -> (2 <= List.length (sim_alive st))%nat ->
  sim_ok k0 (fst (bot_kill p st r)).
Proof.
  intros [Hnd Hincl Hk Hka Hg Hd] Hp Hl. unfold bot_kill.
  pose proof (choice_In_nonempty p
                (filter (fun x => negb (String.eqb x p)) (sim_alive st)) r
                (filter_others_nonempty p _ Hnd Hl)) as Ht.
  destruct (choice p (filter (fun x => negb (String.eqb x p)) (sim_alive st)) r)
    as [tgt r1]. cbn [fst] in Ht.
  apply filter_In in Ht. destruct Ht as [Hta Htp].
  assert (Hne : tgt <> p).
  { intros ->. rewrite String.eqb_refl in Htp. discriminate. }
  destruct (py_in "shieldcard"%string (hand_at (sim_hands st) tgt)); cbn [fst].
  - constructor; cbn [sim_alive sim_hands sim_killer]; try assumption.
    intros q Hq. rewrite hand_at_dset.
    destruct (String.eqb_spec q tgt) as [->|_]; [contradiction | exact (Hd q Hq)].
  - constructor; cbn [sim_alive sim_hands sim_killer]; try assumption.
    + apply py_remove_NoDup. exact Hnd.
    + intros x Hx. apply Hincl. eapply py_remove_In. exact Hx.
    + intros k Ek. apply py_remove_In_neq; [exact (Hka k Ek) | congruence].
    + intros k E1 E2 Hi. apply (Hg k E1 E2). eapply py_remove_In. exact Hi.
    + intros q Hq. rewrite hand_at_dset.
      destruct (String.eqb_spec q tgt) as [->|Hqt]; [reflexivity|].
      apply Hd. intros Hi. apply Hq. apply py_remove_In_neq; assumption.
Qed.

Lemma bot_accuse_ok p st r :
  sim_ok k0 st -> sim_killer st <> Some p ->
  sim_ok k0 (fst (fst (bot_accuse p st r))).
Proof.
  intros [Hnd Hincl Hk Hka Hg Hd] Hp. unfold bot_accuse.
  destruct (choice p (sim_alive st) r) as [accused r1].
  assert (Hwrong : sim_ok k0
            (mkSim (py_remove p (sim_alive st)) (dset p [] (sim_hands st))
               (sim_used st ++ hand_at (sim_hands st) p)
               (sim_log st ++ [String.append p
                                 (String.append " used ACCUSATION and was wrong → "
                                    (String.append p " eliminated."))])
               (sim_killer st))).
  { constructor; cbn [sim_alive sim_hands sim_killer]; try assumption.
    - apply py_remove_NoDup. exact Hnd.
    - intros x Hx. apply Hincl. eapply py_remove_In. exact Hx.
    - intros k Ek. apply py_remove_In_neq; [exact (Hka k Ek) | congruence].
    - intros k E1 E2 Hi. apply (Hg k E1 E2). eapply py_remove_In. exact Hi.
    - intros q Hq. rewrite hand_at_dset.
      destruct (String.eqb_spec q p) as [->|Hqp]; [reflexivity|].
      apply Hd. intros Hi. apply Hq. apply py_remove_In_neq; assumption. }
  destruct (sim_killer st) as [k|] eqn:Ek; [|exact Hwrong].
  destruct (String.eqb accused k); [|exact Hwrong]. cbn [fst].
  constructor; cbn [sim_alive sim_hands sim_killer].
  - apply filter_NoDup. exact Hnd.
  - intros x Hx. apply filter_In in Hx. apply Hincl. apply Hx.
  - right. reflexivity.
  - discriminate.
  - intros k' E1 _ Hi. apply filter_In in Hi. destruct Hi as [_ Hb].
    destruct Hk as [Hk|Hk]; [|discriminate].
    assert (k' = k) by congruence. subst k'.
    rewrite String.eqb_refl in Hb. discriminate.
  - intros q Hq. rewrite hand_at_dset.
    destruct (String.eqb_spec q k) as [->|Hqk]; [reflexivity|].
    apply Hd. intros Hi. apply Hq. apply filter_In. split; [exact Hi|].
    apply String.eqb_neq in Hqk. rewrite Hqk. reflexivity.
Qed.

Lemma bot_turn_ok p st r c :
  sim_ok k0 st -> sim_ok k0 (fst (fst (fst (bot_turn p st r c)))).
Proof.
  intros Hok. unfold bot_turn.
  destruct (match sim_killer st with Some k => String.eqb p k | None => false end)
    eqn:Ek.
  - assert (Hp : sim_killer st = Some p).
    { destruct (sim_killer st) as [k|]; [|discriminate].
      apply String.eqb_eq in Ek. congruence. }
    destruct (Nat.leb_spec (List.length (sim_alive st)) 1) as [|Hl]; [exact Hok|].
    destruct (flip c) as [b c1]. destruct b.
    + pose proof (bot_kill_ok p st r Hok Hp) as H.
      destruct (bot_kill p st r) as [st1 r1]. cbn [fst] in *. apply H. lia.
    + cbn [fst]. destruct Hok as [Hnd Hincl Hk Hka Hg Hd].
      constructor; assumption.
  - assert (Hp : sim_killer st <> Some p).
    { intros E. rewrite E, String.eqb_refl in Ek. discriminate. }
    destruct (py_in "accusatecard"%string (hand_at (sim_hands st) p)); [|exact Hok].
    destruct (flip c) as [b c1]. destruct b; [|exact Hok].
    pose proof (bot_accuse_ok p st r Hok Hp) as H.
    destruct (bot_accuse p st r) as [[st1 r1] brk]. exact H.
Qed.

Lemma bot_turns_ok snapshot : forall st r c,
  sim_ok k0 st -> sim_ok k0 (fst (fst (bot_turns snapshot st r c))).
Proof.
  induction snapshot as [|p rest IH]; intros st r c Hok; cbn [bot_turns].
  - exact Hok.
  - pose proof (bot_turn_ok p st r c Hok) as H.
    destruct (bot_turn p st r c) as [[[st1 r1] c1] brk]. cbn [fst] in H.
    destruct (brk || Nat.leb (List.length (sim_alive st1)) 1); [exact H|].
    apply IH. exact H.
Qed.

Lemma bot_rounds_ok fuel : forall n st r c st',
  bot_rounds fuel n st r c = Some st' -> sim_ok k0 st -> sim_ok k0 st'.
Proof.
  induction fuel as [|fuel IH]; intros n st r c st'; cbn [bot_rounds]; [discriminate|].
  intros E Hok.
  pose proof (bot_turns_ok (sim_alive st) st r c Hok) as H.
  destruct (bot_turns (sim_alive st) st r c) as [[st1 r1] c1]. cbn [fst] in H.
  destruct (match sim_killer st1 with None => true | Some _ => false end
            || winner_by_killer_names (sim_alive st1) (sim_killer st1)).
  - injection E as <-. exact H.
  - destruct (Nat.ltb 8 (S n)).
    + injection E as <-. exact H.
    + exact (IH _ _ _ _ _ E H).
Qed.
End BotsFacts.

(** The loop ends within nine rounds. *)
Lemma bot_rounds_total fuel : forall n st r c,
  (9 <= fuel + n)%nat -> fuel <> 0%nat ->
  exists st', bot_rounds fuel n st r c = Some st'.
Proof.
  induction fuel as [|fuel IH]; intros n st r c Hs Hf; [contradiction|].
  cbn [bot_rounds].
  destruct (bot_turns (sim_alive st) st r c) as [[st1 r1] c1].
  destruct (match sim_killer st1 with None => true | Some _ => false end
            || winner_by_killer_names (sim_alive st1) (sim_killer st1));
    [eexists; reflexivity|].
  destruct (Nat.ltb_spec 8 (S n)) as [|Hn]; [eexists; reflexivity|].
  apply IH; lia.
Qed.

Lemma sim_ok_init hs k :
  (forall q, k = Some q -> In q bot_players) ->
  (forall p, ~ In p bot_players -> hand_at hs p = []) ->
  sim_ok k (mkSim bot_players hs [] [] k).
Proof.
  intros Hk Hh. constructor; cbn [sim_alive sim_hands sim_killer].
  - exact bot_players_nodup.
  - apply incl_refl.
  - left. reflexivity.
  - exact Hk.
  - intros q E1 E2. congruence.
  - exact Hh.
Qed.

Lemma human_won_of_spec al k :
  (forall q, k = Some q -> In q al) ->
  human_won_of al k
  = py_in "YOU"%string al && match k with None => true | Some _ => false end.
Proof.
  intros Hk. unfold human_won_of. destruct k as [q|]; [|reflexivity].
  assert (E : py_in q al = true) by (apply py_in_In; apply Hk; reflexivity).
  rewrite E. reflexivity.
Qed.

(** X26: the bots simulation always ends, and the request fails at the
    render.  Whatever the draws, the simulation of [bots_mode] ends within
    nine rounds without an exception.  In its result the players alive are
    distinct players, a killer that is still named is alive, the human's
    hand is empty if the human is not alive, and [human_won] holds exactly
    when the human is alive and no killer is named any more.  The request
    of a logged-in user then always ends in the template error of the
    render, after the user's level has been incremented exactly when
    [human_won] holds; an anonymous request is redirected to the login and
    changes no level. *)
Theorem bots_simulation_ends r c :
  exists page,
    bots_simulation r c = Some page /\
    (forall db sess user, current_user db sess = Some user ->
       bots_mode db sess r c
       = (bots_template_error,
          if human_won page then Some (user_id user) else None)) /\
    (forall db sess, current_user db sess = None ->
       bots_mode db sess r c = (bots_redirect_login, None)) /\
    NoDup (page_alive page) /\ incl (page_alive page) bot_players /\
    (forall k, page_killer page = Some k -> In k (page_alive page)) /\
    (~ In "YOU"%string (page_alive page) -> page_hand page = []) /\
    human_won page
    = py_in "YOU"%string (page_alive page)
      && match page_killer page with None => true | Some _ => false end.
Proof.
  destruct (bots_setup_spec r) as (hs & k & r1 & Es & Hk & Hh).
  destruct (bot_rounds_total 9 0 (mkSim bot_players hs [] [] k) r1 c) as (st & Er);
    [lia | discriminate |].
  pose proof (bot_rounds_ok k 9 0 _ r1 c st Er (sim_ok_init hs k Hk Hh))
    as [Hnd Hincl _ Hka _ Hd].
  assert (E : bots_simulation r c
              = Some (mkBotsPage (hand_at (sim_hands st) "YOU") (sim_log st)
                        (sim_killer st) (sim_alive st)
                        (human_won_of (sim_alive st) (sim_killer st)))).
  { unfold bots_simulation. rewrite Es, Er. reflexivity. }
  eexists. split; [exact E|].
  cbn [page_hand page_log page_killer page_alive human_won].
  split.
  { intros db sess user Hu. unfold bots_mode. rewrite Hu, E. reflexivity. }
  split.
  { intros db sess Hu. unfold bots_mode. rewrite Hu. reflexivity. }
  split; [exact Hnd|]. split; [exact Hincl|]. split; [exact Hka|].
  split; [exact (Hd "YOU"%string)|].
  apply human_won_of_spec. exact Hka.
Qed.

(** X27: the human never wins as the killer.  When the deal names a
    killer, [human_won] can only hold if that killer is another player who
    has been removed by a correct ACCUSATION while the human is still alive.
    In particular a human who is dealt the [killcard] loses every time, also
    as the last player alive, and never gains a level that way. *)
Theorem human_never_wins_as_killer r c hs k r1 page :
  bots_setup r = Some (hs, Some k, r1) ->
  bots_simulation r c = Some page ->
  (k = "YOU"%string -> human_won page = false) /\
  (human_won page = true ->
   k <> "YOU"%string /\ page_killer page = None /\
   ~ In k (page_alive page) /\ In "YOU"%string (page_alive page)).
Proof.
  intros Es Ep.
  destruct (bots_setup_spec r) as (hs' & k' & r1' & Es' & Hk & Hh).
  rewrite Es in Es'. injection Es' as <- <- <-.
  unfold bots_simulation in Ep. rewrite Es in Ep.
  destruct (bot_rounds 9 0 (mkSim bot_players hs [] [] (Some k)) r1 c) as [st|] eqn:Er;
    [|discriminate].
  injection Ep as <-.
  pose proof (bot_rounds_ok (Some k) 9 0 _ r1 c st Er (sim_ok_init hs (Some k) Hk Hh))
    as [_ _ _ Hka Hg _].
  cbn [page_hand page_log page_killer page_alive human_won].
  rewrite (human_won_of_spec _ _ Hka).
  assert (H2 : py_in "YOU"%string (sim_alive st)
               && match sim_killer st with None => true | Some _ => false end = true ->
               k <> "YOU"%string /\ sim_killer st = None /\
               ~ In k (sim_alive st) /\ In "YOU"%string (sim_alive st)).
  { intros Hw. apply andb_prop in Hw. destruct Hw as [Hy Hn].
    apply py_in_In in Hy.
    destruct (sim_killer st) as [q|] eqn:Eq; [discriminate|].
    pose proof (Hg k eq_refl eq_refl) as Hgone.
    repeat split; try assumption. intros ->. contradiction. }
  split; [|exact H2].
  intros ->.
  destruct (py_in "YOU"%string (sim_alive st)
            && match sim_killer st with None => true | Some _ => false end) eqn:E;
    [|reflexivity].
  destruct (H2 eq_refl) as [Hne _]. contradiction.
Qed.

Lemma human_never_wins_as_killer_witness :
  exists hs r1 page,
    bots_setup accuse_draws = Some (hs, Some "BOT1"%string, r1) /\
    bots_simulation accuse_draws [true] = Some page /\
    human_won page = true /\ page_killer page = None.
Proof.
  eexists. eexists. eexists.
  split; [vm_compute; reflexivity|].
  split; [vm_compute; reflexivity|].
  split; [reflexivity|].
  refine (proj1 (proj2 (proj2 (human_never_wins_as_killer accuse_draws [true] _
                                 "BOT1"%string _ _ _ _) _))).
  - vm_compute. reflexivity.
  - vm_compute. reflexivity.
  - reflexivity.
Defined.

(** Without a killer a round only removes players who accuse, so a human
    without the [accusatecard] stays alive. *)
Lemma bot_turns_human snapshot : forall st r c,
  sim_killer st = None ->
  In "YOU"%string (sim_alive st) ->
  ~ In "accusatecard"%string (hand_at (sim_hands st) "YOU") ->
  In "YOU"%string (sim_alive (fst (fst (bot_turns snapshot st r c)))).
Proof.
  induction snapshot as [|p rest IH]; intros st r c Hk Hy Hc; cbn [bot_turns].
  - exact Hy.
  - assert (H : let st1 := fst (fst (fst (bot_turn p st r c))) in
                sim_killer st1 = None /\ In "YOU"%string (sim_alive st1) /\
                ~ In "accusatecard"%string (hand_at (sim_hands st1) "YOU")).
    { unfold bot_turn. rewrite Hk.
      destruct (py_in "accusatecard"%string (hand_at (sim_hands st) p)) eqn:Ea;
        [|cbn [fst]; auto].
      destruct (flip c) as [b c1]. destruct b; [|cbn [fst]; auto].
      unfold bot_accuse. destruct (choice p (sim_alive st) r) as [accused r2].
      rewrite Hk. cbn [fst sim_killer sim_alive sim_hands].
      assert (Hne : "YOU"%string <> p).
      { intros <-. apply py_in_In in Ea. contradiction. }
      split; [reflexivity|].
      split; [apply py_remove_In_neq; assumption|].
      rewrite hand_at_dset.
      destruct (String.eqb_spec "YOU" p); [contradiction | exact Hc]. }
    destruct (bot_turn p st r c) as [[[st1 r1] c1] brk]. cbn [fst] in H.
    destruct H as (H1 & H2 & H3).
    destruct (brk || Nat.leb (List.length (sim_alive st1)) 1); [exact H2|].
    apply IH; assumption.
Qed.

(** X28: a deal without a killer.  When no player is dealt the
    [killcard], nobody is the killer, even if the card handed out afterwards
    is a [killcard]: the simulation stops after its first round, the page
    names no killer, and the human wins exactly when still alive, which is
    certain for a human who does not hold the [accusatecard]. *)
Theorem bots_without_killer r c hs r1 page :
  bots_setup r = Some (hs, None, r1) ->
  bots_simulation r c = Some page ->
  page_killer page = None /\
  human_won page = py_in "YOU"%string (page_alive page) /\
  (~ In "accusatecard"%string (hand_at hs "YOU") -> human_won page = true) /\
  exists st r' c',
    bot_turns bot_players (mkSim bot_players hs [] [] None) r1 c = (st, r', c') /\
    page_alive page = sim_alive st /\ page_log page = sim_log st /\
    page_hand page = hand_at (sim_hands st) "YOU".
Proof.
  intros Es Ep.
  destruct (bots_setup_spec r) as (hs' & k' & r1' & Es' & Hk & Hh).
  rewrite Es in Es'. injection Es' as <- <- <-.
  unfold bots_simulation in Ep. rewrite Es in Ep.
  set (st0 := mkSim bot_players hs [] [] None) in *.
  pose proof (bot_turns_ok None bot_players st0 r1 c (sim_ok_init hs None Hk Hh)) as Hok.
  pose proof (bot_turns_human bot_players st0 r1 c eq_refl) as Hhum.
  cbn [bot_rounds] in Ep.
  change (sim_alive st0) with bot_players in Ep.
  destruct (bot_turns bot_players st0 r1 c) as [[st r'] c'] eqn:Et.
  cbn [fst] in Hok, Hhum.
  assert (Hn : sim_killer st = None).
  { destruct (so_killer None st Hok); assumption. }
  rewrite Hn in Ep. cbn [orb] in Ep. injection Ep as <-.
  cbn [page_hand page_log page_killer page_alive human_won].
  rewrite Hn. unfold human_won_of. rewrite andb_true_r.
  split; [reflexivity|]. split; [reflexivity|].
  split.
  - intros Hc. apply py_in_In. apply Hhum; [|exact Hc].
    simpl. left. reflexivity.
  - exists st, r', c'. repeat split; reflexivity.
Qed.

Lemma bots_without_killer_witness :
  exists hs r1 page,
    bots_setup nokill_draws = Some (hs, None, r1) /\
    bots_simulation nokill_draws [] = Some page /\
    page_killer page = None.
Proof.
  eexists. eexists. eexists.
  split; [vm_compute; reflexivity|].
  split; [vm_compute; reflexivity|].
  refine (proj1 (bots_without_killer nokill_draws [] _ _ _ _ _)).
  - vm_compute. reflexivity.
  - vm_compute. reflexivity.
Defined.
